(** * diigo-mcp: a shallow embedding of the Diigo MCP server core

    The development follows the layering of the Python sources:

    - [utils.py]: tag lists, URL validation, yes/no wire booleans;
    - [diigo_client.py]: the retrying HTTP client and the bookmark
      operations built on it;
    - [tools.py]: the nine public tool operations and their
      [try ... except Exception] boundaries.

    Python values that travel through the code (JSON payloads, request
    parameters, keyword arguments) are values of [json]; a [dict] is an
    association list in insertion order.  Effects (HTTP attempts, sleeps,
    opening and closing the session, calls of [save_bookmark]) are
    recorded in a chronological event log that is threaded through a small
    state-and-exception monad [M].  The outside world (what the server
    answers to the n-th request, whether the client object can be built,
    what a float power evaluates to) is a read-only oracle [World]. *)

From Stdlib Require Import String Ascii List ZArith QArith Lia Bool DecimalString Sorted.
Import ListNotations.

#[local] Set Warnings "-register-all".

Open Scope string_scope.
Open Scope Z_scope.

(** ** Python strings

    A [str] is modelled as a [string] whose characters are the code points
    below 256. *)

Module PyStr.

(** [str.isspace] on one character: TAB..CR, FS..US, SPACE, NEL, NBSP. *)
Definition is_space (c : ascii) : bool :=
  let n := nat_of_ascii c in
  ((9 <=? n)%nat && (n <=? 13)%nat) || ((28 <=? n)%nat && (n <=? 32)%nat)
  || (n =? 133)%nat || (n =? 160)%nat.

Fixpoint lstrip (s : string) : string :=
  match s with
  | EmptyString => EmptyString
  | String c s' => if is_space c then lstrip s' else s
  end.

Fixpoint rstrip (s : string) : string :=
  match s with
  | EmptyString => EmptyString
  | String c s' =>
      match rstrip s' with
      | EmptyString => if is_space c then EmptyString else String c EmptyString
      | r => String c r
      end
  end.

(** [s.strip()] *)
Definition strip (s : string) : string := rstrip (lstrip s).

(** [s.split(sep)] for a one-character separator: always at least one
    piece, empty pieces are kept. *)
Fixpoint split (sep : ascii) (s : string) : list string :=
  match s with
  | EmptyString => [EmptyString]
  | String c s' =>
      if Ascii.eqb c sep then EmptyString :: split sep s'
      else match split sep s' with
           | [] => [String c EmptyString]
           | piece :: pieces => String c piece :: pieces
           end
  end.

(** [sep.join(pieces)] *)
Definition join (sep : string) (pieces : list string) : string :=
  String.concat sep pieces.

(** [c.lower()]: the capital letters of ASCII and of Latin-1 (the
    multiplication sign, 215, is not a letter). *)
Definition lower_char (c : ascii) : ascii :=
  let n := nat_of_ascii c in
  if ((65 <=? n)%nat && (n <=? 90)%nat)
     || ((192 <=? n)%nat && (n <=? 222)%nat && negb (n =? 215)%nat)
  then ascii_of_nat (n + 32) else c.

(** [s.lower()] *)
Fixpoint lower (s : string) : string :=
  match s with
  | EmptyString => EmptyString
  | String c s' => String (lower_char c) (lower s')
  end.

(** [needle in hay] *)
Fixpoint contains (needle hay : string) : bool :=
  prefix needle hay ||
  match hay with
  | EmptyString => false
  | String _ hay' => contains needle hay'
  end.

(** [c in s] for one character. *)
Fixpoint mem_char (c : ascii) (s : string) : bool :=
  match s with
  | EmptyString => false
  | String d s' => Ascii.eqb c d || mem_char c s'
  end.

Definition is_empty (s : string) : bool :=
  match s with EmptyString => true | _ => false end.

(** [str(n)] for an integer. *)
Definition of_Z (z : Z) : string := NilZero.string_of_int (Z.to_int z).

End PyStr.

(** ** Python values

    JSON payloads, request parameters and keyword arguments.  Numbers are
    the integers: the code never inspects a number it receives, and the
    only numbers it produces are counts and indices. *)

Inductive json : Type :=
| JNull
| JBool (b : bool)
| JInt (z : Z)
| JStr (s : string)
| JList (items : list json)
| JDict (fields : list (string * json)).

(** A Python [dict] with string keys, in insertion order. *)
Definition dict : Type := list (string * json).

Module Dict.

(** [d.get(k)] as an option *)
Fixpoint lookup (k : string) (d : dict) : option json :=
  match d with
  | [] => None
  | (k', v) :: d' => if String.eqb k k' then Some v else lookup k d'
  end.

(** [k in d] *)
Definition mem (k : string) (d : dict) : bool :=
  match lookup k d with Some _ => true | None => false end.

(** [d.get(k, default)] *)
Definition get (k : string) (default : json) (d : dict) : json :=
  match lookup k d with Some v => v | None => default end.

(** [d[k] = v]: overwrite in place, or append a new key. *)
Fixpoint set (k : string) (v : json) (d : dict) : dict :=
  match d with
  | [] => [(k, v)]
  | (k', v') :: d' =>
      if String.eqb k k' then (k, v) :: d' else (k', v') :: set k v d'
  end.

Definition keys (d : dict) : list string := map fst d.

End Dict.

(** [isinstance(x, dict) and "error" in x] *)
Definition is_error_dict (x : json) : bool :=
  match x with
  | JDict d => Dict.mem "error" d
  | _ => false
  end.

(** [{"error": msg}] *)
Definition error_dict (msg : string) : json := JDict [("error", JStr msg)].

(** Python truthiness, [bool(x)]. *)
Definition truthy (x : json) : bool :=
  match x with
  | JNull => false
  | JBool b => b
  | JInt z => negb (z =? 0)
  | JStr s => negb (PyStr.is_empty s)
  | JList l => match l with [] => false | _ => true end
  | JDict d => match d with [] => false | _ => true end
  end.

(** [type(x).__name__] *)
Definition type_name (x : json) : string :=
  match x with
  | JNull => "NoneType"
  | JBool _ => "bool"
  | JInt _ => "int"
  | JStr _ => "str"
  | JList _ => "list"
  | JDict _ => "dict"
  end.

(** [x == s] for a string [s]. *)
Definition eq_str (x : json) (s : string) : bool :=
  match x with
  | JStr t => String.eqb t s
  | _ => false
  end.

Definition opt_str (o : option string) : json :=
  match o with Some s => JStr s | None => JNull end.

(** ** utils.py *)

(** [parse_tags] *)
Definition parse_tags (tags_string : string) : list string :=
  if PyStr.is_empty tags_string || PyStr.is_empty (PyStr.strip tags_string)
  then []
  else map PyStr.strip
         (filter (fun t => negb (PyStr.is_empty (PyStr.strip t)))
                 (PyStr.split "," tags_string)).

(** [tags_to_string] *)
Definition tags_to_string (tags : list string) : string :=
  PyStr.join "," tags.

(** [parse_bool_param]: a [bool] or a [str] in, ["yes"] or ["no"] out. *)
Definition parse_bool_param (value : json) : string :=
  match value with
  | JBool b => if b then "yes" else "no"
  | JStr s =>
      if existsb (String.eqb (PyStr.lower s)) ["yes"; "true"; "1"; "y"]
      then "yes" else "no"
  | _ => "no"
  end.

(** What [urllib.parse.urlparse] yields, as far as [validate_url] looks:
    the scheme and the network location, or an exception. *)
Inductive UrlParse : Type :=
| Parsed (scheme netloc : string)
| ParseError.

Section Utils.

(** [urlparse] belongs to the Python library, not to this repository:
    it is a parameter. *)
Variable urlparse : string -> UrlParse.

(** [validate_url] *)
Definition validate_url (url : string) : bool :=
  match urlparse url with
  | Parsed scheme netloc =>
      negb (PyStr.is_empty scheme) && negb (PyStr.is_empty netloc)
  | ParseError => false
  end.

End Utils.

(** ** Configuration (config.py) *)

Record Config : Type := {
  DIIGO_USERNAME : option string;
  DIIGO_PASSWORD : option string;
  DIIGO_API_KEY : option string;
  DIIGO_BASE_URL : string;
  REQUEST_TIMEOUT : Z;
  MAX_BOOKMARKS_PER_REQUEST : Z;
  MAX_RETRIES : Z;
  RETRY_BACKOFF : Q   (* a finite float, given as the rational it is *)
}.

(** [Config.get_default_user] *)
Definition get_default_user (cfg : Config) : option string := DIIGO_USERNAME cfg.

(** ** Exceptions, requests, the world and the event log *)

(** The classes of [Exception] the code tells apart, or raises itself.
    [TimeoutError] stands for every instance of [asyncio.TimeoutError]. *)
Inductive ExcClass : Type :=
| TimeoutError
| AttributeError
| TypeError
| OtherError.

(** An exception: its class and [str(e)]. *)
Record exn : Type := Exn { exc_class : ExcClass; exc_msg : string }.

(** One call of [session.request(method, url, params=..., data=...)]. *)
Record Request : Type := {
  rq_method : string;
  rq_url : string;
  rq_params : dict;
  rq_data : option dict
}.

(** What one attempt yields: a response whose status and body could be
    read, or an exception raised anywhere inside the attempt.  [parsed] is
    what [resp.json()] returns; [None] stands for its [ContentTypeError]
    (any other failure of [resp.json()] or [resp.text()] is a [Failure]). *)
Inductive Attempt : Type :=
| Response (status : Z) (text : string) (parsed : option json)
| Failure (e : exn).

(** The arguments of one [save_bookmark] call. *)
Record SaveArgs : Type := {
  sv_url : json;
  sv_title : json;
  sv_desc : json;
  sv_tags : json;
  sv_shared : json;
  sv_read_later : json;
  sv_merge : json
}.

Inductive Event : Type :=
| EvNew                      (* DiigoClient() *)
| EvEnter                    (* __aenter__: the session is opened *)
| EvExit                     (* __aexit__: the session is closed *)
| EvSave (args : SaveArgs)   (* save_bookmark is entered *)
| EvRequest (r : Request)    (* session.request(...) *)
| EvSleep (seconds : Q).     (* asyncio.sleep(seconds) *)

Definition Log : Type := list Event.

(** What a float power [base ** n] evaluates to: a float, given as the
    rational it is, or the [OverflowError] of a result that is out of
    range, given by its message. *)
Inductive Power : Type :=
| Value (seconds : Q)
| Overflow (message : string).

(** The environment of one tool invocation.  [w_http n r] is what the
    n-th request of the invocation yields when it is [r].  [w_pow base n]
    is the float power [base ** n] of the interpreter: it rounds, and it
    raises when the result is out of range. *)
Record World : Type := {
  w_new : option exn;
  w_enter : option exn;
  w_exit : option exn;
  w_http : nat -> Request -> Attempt;
  w_pow : Q -> nat -> Power
}.

Fixpoint requests_made (log : Log) : nat :=
  match log with
  | [] => 0
  | EvRequest _ :: log' => S (requests_made log')
  | _ :: log' => requests_made log'
  end.

Fixpoint sleeps (log : Log) : list Q :=
  match log with
  | [] => []
  | EvSleep d :: log' => d :: sleeps log'
  | _ :: log' => sleeps log'
  end.

Fixpoint save_calls (log : Log) : list SaveArgs :=
  match log with
  | [] => []
  | EvSave a :: log' => a :: save_calls log'
  | _ :: log' => save_calls log'
  end.

Fixpoint clients_built (log : Log) : nat :=
  match log with
  | [] => 0
  | EvNew :: log' => S (clients_built log')
  | _ :: log' => clients_built log'
  end.

(** ** The monad

    A computation maps the log so far to a result and the extended log.
    [Raise] is a Python exception on its way up; [Spin] says that the
    iteration budget of an unbounded [while True] loop ran out, and is
    never caught. *)

Inductive Res (A : Type) : Type :=
| Ret (a : A)
| Raise (e : exn)
| Spin.

Arguments Ret {A} a.
Arguments Raise {A} e.
Arguments Spin {A}.

Definition M (A : Type) : Type := Log -> Res A * Log.

Definition ret {A : Type} (a : A) : M A := fun log => (Ret a, log).

Definition bind {A B : Type} (c : M A) (k : A -> M B) : M B :=
  fun log =>
    match c log with
    | (Ret a, log') => k a log'
    | (Raise e, log') => (Raise e, log')
    | (Spin, log') => (Spin, log')
    end.

Definition raise {A : Type} (e : exn) : M A := fun log => (Raise e, log).

Definition spin {A : Type} : M A := fun log => (Spin, log).

(** [try: c  except Exception as e: h e] *)
Definition try_except {A : Type} (c : M A) (h : exn -> M A) : M A :=
  fun log =>
    match c log with
    | (Raise e, log') => h e log'
    | other => other
    end.

Definition emit (ev : Event) : M unit := fun log => (Ret tt, (log ++ [ev])%list).

Definition may_fail (o : option exn) : M unit :=
  match o with
  | Some e => raise e
  | None => ret tt
  end.

Declare Scope monad_scope.
Delimit Scope monad_scope with monad.
Notation "x <- c ;; k" := (bind c (fun x => k))
  (at level 61, c at next level, right associativity) : monad_scope.
Notation "c ;; k" := (bind c (fun _ => k))
  (at level 61, right associativity) : monad_scope.
Open Scope monad_scope.

(** ** Operations on Python values that can raise *)

(** [x.get(k, default)] *)
Definition py_get (x : json) (k : string) (default : json) : M json :=
  match x with
  | JDict d => ret (Dict.get k default d)
  | _ => raise (Exn AttributeError
                  ("'" ++ type_name x ++ "' object has no attribute 'get'"))
  end.

(** [x.lower()] *)
Definition py_lower (x : json) : M string :=
  match x with
  | JStr s => ret (PyStr.lower s)
  | _ => raise (Exn AttributeError
                  ("'" ++ type_name x ++ "' object has no attribute 'lower'"))
  end.

Fixpoint chars (s : string) : list json :=
  match s with
  | EmptyString => []
  | String c s' => JStr (String c EmptyString) :: chars s'
  end.

(** The items a [for] loop or [list.extend] draws from [x]. *)
Definition py_iter (x : json) : M (list json) :=
  match x with
  | JList l => ret l
  | JDict d => ret (map JStr (Dict.keys d))
  | JStr s => ret (chars s)
  | _ => raise (Exn TypeError ("'" ++ type_name x ++ "' object is not iterable"))
  end.

(** [len(x)] *)
Definition py_len (x : json) : M Z :=
  match x with
  | JList l => ret (Z.of_nat (List.length l))
  | JDict d => ret (Z.of_nat (List.length d))
  | JStr s => ret (Z.of_nat (String.length s))
  | _ => raise (Exn TypeError
                  ("object of type '" ++ type_name x ++ "' has no len()"))
  end.

(** ** diigo_client.py *)

(** What the body of the retry loop decides after one attempt: the
    function returns, the loop sleeps and goes on, or an exception leaves
    the function. *)
Inductive Decision : Type :=
| Return (result : json)
| RetryAfter (wait : Q)
| Escape (e : exn).

Section Client.

Variable cfg : Config.
Variable w : World.

(** [session.request(...)]: the world answers, the log grows. *)
Definition http_request (r : Request) : M Attempt :=
  fun log => (Ret (w_http w (requests_made log) r), (log ++ [EvRequest r])%list).

(** [asyncio.sleep(seconds)] *)
Definition sleep (seconds : Q) : M unit := emit (EvSleep seconds).

(** [Config.RETRY_BACKOFF ** attempt], a float power. *)
Definition backoff_wait (attempt : nat) : Power :=
  w_pow w (RETRY_BACKOFF cfg) attempt.

(** The tail of the 400 and 503 branches:
    [if attempt < MAX_RETRIES - 1: wait = RETRY_BACKOFF ** attempt,
    sleep(wait), continue  else: return ...].  It stands inside the
    [try]: the [OverflowError] of the power is no [asyncio.TimeoutError],
    so the clause [except Exception] takes it and returns its error. *)
Definition retry_or (attempt : nat) (exhausted : string) : Decision :=
  if Z.of_nat attempt <? MAX_RETRIES cfg - 1 then
    match backoff_wait attempt with
    | Value wait => RetryAfter wait
    | Overflow message => Return (error_dict ("Request failed: " ++ message))
    end
  else Return (error_dict exhausted).

(** The same tail in the clause [except asyncio.TimeoutError].  An
    exception raised inside an [except] clause is not handled by the
    clause that follows it: the [OverflowError] of the power leaves
    [_request_with_retry]. *)
Definition retry_or_raise (attempt : nat) (exhausted : string) : Decision :=
  if Z.of_nat attempt <? MAX_RETRIES cfg - 1 then
    match backoff_wait attempt with
    | Value wait => RetryAfter wait
    | Overflow message => Escape (Exn OtherError message)
    end
  else Return (error_dict exhausted).

(** The [if]/[elif] chain on [resp.status] and the two [except]
    clauses of one loop iteration. *)
Definition on_attempt (attempt : nat) (a : Attempt) : Decision :=
  match a with
  | Response status text parsed =>
      if status =? 200 then
        match parsed with
        | Some payload => Return payload
        | None => Return (JDict [("message", JStr text)])
        end
      else if status =? 400 then
        retry_or attempt
          ("Request failed after " ++ PyStr.of_Z (MAX_RETRIES cfg)
           ++ " attempts: " ++ text)
      else if status =? 401 then
        Return (error_dict ("Authentication failed: " ++ text))
      else if status =? 403 then
        Return (error_dict ("Access forbidden: " ++ text))
      else if status =? 404 then
        Return (error_dict ("Resource not found: " ++ text))
      else if status =? 503 then
        retry_or attempt
          ("Server busy after " ++ PyStr.of_Z (MAX_RETRIES cfg)
           ++ " attempts: " ++ text)
      else
        Return (error_dict ("HTTP " ++ PyStr.of_Z status ++ ": " ++ text))
  | Failure e =>
      match exc_class e with
      | TimeoutError =>
          retry_or_raise attempt
            ("Request timeout after " ++ PyStr.of_Z (MAX_RETRIES cfg)
             ++ " attempts")
      | _ => Return (error_dict ("Request failed: " ++ exc_msg e))
      end
  end.

(** [for attempt in range(Config.MAX_RETRIES): ...] with [remaining]
    iterations to go, then the fallback after the loop. *)
Fixpoint retry_loop (remaining attempt : nat) (r : Request) : M json :=
  match remaining with
  | O => ret (error_dict "Max retries exceeded")
  | S remaining' =>
      a <- http_request r ;;
      match on_attempt attempt a with
      | Return result => ret result
      | RetryAfter wait => sleep wait ;; retry_loop remaining' (S attempt) r
      | Escape e => raise e
      end
  end.

(** The request that [_request_with_retry] sends on every attempt:
    the API key is added to the query parameters. *)
Definition request_of (method endpoint : string) (params : option dict)
    (data : option dict) : Request :=
  {| rq_method := method;
     rq_url := DIIGO_BASE_URL cfg ++ "/" ++ endpoint;
     rq_params :=
       Dict.set "key" (opt_str (DIIGO_API_KEY cfg))
                (match params with Some p => p | None => [] end);
     rq_data := data |}.

(** [DiigoClient._request_with_retry] *)
Definition _request_with_retry (method endpoint : string)
    (params : option dict) (data : option dict) : M json :=
  retry_loop (Z.to_nat (MAX_RETRIES cfg)) 0
             (request_of method endpoint params data).

(** The [params] dict that [get_bookmarks] builds. *)
Definition get_bookmarks_params (user : option string) (start count sort : Z)
    (tags : option string) (filter : string) (list_name : option string)
    : dict :=
  let user := match user with None => get_default_user cfg | Some u => Some u end in
  let params :=
    [("user", opt_str user);
     ("start", JInt start);
     ("count", JInt (Z.min count (MAX_BOOKMARKS_PER_REQUEST cfg)));
     ("sort", JInt sort);
     ("filter", JStr filter)] in
  let params :=
    match tags with
    | Some t => if PyStr.is_empty t then params else Dict.set "tags" (JStr t) params
    | None => params
    end in
  match list_name with
  | Some l => if PyStr.is_empty l then params else Dict.set "list" (JStr l) params
  | None => params
  end.

(** [DiigoClient.get_bookmarks] *)
Definition get_bookmarks (user : option string) (start count sort : Z)
    (tags : option string) (filter : string) (list_name : option string)
    : M json :=
  result <- _request_with_retry "GET" "bookmarks"
              (Some (get_bookmarks_params user start count sort tags filter list_name))
              None ;;
  if is_error_dict result then ret result
  else match result with
       | JList _ => ret result
       | _ => ret (JList [])
       end.

(** The [while True] loop of [get_all_bookmarks], with a budget of
    [fuel] iterations; [filters] are passed on unchanged. *)
Fixpoint get_all_loop (fuel : nat) (user : option string) (sort : Z)
    (tags : option string) (filter : string) (list_name : option string)
    (start : Z) (bookmarks : list json) : M json :=
  match fuel with
  | O => spin
  | S fuel' =>
      batch <- get_bookmarks user start 100 sort tags filter list_name ;;
      if is_error_dict batch then ret batch
      else if negb (truthy batch) then ret (JList bookmarks)
      else
        items <- py_iter batch ;;
        let bookmarks := (bookmarks ++ items)%list in
        n <- py_len batch ;;
        if n <? 100 then ret (JList bookmarks)
        else get_all_loop fuel' user sort tags filter list_name
                          (start + 100) bookmarks
  end.

(** [DiigoClient.get_all_bookmarks]; the keyword filters a caller leaves
    out take the defaults of [get_bookmarks]. *)
Definition get_all_bookmarks (fuel : nat) (user : option string) (sort : Z)
    (tags : option string) (filter : string) (list_name : option string)
    : M json :=
  get_all_loop fuel user sort tags filter list_name 0 [].

(** The [data] dict that [save_bookmark] builds. *)
Definition save_data (a : SaveArgs) : dict :=
  [("url", sv_url a);
   ("title", sv_title a);
   ("desc", sv_desc a);
   ("tags", sv_tags a);
   ("shared", JStr (parse_bool_param (sv_shared a)));
   ("readLater", JStr (parse_bool_param (sv_read_later a)));
   ("merge", JStr (parse_bool_param (sv_merge a)))].

(** [DiigoClient.save_bookmark] *)
Definition save_bookmark (a : SaveArgs) : M json :=
  emit (EvSave a) ;;
  _request_with_retry "POST" "bookmarks" None (Some (save_data a)).

(** [DiigoClient.delete_bookmark] *)
Definition delete_bookmark (url title : json) : M json :=
  _request_with_retry "POST" "bookmarks" None
    (Some [("url", url); ("title", title)]).

(** Binding the keyword arguments of [self.save_bookmark( **bookmark )]:
    the first keyword that names no parameter, or names [self], is a
    [TypeError]; so is a missing [url] or [title]; the other parameters
    take their defaults. *)
Definition save_params : list string :=
  ["url"; "title"; "desc"; "tags"; "shared"; "read_later"; "merge"].

Fixpoint bad_keyword (ks : list string) : option string :=
  match ks with
  | [] => None
  | k :: ks' =>
      if String.eqb k "self" then
        Some ("DiigoClient.save_bookmark() got multiple values for argument 'self'")
      else if existsb (String.eqb k) save_params then bad_keyword ks'
      else Some ("DiigoClient.save_bookmark() got an unexpected keyword argument '"
                 ++ k ++ "'")
  end.

Definition missing_argument (kw : dict) : option string :=
  match Dict.mem "url" kw, Dict.mem "title" kw with
  | true, true => None
  | false, true =>
      Some "DiigoClient.save_bookmark() missing 1 required positional argument: 'url'"
  | true, false =>
      Some "DiigoClient.save_bookmark() missing 1 required positional argument: 'title'"
  | false, false =>
      Some "DiigoClient.save_bookmark() missing 2 required positional arguments: 'url' and 'title'"
  end.

(** The message of the [TypeError] of the call, if it raises one. *)
Definition keyword_error (kw : dict) : option string :=
  match bad_keyword (Dict.keys kw) with
  | Some msg => Some msg
  | None => missing_argument kw
  end.

(** The arguments the call binds when it raises no [TypeError]. *)
Definition bound_args (kw : dict) : SaveArgs :=
  {| sv_url := Dict.get "url" JNull kw;
     sv_title := Dict.get "title" JNull kw;
     sv_desc := Dict.get "desc" (JStr "") kw;
     sv_tags := Dict.get "tags" (JStr "") kw;
     sv_shared := Dict.get "shared" (JBool false) kw;
     sv_read_later := Dict.get "read_later" (JBool false) kw;
     sv_merge := Dict.get "merge" (JBool true) kw |}.

Definition bind_save_kwargs (kw : dict) : M SaveArgs :=
  match keyword_error kw with
  | Some msg => raise (Exn TypeError msg)
  | None => ret (bound_args kw)
  end.

(** One failure record of the bulk summary. *)
Definition failure_record (i : nat) (bookmark : dict) (error : json) : json :=
  JDict [("index", JInt (Z.of_nat i));
         ("url", Dict.get "url" JNull bookmark);
         ("error", error)].

(** One iteration of the [for i, bookmark in enumerate(bookmarks)] loop:
    the [try] block and its [except Exception] handler.  The handler
    sees the counters as they were before the iteration: the only
    statement after the counters change is the sleep, which does not
    raise. *)
Definition bulk_step (total : nat) (delay : Q) (i : nat) (bookmark : dict)
    (success_count : Z) (failed : list json) : M (Z * list json) :=
  try_except
    (args <- bind_save_kwargs bookmark ;;
     result <- save_bookmark args ;;
     counters <-
       (if match result with
           | JDict d => negb (Dict.mem "error" d)
           | _ => false
           end
        then ret (success_count + 1, failed)
        else
          error <- py_get result "error" (JStr "Unknown error") ;;
          ret (success_count, (failed ++ [failure_record i bookmark error])%list)) ;;
     (if Z.of_nat i <? Z.of_nat total - 1 then sleep delay else ret tt) ;;
     ret counters)
    (fun e =>
       ret (success_count,
            (failed ++ [failure_record i bookmark (JStr (exc_msg e))])%list)).

Fixpoint bulk_loop (total : nat) (delay : Q) (i : nat) (bookmarks : list dict)
    (success_count : Z) (failed : list json) : M (Z * list json) :=
  match bookmarks with
  | [] => ret (success_count, failed)
  | bookmark :: rest =>
      counters <- bulk_step total delay i bookmark success_count failed ;;
      bulk_loop total delay (S i) rest (fst counters) (snd counters)
  end.

(** [DiigoClient.bulk_save_bookmarks] *)
Definition bulk_save_bookmarks (bookmarks : list dict) (delay : Q) : M json :=
  counters <- bulk_loop (List.length bookmarks) delay 0 bookmarks 0 [] ;;
  ret (JDict [("total", JInt (Z.of_nat (List.length bookmarks)));
              ("success", JInt (fst counters));
              ("failed", JInt (Z.of_nat (List.length (snd counters))));
              ("failures", JList (snd counters))]).

(** [async with DiigoClient() as client: body]: build the client, open
    the session, run the body, and close the session on every way out of
    the body. *)
Definition with_client {A : Type} (body : M A) : M A :=
  emit EvNew ;;
  may_fail (w_new w) ;;
  emit EvEnter ;;
  may_fail (w_enter w) ;;
  fun log =>
    match body log with
    | (Spin, log') => (Spin, log')
    | (outcome, log') =>
        match (emit EvExit ;; may_fail (w_exit w)) log' with
        | (Ret _, log'') => (outcome, log'')
        | (Raise e, log'') => (Raise e, log'')
        | (Spin, log'') => (Spin, log'')
        end
    end.

End Client.

(** ** tools.py *)

(** One invocation of a public tool, with the arguments of its signature. *)
Inductive ToolCall : Type :=
| ListBookmarks (user : option string) (count : option Z) (start sort : Z)
    (tags : option string) (filter : string) (list_name : option string)
| SearchBookmarks (query : string) (tags : option string) (filter : string)
    (user : option string)
| GetBookmark (url : string) (user : option string)
| CreateBookmark (url title desc tags : string) (shared read_later : bool)
| UpdateBookmark (url : string) (title desc tags : option string)
    (shared read_later : option bool)
| DeleteBookmark (url : string) (title : option string)
| GetRecentBookmarks (count : Z) (user : option string)
| GetAnnotations (url : string) (user : option string)
| BulkCreateBookmarks (bookmarks : list dict) (delay : Q).

Section Tools.

Variable urlparse : string -> UrlParse.
Variable cfg : Config.
Variable w : World.

(** The boundary every tool shares:
    [try: body  except Exception as e: return json.dumps({"error": str(e)})].
    A tool returns [json.dumps(v)]; the model returns [v]. *)
Definition tool_boundary (body : M json) : M json :=
  try_except body (fun e => ret (error_dict (exc_msg e))).

(** [for b in bookmarks: if b.get("url") == url: ...]: the first item
    whose url is [url]. *)
Fixpoint find_by_url (url : string) (items : list json) : M (option json) :=
  match items with
  | [] => ret None
  | b :: rest =>
      u <- py_get b "url" JNull ;;
      if eq_str u url then ret (Some b) else find_by_url url rest
  end.

(** The list comprehension of [search_bookmarks_tool]. *)
Fixpoint search_filter (query_lower : string) (items : list json)
    : M (list json) :=
  match items with
  | [] => ret []
  | b :: rest =>
      title <- py_get b "title" (JStr "") ;;
      title_lower <- py_lower title ;;
      keep <-
        (if PyStr.contains query_lower title_lower then ret true
         else
           desc <- py_get b "desc" (JStr "") ;;
           desc_lower <- py_lower desc ;;
           ret (PyStr.contains query_lower desc_lower)) ;;
      others <- search_filter query_lower rest ;;
      ret (if keep then b :: others else others)
  end.

Definition not_found (url : string) : json :=
  error_dict ("Bookmark not found: " ++ url).

Definition invalid_url (url : string) : json :=
  error_dict ("Invalid URL: " ++ url).

Definition list_bookmarks_tool (fuel : nat) (user : option string)
    (count : option Z) (start sort : Z) (tags : option string)
    (filter : string) (list_name : option string) : M json :=
  tool_boundary
    (with_client w
       (bookmarks <-
          match count with
          | None => get_all_bookmarks cfg w fuel user sort tags filter list_name
          | Some count => get_bookmarks cfg w user start count sort tags filter list_name
          end ;;
        if is_error_dict bookmarks then ret bookmarks else ret bookmarks)).

Definition search_bookmarks_tool (fuel : nat) (query : string)
    (tags : option string) (filter : string) (user : option string) : M json :=
  tool_boundary
    (with_client w
       (bookmarks <- get_all_bookmarks cfg w fuel user 1 tags filter None ;;
        if is_error_dict bookmarks then ret bookmarks
        else
          let query_lower := PyStr.lower query in
          items <- py_iter bookmarks ;;
          results <- search_filter query_lower items ;;
          ret (JList results))).

Definition get_bookmark_tool (fuel : nat) (url : string) (user : option string)
    : M json :=
  tool_boundary
    (with_client w
       (bookmarks <- get_all_bookmarks cfg w fuel user 1 None "all" None ;;
        if is_error_dict bookmarks then ret bookmarks
        else
          items <- py_iter bookmarks ;;
          found <- find_by_url url items ;;
          match found with
          | Some b => ret b
          | None => ret (not_found url)
          end)).

Definition create_bookmark_tool (url title desc tags : string)
    (shared read_later : bool) : M json :=
  tool_boundary
    (if negb (validate_url urlparse url) then ret (invalid_url url)
     else
       with_client w
         (result <- save_bookmark cfg w
                      {| sv_url := JStr url;
                         sv_title := JStr title;
                         sv_desc := JStr desc;
                         sv_tags := JStr tags;
                         sv_shared := JBool shared;
                         sv_read_later := JBool read_later;
                         sv_merge := JBool false |} ;;
          ret result)).

Definition update_bookmark_tool (fuel : nat) (url : string)
    (title desc tags : option string) (shared read_later : option bool)
    : M json :=
  tool_boundary
    (if negb (validate_url urlparse url) then ret (invalid_url url)
     else
       with_client w
         (bookmarks <- get_all_bookmarks cfg w fuel None 1 None "all" None ;;
          if is_error_dict bookmarks then ret bookmarks
          else
            items <- py_iter bookmarks ;;
            existing <- find_by_url url items ;;
            match existing with
            | None => ret (not_found url)
            | Some existing =>
                if negb (truthy existing) then ret (not_found url)
                else
                  title <- match title with
                           | Some t => ret (JStr t)
                           | None => py_get existing "title" (JStr "")
                           end ;;
                  desc <- match desc with
                          | Some d => ret (JStr d)
                          | None => py_get existing "desc" (JStr "")
                          end ;;
                  tags <- match tags with
                          | Some t => ret (JStr t)
                          | None => py_get existing "tags" (JStr "")
                          end ;;
                  shared <- match shared with
                            | Some b => ret (JBool b)
                            | None =>
                                v <- py_get existing "shared" JNull ;;
                                ret (JBool (eq_str v "yes"))
                            end ;;
                  read_later <- match read_later with
                                | Some b => ret (JBool b)
                                | None =>
                                    v <- py_get existing "readlater" JNull ;;
                                    ret (JBool (eq_str v "yes"))
                                end ;;
                  result <- save_bookmark cfg w
                              {| sv_url := JStr url;
                                 sv_title := title;
                                 sv_desc := desc;
                                 sv_tags := tags;
                                 sv_shared := shared;
                                 sv_read_later := read_later;
                                 sv_merge := JBool true |} ;;
                  ret result
            end)).

Definition delete_bookmark_tool (fuel : nat) (url : string)
    (title : option string) : M json :=
  tool_boundary
    (with_client w
       (if truthy (opt_str title) then
          result <- delete_bookmark cfg w (JStr url) (opt_str title) ;;
          ret result
        else
          bookmarks <- get_all_bookmarks cfg w fuel None 1 None "all" None ;;
          if is_error_dict bookmarks then ret bookmarks
          else
            items <- py_iter bookmarks ;;
            found <- find_by_url url items ;;
            title <- match found with
                     | Some b => py_get b "title" JNull
                     | None => ret (opt_str title)
                     end ;;
            if negb (truthy title) then ret (not_found url)
            else
              result <- delete_bookmark cfg w (JStr url) title ;;
              ret result)).

Definition get_recent_bookmarks_tool (count : Z) (user : option string)
    : M json :=
  tool_boundary
    (with_client w
       (bookmarks <- get_bookmarks cfg w user 0 count 1 None "all" None ;;
        if is_error_dict bookmarks then ret bookmarks else ret bookmarks)).

Definition get_annotations_tool (fuel : nat) (url : string)
    (user : option string) : M json :=
  tool_boundary
    (with_client w
       (bookmarks <- get_all_bookmarks cfg w fuel user 1 None "all" None ;;
        if is_error_dict bookmarks then ret bookmarks
        else
          items <- py_iter bookmarks ;;
          found <- find_by_url url items ;;
          match found with
          | Some b =>
              annotations <- py_get b "annotations" (JList []) ;;
              ret annotations
          | None => ret (not_found url)
          end)).

Definition bulk_create_bookmarks_tool (bookmarks : list dict) (delay : Q)
    : M json :=
  tool_boundary
    (with_client w
       (result <- bulk_save_bookmarks cfg w bookmarks delay ;;
        ret result)).

(** The routing of [handle_call_tool]; [fuel] bounds the iterations of
    each pagination loop. *)
Definition run_tool (fuel : nat) (call : ToolCall) : M json :=
  match call with
  | ListBookmarks user count start sort tags filter list_name =>
      list_bookmarks_tool fuel user count start sort tags filter list_name
  | SearchBookmarks query tags filter user =>
      search_bookmarks_tool fuel query tags filter user
  | GetBookmark url user => get_bookmark_tool fuel url user
  | CreateBookmark url title desc tags shared read_later =>
      create_bookmark_tool url title desc tags shared read_later
  | UpdateBookmark url title desc tags shared read_later =>
      update_bookmark_tool fuel url title desc tags shared read_later
  | DeleteBookmark url title => delete_bookmark_tool fuel url title
  | GetRecentBookmarks count user => get_recent_bookmarks_tool count user
  | GetAnnotations url user => get_annotations_tool fuel url user
  | BulkCreateBookmarks bookmarks delay =>
      bulk_create_bookmarks_tool bookmarks delay
  end.

End Tools.


(** ** utils.py, the other helpers *)

(** [d.get(k, default)] for the two constant tables of utils.py. *)
Fixpoint table_get {A : Type} (k : string) (default : A)
    (table : list (string * A)) : A :=
  match table with
  | [] => default
  | (k', v) :: table' => if String.eqb k k' then v else table_get k default table'
  end.

Definition filter_map : list (string * string) :=
  [("all", "all"); ("public", "public"); ("private", "all")].

(** [parse_filter_param] *)
Definition parse_filter_param (filter_value : string) : string :=
  table_get (PyStr.lower filter_value) "all" filter_map.

(** The argument of [parse_sort_param], "string or int" in its
    docstring. *)
Inductive SortArg : Type :=
| SortInt (n : Z)
| SortName (name : string).

Definition sort_map : list (string * Z) :=
  [("created", 0); ("created_at", 0); ("updated", 1); ("updated_at", 1);
   ("popularity", 2); ("hot", 3)].

(** [parse_sort_param] *)
Definition parse_sort_param (sort_value : SortArg) : Z :=
  match sort_value with
  | SortInt n => Z.max 0 (Z.min 3 n)
  | SortName name => table_get (PyStr.lower name) 1 sort_map
  end.

(** The characters that [sanitize_tag] keeps: [A-Za-z0-9@_-]. *)
Definition tag_char (c : ascii) : bool :=
  let n := nat_of_ascii c in
  ((65 <=? n)%nat && (n <=? 90)%nat) || ((97 <=? n)%nat && (n <=? 122)%nat)
  || ((48 <=? n)%nat && (n <=? 57)%nat)
  || Ascii.eqb c "@" || Ascii.eqb c "_" || Ascii.eqb c "-".

(** [re.sub("[^A-Za-z0-9@_-]+", "_", s)], reading [s] from the left;
    [in_run] says that the character before was part of a match, whose
    underscore is already written. *)
Fixpoint sanitize_from (in_run : bool) (s : string) : string :=
  match s with
  | EmptyString => EmptyString
  | String c s' =>
      if tag_char c then String c (sanitize_from false s')
      else if in_run then sanitize_from true s'
      else String "_" (sanitize_from true s')
  end.

(** [sanitize_tag] *)
Definition sanitize_tag (tag : string) : string := sanitize_from false tag.

(** [range(start, stop, step)] for a positive step, as the list of its
    values; [fuel] bounds their number. *)
Fixpoint range_steps (fuel start stop step : nat) : list nat :=
  match fuel with
  | O => []
  | S fuel' =>
      if (start <? stop)%nat
      then start :: range_steps fuel' (start + step) stop step
      else []
  end.

(** [lst[i : i + n]] *)
Definition slice {A : Type} (lst : list A) (i n : nat) : list A :=
  firstn n (skipn i lst).

(** [chunk_list]: a step of zero makes [range] raise [ValueError], a
    negative step makes it empty. *)
Definition chunk_list {A : Type} (lst : list A) (chunk_size : Z)
    : Res (list (list A)) :=
  if chunk_size =? 0 then
    Raise (Exn OtherError "range() arg 3 must not be zero")
  else if chunk_size <? 0 then Ret []
  else
    let n := Z.to_nat chunk_size in
    Ret (map (fun i => slice lst i n)
             (range_steps (List.length lst) 0 (List.length lst) n)).

(** [parse_tags] applied to whatever value a bookmark holds under
    ["tags"]: a falsy value gives no tags, any other value that is not a
    string has no [strip]. *)
Definition parse_tags_value (tags_string : json) : Res (list string) :=
  if negb (truthy tags_string) then Ret []
  else match tags_string with
       | JStr s => Ret (parse_tags s)
       | _ => Raise (Exn AttributeError
                       ("'" ++ type_name tags_string
                        ++ "' object has no attribute 'strip'"))
       end.

Section Format.

(** [generate_bookmark_id] hashes with [uuid] and parses with [datetime],
    and falls back on a random [uuid4]: its result is a parameter. *)
Variable generate_bookmark_id : json -> json -> string.

(** [format_bookmark_json] *)
Definition format_bookmark_json (bookmark : dict) : Res dict :=
  let formatted := bookmark in
  let formatted :=
    if Dict.mem "created_at" bookmark && Dict.mem "url" bookmark
    then Dict.set "generated_id"
           (JStr (generate_bookmark_id (Dict.get "created_at" JNull bookmark)
                                       (Dict.get "url" JNull bookmark)))
           formatted
    else formatted in
  if Dict.mem "tags" bookmark then
    match parse_tags_value (Dict.get "tags" JNull bookmark) with
    | Ret tags_list =>
        Ret (Dict.set "tags_list" (JList (map JStr tags_list)) formatted)
    | Raise e => Raise e
    | Spin => Spin
    end
  else Ret formatted.

End Format.

(** ** config.py *)

Definition newline : string := String (ascii_of_nat 10) EmptyString.

(** The list [required] of [Config.validate]. *)
Definition required (cfg : Config) : list (string * option string) :=
  [("DIIGO_USERNAME", DIIGO_USERNAME cfg);
   ("DIIGO_PASSWORD", DIIGO_PASSWORD cfg);
   ("DIIGO_API_KEY", DIIGO_API_KEY cfg)].

(** [[name for name, value in required if not value]] *)
Definition missing (cfg : Config) : list string :=
  map fst (filter (fun entry => negb (truthy (opt_str (snd entry)))) (required cfg)).

(** [Config.validate]; its [ValueError] is an [OtherError]. *)
Definition validate (cfg : Config) : Res unit :=
  match missing cfg with
  | [] => Ret tt
  | names =>
      Raise (Exn OtherError
               ("Missing required environment variables: " ++ PyStr.join ", " names
                ++ newline ++ "Please set them in your environment or .env file."
                ++ newline ++ "Get your API key at: https://www.diigo.com/api_keys/new/"))
  end.

(** ** main.py *)

(** The nine functions of [tools.py] that [handle_call_tool] calls. *)
Inductive ToolFunction : Type :=
| ListBookmarksTool
| SearchBookmarksTool
| GetBookmarkTool
| CreateBookmarkTool
| UpdateBookmarkTool
| DeleteBookmarkTool
| GetRecentBookmarksTool
| GetAnnotationsTool
| BulkCreateBookmarksTool.

(** The parameters of each function, in the order of its [def] line;
    [true] marks a parameter without a default. *)
Definition signature (f : ToolFunction) : list (string * bool) :=
  match f with
  | ListBookmarksTool =>
      [("user", false); ("count", false); ("start", false); ("sort", false);
       ("tags", false); ("filter", false); ("list_name", false)]
  | SearchBookmarksTool =>
      [("query", true); ("tags", false); ("filter", false); ("user", false)]
  | GetBookmarkTool => [("url", true); ("user", false)]
  | CreateBookmarkTool =>
      [("url", true); ("title", true); ("desc", false); ("tags", false);
       ("shared", false); ("read_later", false)]
  | UpdateBookmarkTool =>
      [("url", true); ("title", false); ("desc", false); ("tags", false);
       ("shared", false); ("read_later", false)]
  | DeleteBookmarkTool => [("url", true); ("title", false)]
  | GetRecentBookmarksTool => [("count", false); ("user", false)]
  | GetAnnotationsTool => [("url", true); ("user", false)]
  | BulkCreateBookmarksTool => [("bookmarks", true); ("delay", false)]
  end.

Definition parameters (f : ToolFunction) : list string := map fst (signature f).

Definition required_parameters (f : ToolFunction) : list string :=
  map fst (filter snd (signature f)).

(** The call [f( **kw )] binds its arguments: every keyword names a
    parameter, and every parameter without a default is given.  Python
    raises a [TypeError] otherwise. *)
Definition binds (f : ToolFunction) (kw : dict) : bool :=
  forallb (fun k => existsb (String.eqb k) (parameters f)) (Dict.keys kw)
  && forallb (fun p => Dict.mem p kw) (required_parameters f).

(** *** Arguments of the types of the signatures

    What a keyword argument gives for a parameter of each annotated
    type; [None] when the value is not of that type. *)

(** [p: str], or [p: str = default] *)
Definition arg_str (p : string) (default : option string) (kw : dict)
    : option string :=
  match Dict.lookup p kw, default with
  | Some (JStr s), _ => Some s
  | None, Some d => Some d
  | _, _ => None
  end.

(** [p: Optional[str] = None] *)
Definition arg_opt_str (p : string) (kw : dict) : option (option string) :=
  match Dict.lookup p kw with
  | None | Some JNull => Some None
  | Some (JStr s) => Some (Some s)
  | Some _ => None
  end.

(** [p: int = default] *)
Definition arg_int (p : string) (default : Z) (kw : dict) : option Z :=
  match Dict.lookup p kw with
  | None => Some default
  | Some (JInt z) => Some z
  | Some _ => None
  end.

(** [p: Optional[int] = None] *)
Definition arg_opt_int (p : string) (kw : dict) : option (option Z) :=
  match Dict.lookup p kw with
  | None | Some JNull => Some None
  | Some (JInt z) => Some (Some z)
  | Some _ => None
  end.

(** [p: bool = default] *)
Definition arg_bool (p : string) (default : bool) (kw : dict) : option bool :=
  match Dict.lookup p kw with
  | None => Some default
  | Some (JBool b) => Some b
  | Some _ => None
  end.

(** [p: Optional[bool] = None] *)
Definition arg_opt_bool (p : string) (kw : dict) : option (option bool) :=
  match Dict.lookup p kw with
  | None | Some JNull => Some None
  | Some (JBool b) => Some (Some b)
  | Some _ => None
  end.

(** [delay: float = 0.5]; the numbers of [json] are the integers. *)
Definition arg_delay (kw : dict) : option Q :=
  match Dict.lookup "delay" kw with
  | None => Some (1 # 2)
  | Some (JInt z) => Some (inject_Z z)
  | Some _ => None
  end.

Fixpoint dicts_of (items : list json) : option (list dict) :=
  match items with
  | [] => Some []
  | JDict d :: rest =>
      match dicts_of rest with
      | Some ds => Some (d :: ds)
      | None => None
      end
  | _ :: _ => None
  end.

(** [bookmarks: List[Dict[str, Any]]] *)
Definition arg_bookmarks (kw : dict) : option (list dict) :=
  match Dict.lookup "bookmarks" kw with
  | Some (JList items) => dicts_of items
  | _ => None
  end.

Definition and_then {A B : Type} (o : option A) (k : A -> option B) : option B :=
  match o with
  | Some a => k a
  | None => None
  end.

(** The invocation that [f( **kw )] is when every argument is of the type
    its parameter is annotated with. *)
Definition typed_call (f : ToolFunction) (kw : dict) : option ToolCall :=
  match f with
  | ListBookmarksTool =>
      and_then (arg_opt_str "user" kw) (fun user =>
      and_then (arg_opt_int "count" kw) (fun count =>
      and_then (arg_int "start" 0 kw) (fun start =>
      and_then (arg_int "sort" 1 kw) (fun sort =>
      and_then (arg_opt_str "tags" kw) (fun tags =>
      and_then (arg_str "filter" (Some "all") kw) (fun filter =>
      and_then (arg_opt_str "list_name" kw) (fun list_name =>
      Some (ListBookmarks user count start sort tags filter list_name))))))))
  | SearchBookmarksTool =>
      and_then (arg_str "query" None kw) (fun query =>
      and_then (arg_opt_str "tags" kw) (fun tags =>
      and_then (arg_str "filter" (Some "all") kw) (fun filter =>
      and_then (arg_opt_str "user" kw) (fun user =>
      Some (SearchBookmarks query tags filter user)))))
  | GetBookmarkTool =>
      and_then (arg_str "url" None kw) (fun url =>
      and_then (arg_opt_str "user" kw) (fun user =>
      Some (GetBookmark url user)))
  | CreateBookmarkTool =>
      and_then (arg_str "url" None kw) (fun url =>
      and_then (arg_str "title" None kw) (fun title =>
      and_then (arg_str "desc" (Some "") kw) (fun desc =>
      and_then (arg_str "tags" (Some "") kw) (fun tags =>
      and_then (arg_bool "shared" false kw) (fun shared =>
      and_then (arg_bool "read_later" false kw) (fun read_later =>
      Some (CreateBookmark url title desc tags shared read_later)))))))
  | UpdateBookmarkTool =>
      and_then (arg_str "url" None kw) (fun url =>
      and_then (arg_opt_str "title" kw) (fun title =>
      and_then (arg_opt_str "desc" kw) (fun desc =>
      and_then (arg_opt_str "tags" kw) (fun tags =>
      and_then (arg_opt_bool "shared" kw) (fun shared =>
      and_then (arg_opt_bool "read_later" kw) (fun read_later =>
      Some (UpdateBookmark url title desc tags shared read_later)))))))
  | DeleteBookmarkTool =>
      and_then (arg_str "url" None kw) (fun url =>
      and_then (arg_opt_str "title" kw) (fun title =>
      Some (DeleteBookmark url title)))
  | GetRecentBookmarksTool =>
      and_then (arg_int "count" 50 kw) (fun count =>
      and_then (arg_opt_str "user" kw) (fun user =>
      Some (GetRecentBookmarks count user)))
  | GetAnnotationsTool =>
      and_then (arg_str "url" None kw) (fun url =>
      and_then (arg_opt_str "user" kw) (fun user =>
      Some (GetAnnotations url user)))
  | BulkCreateBookmarksTool =>
      and_then (arg_bookmarks kw) (fun bookmarks =>
      and_then (arg_delay kw) (fun delay =>
      Some (BulkCreateBookmarks bookmarks delay)))
  end.

(** The [if]/[elif] chain of [handle_call_tool] on the tool name. *)
Definition route (tool_name : json) : option ToolFunction :=
  if eq_str tool_name "diigo_list_bookmarks" then Some ListBookmarksTool
  else if eq_str tool_name "diigo_search_bookmarks" then Some SearchBookmarksTool
  else if eq_str tool_name "diigo_get_bookmark" then Some GetBookmarkTool
  else if eq_str tool_name "diigo_create_bookmark" then Some CreateBookmarkTool
  else if eq_str tool_name "diigo_update_bookmark" then Some UpdateBookmarkTool
  else if eq_str tool_name "diigo_delete_bookmark" then Some DeleteBookmarkTool
  else if eq_str tool_name "diigo_get_recent_bookmarks" then Some GetRecentBookmarksTool
  else if eq_str tool_name "diigo_get_annotations" then Some GetAnnotationsTool
  else if eq_str tool_name "diigo_bulk_create_bookmarks" then Some BulkCreateBookmarksTool
  else None.

(** One entry of [tools_list], as far as the names go: the [name], the
    keys of [inputSchema.properties] in their order, and
    [inputSchema.required] (empty when the schema has none). *)
Record Advertised : Type := {
  ad_name : string;
  ad_properties : list string;
  ad_required : list string
}.

Definition advertised : list Advertised :=
  [ {| ad_name := "diigo_list_bookmarks";
       ad_properties := ["user"; "count"; "start"; "sort"; "tags"; "filter"; "list_name"];
       ad_required := [] |};
    {| ad_name := "diigo_search_bookmarks";
       ad_properties := ["query"; "tags"; "filter"; "user"];
       ad_required := ["query"] |};
    {| ad_name := "diigo_get_bookmark";
       ad_properties := ["url"; "user"];
       ad_required := ["url"] |};
    {| ad_name := "diigo_create_bookmark";
       ad_properties := ["url"; "title"; "desc"; "tags"; "shared"; "read_later"];
       ad_required := ["url"; "title"] |};
    {| ad_name := "diigo_update_bookmark";
       ad_properties := ["url"; "title"; "desc"; "tags"; "shared"; "read_later"];
       ad_required := ["url"] |};
    {| ad_name := "diigo_delete_bookmark";
       ad_properties := ["url"; "title"];
       ad_required := ["url"] |};
    {| ad_name := "diigo_get_recent_bookmarks";
       ad_properties := ["count"; "user"];
       ad_required := [] |};
    {| ad_name := "diigo_get_annotations";
       ad_properties := ["url"; "user"];
       ad_required := ["url"] |};
    {| ad_name := "diigo_bulk_create_bookmarks";
       ad_properties := ["bookmarks"; "delay"];
       ad_required := ["bookmarks"] |} ].

(** [DiigoMCPServer.error_response] *)
Definition error_response (msg_id : json) (code : Z) (message : string) : json :=
  JDict [("jsonrpc", JStr "2.0");
         ("id", msg_id);
         ("error", JDict [("code", JInt code); ("message", JStr message)])].

(** [DiigoMCPServer.handle_initialize] *)
Definition handle_initialize (msg_id params : json) : json :=
  JDict [("jsonrpc", JStr "2.0");
         ("id", msg_id);
         ("result",
          JDict [("protocolVersion", JStr "2024-11-05");
                 ("capabilities", JDict [("tools", JDict [])]);
                 ("serverInfo",
                  JDict [("name", JStr "diigo-mcp-server");
                         ("version", JStr "0.1.0")])])].

(** What one turn of the loop of [run] does with its line. *)
Inductive Turn : Type :=
| Stop
| Skip
| Answer (text : string).

Section Server.

Variable urlparse : string -> UrlParse.
Variable cfg : Config.
Variable w : World.
Variable fuel : nat.

(** [json.dumps] and [json.loads]; [loads] is [None] where it raises. *)
Variable dumps : json -> string.
Variable loads : string -> option json.

(** [str(x)] for a list or a dict. *)
Variable repr : json -> string.

(** [self.tools_list] as a JSON value. *)
Variable tools_list : json.

(** The message of the [TypeError] of a call [f( **arguments )] that does
    not bind its arguments; it is the interpreter's. *)
Variable binding_error : ToolFunction -> json -> string.

(** What stands inside the [try] of a tool function, run on arguments
    that bind but are not all of the types of the signature. *)
Variable untyped_body : ToolFunction -> dict -> M json.

(** [str(x)], as an f-string formats [x]. *)
Definition py_str (x : json) : string :=
  match x with
  | JNull => "None"
  | JBool true => "True"
  | JBool false => "False"
  | JInt z => PyStr.of_Z z
  | JStr s => s
  | _ => repr x
  end.

(** [await tools.f( **arguments )]: the arguments are bound, then the
    function runs inside its own [try ... except Exception]; what it
    returns is [json.dumps] of a value, and the model returns the
    value. *)
Definition call_tool (f : ToolFunction) (arguments : json) : M json :=
  match arguments with
  | JDict kw =>
      if binds f kw then
        match typed_call f kw with
        | Some call => run_tool urlparse cfg w fuel call
        | None => tool_boundary (untyped_body f kw)
        end
      else raise (Exn TypeError (binding_error f arguments))
  | _ => raise (Exn TypeError (binding_error f arguments))
  end.

(** [DiigoMCPServer.handle_list_tools] *)
Definition handle_list_tools (msg_id : json) : json :=
  JDict [("jsonrpc", JStr "2.0");
         ("id", msg_id);
         ("result", JDict [("tools", tools_list)])].

(** [DiigoMCPServer.handle_call_tool] *)
Definition handle_call_tool (msg_id params : json) : M json :=
  tool_name <- py_get params "name" JNull ;;
  arguments <- py_get params "arguments" (JDict []) ;;
  try_except
    (match route tool_name with
     | Some f =>
         result <- call_tool f arguments ;;
         ret (JDict [("jsonrpc", JStr "2.0");
                     ("id", msg_id);
                     ("result",
                      JDict [("content",
                              JList [JDict [("type", JStr "text");
                                            ("text", JStr (dumps result))]])])])
     | None =>
         ret (error_response msg_id (-32602) ("Unknown tool: " ++ py_str tool_name))
     end)
    (fun e => ret (error_response msg_id (-32603) ("Tool error: " ++ exc_msg e))).

(** [DiigoMCPServer.handle_message] *)
Definition handle_message (message : json) : M json :=
  method <- py_get message "method" JNull ;;
  msg_id <- py_get message "id" JNull ;;
  params <- py_get message "params" (JDict []) ;;
  try_except
    (if eq_str method "initialize" then ret (handle_initialize msg_id params)
     else if eq_str method "tools/list" then ret (handle_list_tools msg_id)
     else if eq_str method "tools/call" then handle_call_tool msg_id params
     else ret (error_response msg_id (-32601) ("Method not found: " ++ py_str method)))
    (fun e => ret (error_response msg_id (-32603) ("Internal error: " ++ exc_msg e))).

(** One turn of the [while True] loop of [run] on the line that
    [readline] returned: the empty line is the end of the input; a blank
    line, a line that is no JSON, and a message whose handling raises
    are passed over; otherwise the response is written on a line of its
    own. *)
Definition turn (line : string) : M Turn :=
  try_except
    (if PyStr.is_empty line then ret Stop
     else
       let line := PyStr.strip line in
       if PyStr.is_empty line then ret Skip
       else
         match loads line with
         | None => ret Skip
         | Some message =>
             response <- handle_message message ;;
             ret (Answer (dumps response ++ newline))
         end)
    (fun _ => ret Skip).

(** The loop of [run] on the lines that [readline] returns one after the
    other; when they run out [readline] returns the empty line.  The
    result is what was written to the standard output. *)
Fixpoint serve (lines : list string) : M (list string) :=
  match lines with
  | [] => ret []
  | line :: rest =>
      outcome <- turn line ;;
      match outcome with
      | Stop => ret []
      | Skip => serve rest
      | Answer text =>
          written <- serve rest ;;
          ret (text :: written)
      end
  end.

(** [DiigoMCPServer.run]: the configuration is validated first, and a
    configuration that does not validate ends the process with status 1
    ([inl 1]) before a line is read. *)
Definition run (lines : list string) : M (Z + list string) :=
  match validate cfg with
  | Ret _ => written <- serve lines ;; ret (inr written)
  | _ => ret (inl 1)
  end.

End Server.

(** * Vocabulary of the properties *)

(** ** Tag lists *)

(** A tag as the round-trip law wants it: non-empty and trimmed. *)
Definition clean_tag (t : string) : Prop :=
  t <> EmptyString /\ PyStr.strip t = t.

(** A tag that the wire format can carry: it holds no comma. *)
Definition comma_free (t : string) : Prop :=
  PyStr.mem_char "," t = false.

(** ** Attempts and the events of a retried request *)

(** HTTP 400, HTTP 503 and a timeout are the outcomes the client retries. *)
Definition is_transient (a : Attempt) : bool :=
  match a with
  | Response status _ _ => (status =? 400) || (status =? 503)
  | Failure e =>
      match exc_class e with
      | TimeoutError => true
      | _ => false
      end
  end.

(** The events of retried attempts: each is a request followed by its
    backoff sleep; [waits] are the sleeps, one for each attempt. *)
Definition retry_events (r : Request) (waits : list Q) : Log :=
  flat_map (fun wait => [EvRequest r; EvSleep wait]) waits.

(** The backoff powers of the attempts [from], [from + 1], ... evaluate
    to the floats [waits], in that order: none of them overflows. *)
Definition backs_off (cfg : Config) (w : World) (from : nat) (waits : list Q) : Prop :=
  map (backoff_wait cfg w) (seq from (List.length waits)) = map Value waits.

(** The request [r] stands in [log'], the log of a call that started at
    [log], after the events [before] and before the events [after]. *)
Definition sent (log log' before : Log) (r : Request) (after : Log) : Prop :=
  log' = (log ++ before ++ EvRequest r :: after)%list.

(** What the server answers to that request: requests are answered by
    their number. *)
Definition answer (w : World) (log before : Log) (r : Request) : Attempt :=
  w_http w (requests_made (log ++ before)%list) r.

(** The message of the error returned when the last attempt is [a]. *)
Definition exhausted_message (cfg : Config) (a : Attempt) : string :=
  match a with
  | Response status text _ =>
      if status =? 400
      then "Request failed after " ++ PyStr.of_Z (MAX_RETRIES cfg)
           ++ " attempts: " ++ text
      else "Server busy after " ++ PyStr.of_Z (MAX_RETRIES cfg)
           ++ " attempts: " ++ text
  | Failure _ =>
      "Request timeout after " ++ PyStr.of_Z (MAX_RETRIES cfg) ++ " attempts"
  end.

(** The payload of a 200 response as [_request_with_retry] returns it. *)
Definition payload_of (text : string) (parsed : option json) : json :=
  match parsed with
  | Some payload => payload
  | None => JDict [("message", JStr text)]
  end.

(** What an outcome that is not transient makes the call return. *)
Definition terminal_result (a : Attempt) : json :=
  match a with
  | Response status text parsed =>
      if status =? 200 then payload_of text parsed
      else if status =? 401 then error_dict ("Authentication failed: " ++ text)
      else if status =? 403 then error_dict ("Access forbidden: " ++ text)
      else if status =? 404 then error_dict ("Resource not found: " ++ text)
      else error_dict ("HTTP " ++ PyStr.of_Z status ++ ": " ++ text)
  | Failure e => error_dict ("Request failed: " ++ exc_msg e)
  end.

Definition is_list (x : json) : bool :=
  match x with JList _ => true | _ => false end.

Fixpoint total_seconds (ds : list Q) : Q :=
  match ds with
  | [] => 0%Q
  | d :: ds' => (d + total_seconds ds')%Q
  end.

(** ** Fixtures *)

Module Sample.

(** The defaults of config.py, with credentials filled in. *)
Definition cfg : Config :=
  {| DIIGO_USERNAME := Some "alice";
     DIIGO_PASSWORD := Some "secret";
     DIIGO_API_KEY := Some "k3y";
     DIIGO_BASE_URL := "https://secure.diigo.com/api/v2";
     REQUEST_TIMEOUT := 10;
     MAX_BOOKMARKS_PER_REQUEST := 100;
     MAX_RETRIES := 3;
     RETRY_BACKOFF := 2 |}.

(** The float power at the bases whose powers are floats themselves, as
    the powers of two are: the exact power, and from [2^1024] on the
    [OverflowError] of a binary64 result out of range. *)
Definition float_pow (base : Q) (n : nat) : Power :=
  let p := Qpower base (Z.of_nat n) in
  if Qle_bool (inject_Z (2 ^ 1024)) p || Qle_bool p (inject_Z (- 2 ^ 1024))
  then Overflow "(34, 'Numerical result out of range')"
  else Value p.

(** A mock server that plays [script], one entry per request, and answers
    [after] from then on. *)
Definition scripted (script : list Attempt) (after : Attempt) : World :=
  {| w_new := None;
     w_enter := None;
     w_exit := None;
     w_http := fun n _ => nth n script after;
     w_pow := float_pow |}.

Definition ok (payload : json) : Attempt := Response 200 "" (Some payload).

Definition busy : Attempt := Response 503 "busy" None.

Definition added : json := JDict [("message", JStr "added 1 bookmark")].

End Sample.

Module RetryFixtures.

(** 503 on the first two attempts, 200 on the third. *)
Definition busy_twice : World :=
  Sample.scripted [Sample.busy; Sample.busy; Sample.ok Sample.added] Sample.busy.

(** One 503, then a 401. *)
Definition busy_then_unauthorized : World :=
  Sample.scripted [Sample.busy; Response 401 "bad credentials" None] Sample.busy.

(** One timeout, then a connection error. *)
Definition refused : exn := Exn OtherError "Cannot connect to host secure.diigo.com:443".

Definition timeout_then_refused : World :=
  Sample.scripted [Failure (Exn TimeoutError ""); Failure refused] Sample.busy.

(** Five attempts, and the backoff base [2.0 ** 600]: its square is out
    of the range of a float. *)
Definition steep : Config :=
  {| DIIGO_USERNAME := Some "alice";
     DIIGO_PASSWORD := Some "secret";
     DIIGO_API_KEY := Some "k3y";
     DIIGO_BASE_URL := "https://secure.diigo.com/api/v2";
     REQUEST_TIMEOUT := 10;
     MAX_BOOKMARKS_PER_REQUEST := 100;
     MAX_RETRIES := 5;
     RETRY_BACKOFF := inject_Z (2 ^ 600) |}.

(** A server that answers 503 to every request, and one that lets every
    request time out. *)
Definition always_busy : World := Sample.scripted [] Sample.busy.

Definition always_late : World :=
  Sample.scripted [] (Failure (Exn TimeoutError "")).

(** A 200 response whose body is not JSON. *)
Definition html_page : World :=
  Sample.scripted [Response 200 "<html>maintenance</html>" None] Sample.busy.

(** A 200 response whose JSON body is an object with an [error] key. *)
Definition quota : json := JDict [("error", JStr "over quota")].

Definition error_in_body : World :=
  Sample.scripted [Sample.ok quota] Sample.busy.

End RetryFixtures.

(** ** Pagination *)

Section Pages.

Variable cfg : Config.
Variable w : World.
Variable user : option string.
Variable sort : Z.
Variable tags : option string.
Variable filter : string.
Variable list_name : option string.

(** Page fetches made one after the other, at the offsets [start],
    [start + 100], [start + 200], ...: the log after the first [k] of
    them, *)
Fixpoint log_after_pages (start : Z) (k : nat) (log : Log) : Log :=
  match k with
  | O => log
  | S k' =>
      log_after_pages (start + 100) k'
        (snd (get_bookmarks cfg w user start 100 sort tags filter list_name log))
  end.

(** what fetch number [k] (counted from 0) returns, *)
Fixpoint page_result (start : Z) (k : nat) (log : Log) : Res json :=
  match k with
  | O => fst (get_bookmarks cfg w user start 100 sort tags filter list_name log)
  | S k' =>
      page_result (start + 100) k'
        (snd (get_bookmarks cfg w user start 100 sort tags filter list_name log))
  end.

Definition items_of (r : Res json) : list json :=
  match r with
  | Ret (JList items) => items
  | _ => []
  end.

(** and the bookmarks of the first [k] fetches, concatenated. *)
Fixpoint pages_items (start : Z) (k : nat) (log : Log) : list json :=
  match k with
  | O => []
  | S k' =>
      (items_of (fst (get_bookmarks cfg w user start 100 sort tags filter list_name log))
       ++ pages_items (start + 100) k'
            (snd (get_bookmarks cfg w user start 100 sort tags filter list_name log)))%list
  end.

End Pages.

(** A page that makes the loop go on: a list of at least 100 items. *)
Definition full_page (r : Res json) : Prop :=
  exists items, r = Ret (JList items) /\ (100 <= List.length items)%nat.

(** A page that ends the loop: an error, or a list of fewer than 100
    items (the empty list among them). *)
Definition last_page (x : json) : Prop :=
  is_error_dict x = true
  \/ exists items, x = JList items /\ (List.length items < 100)%nat.

Module PageFixtures.

Definition bookmark_no (i : nat) : json :=
  JDict [("url", JStr ("https://example.com/" ++ PyStr.of_Z (Z.of_nat i)));
         ("title", JStr ("Bookmark " ++ PyStr.of_Z (Z.of_nat i)));
         ("shared", JStr "no")].

(** [len] bookmarks, numbered from [first]. *)
Definition bookmarks (first len : nat) : list json :=
  map bookmark_no (seq first len).

(** A server with 237 bookmarks, in pages of 100, 100 and 37; a fourth
    request would be answered with a full page. *)
Definition three_pages : World :=
  Sample.scripted
    [Sample.ok (JList (bookmarks 0 100));
     Sample.ok (JList (bookmarks 100 100));
     Sample.ok (JList (bookmarks 200 37))]
    (Sample.ok (JList (bookmarks 237 100))).

(** The page of [all] that the request [r] asks for: [count] bookmarks
    from the offset [start]. *)
Definition page_of (all : list json) (r : Request) : list json :=
  match Dict.lookup "start" (rq_params r), Dict.lookup "count" (rq_params r) with
  | Some (JInt start), Some (JInt count) =>
      firstn (Z.to_nat count) (skipn (Z.to_nat start) all)
  | _, _ => []
  end.

(** A server that holds the bookmarks [all] and answers every request
    with the page it asks for. *)
Definition honest (all : list json) : World :=
  {| w_new := None;
     w_enter := None;
     w_exit := None;
     w_http := fun _ r => Sample.ok (JList (page_of all r));
     w_pow := Sample.float_pow |}.

(** The defaults of config.py with [MAX_BOOKMARKS_PER_REQUEST=50]. *)
Definition pages_of_50 : Config :=
  {| DIIGO_USERNAME := Some "alice";
     DIIGO_PASSWORD := Some "secret";
     DIIGO_API_KEY := Some "k3y";
     DIIGO_BASE_URL := "https://secure.diigo.com/api/v2";
     REQUEST_TIMEOUT := 10;
     MAX_BOOKMARKS_PER_REQUEST := 50;
     MAX_RETRIES := 3;
     RETRY_BACKOFF := 2 |}.

(** A server that answers every request with a full page. *)
Definition endless : World :=
  {| w_new := None;
     w_enter := None;
     w_exit := None;
     w_http := fun _ _ => Sample.ok (JList (bookmarks 0 100));
     w_pow := Sample.float_pow |}.

End PageFixtures.

(** ** Runs that come back *)

(** A computation that comes back from every log: it returns or raises,
    its loops do not run out of budget. *)
Definition total {A : Type} (c : M A) : Prop :=
  forall log, fst (c log) <> Spin.

(** The events of the retry layer. *)
Definition io_event (ev : Event) : Prop :=
  match ev with
  | EvRequest _ | EvSleep _ => True
  | _ => False
  end.

(** A response that keeps the pagination loop going. *)
Definition is_full_page (a : Attempt) : bool :=
  match a with
  | Response status _ (Some (JList items)) =>
      (status =? 200) && (100 <=? List.length items)%nat
  | _ => false
  end.

(** From request number [n] on, the server sends no full page any more. *)
Definition full_pages_end (w : World) (n : nat) : Prop :=
  forall i r, (n <= i)%nat -> is_full_page (w_http w i r) = false.

(** The tool invocations that run the pagination loop. *)
Definition paginates (call : ToolCall) : bool :=
  match call with
  | ListBookmarks _ None _ _ _ _ _ => true
  | ListBookmarks _ (Some _) _ _ _ _ _ => false
  | SearchBookmarks _ _ _ _ => true
  | GetBookmark _ _ => true
  | CreateBookmark _ _ _ _ _ _ => false
  | UpdateBookmark _ _ _ _ _ _ => true
  | DeleteBookmark _ title => negb (truthy (opt_str title))
  | GetRecentBookmarks _ _ => false
  | GetAnnotations _ _ => true
  | BulkCreateBookmarks _ _ => false
  end.

(** ** A stand-in for [urllib.parse.urlparse]

    For the examples only: the scheme and the network location of a URL
    without control characters, the way CPython's [urlsplit] finds them.
    The scheme is what precedes the first colon, if it starts with a
    letter and consists of letters, digits, [+], [-] and [.]; the network
    location follows a leading [//] and ends before the next [/], [?] or
    [#]; unbalanced square brackets in it are a [ValueError]. *)

Module UrlModel.

Definition in_range (lo hi : nat) (c : ascii) : bool :=
  let n := nat_of_ascii c in ((lo <=? n)%nat && (n <=? hi)%nat).

Definition is_alpha (c : ascii) : bool :=
  in_range 65 90 c || in_range 97 122 c.

Definition is_scheme_char (c : ascii) : bool :=
  is_alpha c || in_range 48 57 c
  || Ascii.eqb c "+" || Ascii.eqb c "-" || Ascii.eqb c ".".

Fixpoint all_chars (p : ascii -> bool) (s : string) : bool :=
  match s with
  | EmptyString => true
  | String c s' => p c && all_chars p s'
  end.

(** The text before the first character that satisfies [stop], and the
    text after that character, if there is one. *)
Fixpoint cut (stop : ascii -> bool) (s : string) : string * option string :=
  match s with
  | EmptyString => (EmptyString, None)
  | String c s' =>
      if stop c then (EmptyString, Some s')
      else let (before, after) := cut stop s' in (String c before, after)
  end.

Definition split_scheme (url : string) : string * string :=
  match cut (Ascii.eqb ":") url with
  | (String c before, Some after) =>
      if is_alpha c && all_chars is_scheme_char before
      then (PyStr.lower (String c before), after)
      else (EmptyString, url)
  | _ => (EmptyString, url)
  end.

Definition is_netloc_end (c : ascii) : bool :=
  Ascii.eqb c "/" || Ascii.eqb c "?" || Ascii.eqb c "#".

Definition urlparse (url : string) : UrlParse :=
  let (scheme, rest) := split_scheme url in
  match rest with
  | String "/" (String "/" rest') =>
      let netloc := fst (cut is_netloc_end rest') in
      if xorb (PyStr.mem_char "[" netloc) (PyStr.mem_char "]" netloc)
      then ParseError
      else Parsed scheme netloc
  | _ => Parsed scheme EmptyString
  end.

End UrlModel.

Module ToolFixtures.

(** A server with 237 bookmarks that answers 503 once they are served. *)
Definition small_account : World :=
  Sample.scripted
    [Sample.ok (JList (PageFixtures.bookmarks 0 100));
     Sample.ok (JList (PageFixtures.bookmarks 100 100));
     Sample.ok (JList (PageFixtures.bookmarks 200 37))]
    Sample.busy.

(** A server that accepts whatever it is sent. *)
Definition accepting : World :=
  {| w_new := None;
     w_enter := None;
     w_exit := None;
     w_http := fun _ _ => Sample.ok Sample.added;
     w_pow := Sample.float_pow |}.

End ToolFixtures.

(** ** Updating a bookmark *)

(** A field of the save call: the value given, or else the current one. *)
Definition provided_or (provided : option string) (current : json) : json :=
  match provided with
  | Some s => JStr s
  | None => current
  end.

(** A flag of the save call: the value given, or else whether the record
    says ["yes"]. *)
Definition flag_or (provided : option bool) (current : json) : json :=
  JBool (match provided with
         | Some b => b
         | None => eq_str current "yes"
         end).

(** The save call of an update of the record [existing]. *)
Definition merged_args (url : string) (title desc tags : option string)
    (shared read_later : option bool) (existing : dict) : SaveArgs :=
  {| sv_url := JStr url;
     sv_title := provided_or title (Dict.get "title" (JStr "") existing);
     sv_desc := provided_or desc (Dict.get "desc" (JStr "") existing);
     sv_tags := provided_or tags (Dict.get "tags" (JStr "") existing);
     sv_shared := flag_or shared (Dict.get "shared" JNull existing);
     sv_read_later := flag_or read_later (Dict.get "readlater" JNull existing);
     sv_merge := JBool true |}.

(** A bookmark record whose url is not [url]. *)
Definition other_bookmark (url : string) (b : json) : Prop :=
  exists d, b = JDict d /\ eq_str (Dict.get "url" JNull d) url = false.

Module UpdateFixtures.

Definition record : dict :=
  [("url", JStr "https://e.com/a");
   ("title", JStr "T");
   ("desc", JStr "D");
   ("tags", JStr "old");
   ("shared", JStr "yes");
   ("readlater", JStr "no")].

Definition neighbour : dict :=
  [("url", JStr "https://e.com/b");
   ("title", JStr "B");
   ("shared", JStr "no")].

(** An account with two bookmarks; every later request is accepted. *)
Definition account : World :=
  Sample.scripted [Sample.ok (JList [JDict neighbour; JDict record])]
                  (Sample.ok Sample.added).

End UpdateFixtures.

(** ** Bulk creation *)

(** The summary object of a batch. *)
Definition bulk_summary (total success failed : Z) (failures : list json) : json :=
  JDict [("total", JInt total); ("success", JInt success);
         ("failed", JInt failed); ("failures", JList failures)].

(** What became of each item of a batch, in input order: [None] for a
    success, [Some error] for a failure.  The failure records of the
    items from index [i] on: *)
Fixpoint failure_records (i : nat) (bookmarks : list dict)
    (outcomes : list (option json)) : list json :=
  match bookmarks, outcomes with
  | b :: bs, Some error :: os =>
      failure_record i b error :: failure_records (S i) bs os
  | b :: bs, None :: os => failure_records (S i) bs os
  | _, _ => []
  end.

(** the number of successes, *)
Fixpoint succeeded (outcomes : list (option json)) : Z :=
  match outcomes with
  | [] => 0
  | None :: os => 1 + succeeded os
  | Some _ :: os => succeeded os
  end.

(** and the items whose keywords [save_bookmark] accepts. *)
Definition has_no_error (kw : dict) : bool :=
  match keyword_error kw with None => true | Some _ => false end.

Module BulkFixtures.

Definition item (url title : string) : dict :=
  [("url", JStr url); ("title", JStr title)].

(** Three items; the second has a URL that [validate_url] rejects. *)
Definition items : list dict :=
  [item "https://a.example/1" "A"; item "not a url" "B"; item "https://c.example/3" "C"].

(** A server that rejects the second request it receives. *)
Definition rejecting_second : World :=
  Sample.scripted
    [Sample.ok Sample.added; Response 422 "invalid url" None; Sample.ok Sample.added]
    Sample.busy.

(** Three items; the second carries a keyword that [save_bookmark] does
    not have. *)
Definition items_with_stray_key : list dict :=
  [item "https://a.example/1" "A";
   [("url", JStr "https://b.example/2"); ("title", JStr "B"); ("note", JStr "n")];
   item "https://c.example/3" "C"].

End BulkFixtures.

(** * Vocabulary of the further properties *)

(** Every character of [s] satisfies [p]. *)
Fixpoint every_char (p : ascii -> bool) (s : string) : bool :=
  match s with
  | EmptyString => true
  | String c s' => p c && every_char p s'
  end.

(** The two values a boolean takes on the wire. *)
Definition yes_or_no (s : string) : Prop := s = "yes" \/ s = "no".

(** ** The retry layer *)

(** The error message for a status that is neither 200 nor retried. *)
Definition status_error (status : Z) (text : string) : string :=
  if status =? 401 then "Authentication failed: " ++ text
  else if status =? 403 then "Access forbidden: " ++ text
  else if status =? 404 then "Resource not found: " ++ text
  else "HTTP " ++ PyStr.of_Z status ++ ": " ++ text.

(** How a call ends on the decision of its last attempt: it returns, or
    an exception leaves it. *)
Definition decided (d : Decision) (res : Res json) : Prop :=
  match d with
  | Return result => res = Ret result
  | Escape e => res = Raise e
  | RetryAfter _ => False
  end.

(** What the boundary of a tool makes of the way its body ends: an
    exception becomes an error object. *)
Definition reported (res : Res json) : Res json :=
  match res with
  | Raise e => Ret (error_dict (exc_msg e))
  | other => other
  end.

(** An event of the retry layer for the request [r]: [r] itself is sent,
    or a sleep. *)
Definition retry_event_of (r : Request) (ev : Event) : Prop :=
  ev = EvRequest r \/ exists seconds, ev = EvSleep seconds.

Module BudgetFixtures.

(** A configuration that allows no attempt at all. *)
Definition no_attempts : Config :=
  {| DIIGO_USERNAME := Some "alice";
     DIIGO_PASSWORD := Some "secret";
     DIIGO_API_KEY := Some "k3y";
     DIIGO_BASE_URL := "https://secure.diigo.com/api/v2";
     REQUEST_TIMEOUT := 10;
     MAX_BOOKMARKS_PER_REQUEST := 100;
     MAX_RETRIES := 0;
     RETRY_BACKOFF := 2 |}.

(** One 503, then a status the client has no branch for. *)
Definition teapot : World :=
  Sample.scripted [Sample.busy; Response 418 "short and stout" None] Sample.busy.

End BudgetFixtures.

(** ** Requests *)

(** The requests of a log, in the order they were sent. *)
Fixpoint requests (log : Log) : list Request :=
  match log with
  | [] => []
  | EvRequest r :: log' => r :: requests log'
  | _ :: log' => requests log'
  end.

(** The value a request carries under a query parameter or a form field. *)
Definition param (k : string) (r : Request) : option json :=
  Dict.lookup k (rq_params r).

Definition field (k : string) (r : Request) : option json :=
  match rq_data r with
  | Some data => Dict.lookup k data
  | None => None
  end.

(** A query parameter that is sent only when it is a non-empty string. *)
Definition optional_param (value : option string) : option json :=
  match value with
  | Some s => if PyStr.is_empty s then None else Some (JStr s)
  | None => None
  end.

(** ** Bulk creation, once more *)

(** The index a failure record carries. *)
Definition record_index (record : json) : option Z :=
  match record with
  | JDict d =>
      match Dict.lookup "index" d with
      | Some (JInt i) => Some i
      | _ => None
      end
  | _ => None
  end.

Definition is_dict (x : json) : bool :=
  match x with JDict _ => true | _ => false end.

(** An attempt that settles its request at once with an object: it is not
    retried, and a 200 response carries a JSON object or no JSON at all. *)
Definition settled (a : Attempt) : bool :=
  negb (is_transient a)
  && match a with
     | Response status _ (Some payload) =>
         if status =? 200 then is_dict payload else true
     | _ => true
     end.

Module SettledFixtures.

(** A server that accepts the first request and refuses every later
    one. *)
Definition first_only : World :=
  {| w_new := None;
     w_enter := None;
     w_exit := None;
     w_http := fun n _ =>
                 match n with
                 | O => Sample.ok Sample.added
                 | S _ => Response 403 "quota" None
                 end;
     w_pow := Sample.float_pow |}.

End SettledFixtures.

(** ** What a run adds to the log *)

(** Every event that [c] adds to the log satisfies [P], however [c]
    ends. *)
Definition logs_only {A : Type} (P : Event -> Prop) (c : M A) : Prop :=
  forall log, exists extra, snd (c log) = (log ++ extra)%list /\ Forall P extra.

(** The events of a tool that only reads: the session, sleeps, and GET
    requests without form data. *)
Definition reading_event (ev : Event) : Prop :=
  match ev with
  | EvSave _ => False
  | EvRequest r => rq_method r = "GET" /\ rq_data r = None
  | _ => True
  end.

(** The tools that only read. *)
Definition reads_only (call : ToolCall) : bool :=
  match call with
  | ListBookmarks _ _ _ _ _ _ _ => true
  | SearchBookmarks _ _ _ _ => true
  | GetBookmark _ _ => true
  | GetRecentBookmarks _ _ => true
  | GetAnnotations _ _ => true
  | _ => false
  end.

(** The events of a deletion of [url]: the session, sleeps, the GET
    requests of the listing, and POST requests whose form names [url] and
    a title, and nothing else. *)
Definition deleting_event (url : string) (ev : Event) : Prop :=
  match ev with
  | EvSave _ => False
  | EvRequest r =>
      (rq_method r = "GET" /\ rq_data r = None)
      \/ (rq_method r = "POST"
          /\ exists title, rq_data r = Some [("url", JStr url); ("title", title)])
  | _ => True
  end.

(** The events between the opening and the closing of a session. *)
Definition client_event (ev : Event) : Prop :=
  match ev with
  | EvSave _ | EvRequest _ | EvSleep _ => True
  | _ => False
  end.

(** ** The listing a tool starts with *)

(** The arguments of a [get_all_bookmarks] call. *)
Record Listing : Type := {
  ls_user : option string;
  ls_sort : Z;
  ls_tags : option string;
  ls_filter : string;
  ls_list_name : option string
}.

Definition run_listing (cfg : Config) (w : World) (fuel : nat) (l : Listing) : M json :=
  get_all_bookmarks cfg w fuel (ls_user l) (ls_sort l) (ls_tags l) (ls_filter l)
                    (ls_list_name l).

(** The listing of the whole account, with the defaults of
    [get_bookmarks]. *)
Definition whole_account (user : option string) : Listing :=
  {| ls_user := user; ls_sort := 1; ls_tags := None; ls_filter := "all";
     ls_list_name := None |}.

(** The listing that a tool invocation makes once its session is open,
    if it makes one. *)
Definition listing_of (urlparse : string -> UrlParse) (call : ToolCall)
    : option Listing :=
  match call with
  | ListBookmarks user None _ sort tags filter list_name =>
      Some {| ls_user := user; ls_sort := sort; ls_tags := tags;
              ls_filter := filter; ls_list_name := list_name |}
  | ListBookmarks _ (Some _) _ _ _ _ _ => None
  | SearchBookmarks _ tags filter user =>
      Some {| ls_user := user; ls_sort := 1; ls_tags := tags;
              ls_filter := filter; ls_list_name := None |}
  | GetBookmark _ user => Some (whole_account user)
  | CreateBookmark _ _ _ _ _ _ => None
  | UpdateBookmark url _ _ _ _ _ =>
      if validate_url urlparse url then Some (whole_account None) else None
  | DeleteBookmark _ title =>
      if truthy (opt_str title) then None else Some (whole_account None)
  | GetRecentBookmarks _ _ => None
  | GetAnnotations _ user => Some (whole_account user)
  | BulkCreateBookmarks _ _ => None
  end.

(** ** Searching *)

(** The text a bookmark holds under [k], the empty string when the key is
    missing; [None] when the bookmark is no object or the value no
    string. *)
Definition text_of (k : string) (b : json) : option string :=
  match b with
  | JDict d =>
      match Dict.get k (JStr "") d with
      | JStr s => Some s
      | _ => None
      end
  | _ => None
  end.

(** A bookmark the search can read: an object whose title and
    description, where present, are strings. *)
Definition searchable (b : json) : Prop :=
  exists title desc, text_of "title" b = Some title /\ text_of "desc" b = Some desc.

(** The bookmark matches the lower-cased query: the query occurs in the
    lower-cased title or description. *)
Definition matches (query_lower : string) (b : json) : bool :=
  match text_of "title" b, text_of "desc" b with
  | Some title, Some desc =>
      PyStr.contains query_lower (PyStr.lower title)
      || PyStr.contains query_lower (PyStr.lower desc)
  | _, _ => false
  end.

Module SearchFixtures.

Definition rocq : json :=
  JDict [("url", JStr "https://rocq-prover.org"); ("title", JStr "The Rocq Prover");
         ("desc", JStr "proof assistant");
         ("annotations", JList [JDict [("content", JStr "read this")]])].

Definition python : json :=
  JDict [("url", JStr "https://python.org"); ("title", JStr "Python");
         ("desc", JStr "Batteries included; has a PROVER too")].

Definition bare : json := JDict [("url", JStr "https://e.com/bare")].

(** An account with three bookmarks; every later request is accepted. *)
Definition account : World :=
  Sample.scripted [Sample.ok (JList [rocq; python; bare])] (Sample.ok Sample.added).

(** An account whose listing is refused. *)
Definition locked : World :=
  Sample.scripted [Response 401 "bad credentials" None] (Sample.ok Sample.added).

End SearchFixtures.

(** ** Looking a bookmark up by its URL *)

(** The bookmark is an object whose [url] is exactly [url]. *)
Definition url_is (url : string) (b : json) : bool :=
  match b with
  | JDict d => eq_str (Dict.get "url" JNull d) url
  | _ => false
  end.

(** The first bookmark of the listing with this URL. *)
Definition first_match (url : string) (items : list json) : option json :=
  find (url_is url) items.

Definition all_objects (items : list json) : Prop :=
  Forall (fun b => is_dict b = true) items.

(** What the bookmark holds under [annotations]; the empty list when it
    has no such key. *)
Definition annotations_of (b : json) : json :=
  match b with
  | JDict d => Dict.get "annotations" (JList []) d
  | _ => JList []
  end.

(** The title of the first bookmark with this URL; [None] of Python when
    there is no such bookmark or it has no title. *)
Definition title_of_match (url : string) (items : list json) : json :=
  match first_match url items with
  | Some (JDict d) => Dict.get "title" JNull d
  | _ => JNull
  end.

(** The events of a deletion whose title is known from the start: the
    session, sleeps, and POST requests whose form is [url] and that
    title. *)
Definition posting_event (url : string) (title : json) (ev : Event) : Prop :=
  match ev with
  | EvSave _ => False
  | EvRequest r =>
      rq_method r = "POST" /\ rq_data r = Some [("url", JStr url); ("title", title)]
  | _ => True
  end.

(** The tool invocation is turned down before a client is built: a
    creation or an update whose URL does not validate. *)
Definition rejected (urlparse : string -> UrlParse) (call : ToolCall) : bool :=
  match call with
  | CreateBookmark url _ _ _ _ _ => negb (validate_url urlparse url)
  | UpdateBookmark url _ _ _ _ _ => negb (validate_url urlparse url)
  | _ => false
  end.

Module DeleteFixtures.

Definition untitled : json := JDict [("url", JStr "https://e.com/untitled"); ("title", JStr "")].

(** An account with a bookmark whose title is empty. *)
Definition account : World :=
  Sample.scripted [Sample.ok (JList [SearchFixtures.rocq; untitled])]
                  (Sample.ok Sample.added).

(** The same account on a server that lets every request after the
    listing time out. *)
Definition late : World :=
  Sample.scripted [Sample.ok (JList [SearchFixtures.rocq; untitled])]
                  (Failure (Exn TimeoutError "")).

End DeleteFixtures.

(** ** The configuration *)

(** The setting holds a non-empty value. *)
Definition is_set (value : option string) : bool := truthy (opt_str value).

(** ** The server *)

(** What the server runs in: the tools' surroundings, and the
    interpreter's side of the dispatch. *)
Record Setup : Type := {
  su_urlparse : string -> UrlParse;
  su_cfg : Config;
  su_world : World;
  su_fuel : nat;
  su_dumps : json -> string;
  su_loads : string -> option json;
  su_repr : json -> string;
  su_tools_list : json;
  su_binding_error : ToolFunction -> json -> string;
  su_untyped_body : ToolFunction -> dict -> M json
}.

Definition handle (s : Setup) (message : json) : M json :=
  handle_message (su_urlparse s) (su_cfg s) (su_world s) (su_fuel s) (su_dumps s)
                 (su_repr s) (su_tools_list s) (su_binding_error s)
                 (su_untyped_body s) message.

Definition take_turn (s : Setup) (line : string) : M Turn :=
  turn (su_urlparse s) (su_cfg s) (su_world s) (su_fuel s) (su_dumps s) (su_loads s)
       (su_repr s) (su_tools_list s) (su_binding_error s) (su_untyped_body s) line.

Definition run_server (s : Setup) (lines : list string) : M (Z + list string) :=
  run (su_urlparse s) (su_cfg s) (su_world s) (su_fuel s) (su_dumps s) (su_loads s)
      (su_repr s) (su_tools_list s) (su_binding_error s) (su_untyped_body s) lines.

(** The three error codes of the server. *)
Definition method_not_found : Z := -32601.
Definition invalid_params : Z := -32602.
Definition internal_error : Z := -32603.

(** A JSON-RPC response to the request [msg_id]: the version, the id of
    the request, and either a result or an error that carries one of the
    three codes and a message. *)
Definition is_response (msg_id : json) (response : json) : Prop :=
  exists key body,
    response = JDict [("jsonrpc", JStr "2.0"); ("id", msg_id); (key, body)]
    /\ (key = "result"
        \/ (key = "error"
            /\ exists code message,
                 body = JDict [("code", JInt code); ("message", JStr message)]
                 /\ In code [method_not_found; invalid_params; internal_error])).

(** The code of the error of a response; [None] for a response that
    carries a result. *)
Definition error_code (response : json) : option Z :=
  match response with
  | JDict d =>
      match Dict.lookup "error" d with
      | Some (JDict e) =>
          match Dict.lookup "code" e with
          | Some (JInt code) => Some code
          | _ => None
          end
      | _ => None
      end
  | _ => None
  end.

(** The arguments are an object whose keywords bind to the parameters of
    [f]. *)
Definition bindable (f : ToolFunction) (arguments : json) : bool :=
  match arguments with
  | JDict kw => binds f kw
  | _ => false
  end.

(** What is wrong with the request [d], read off the request alone: an
    unknown method; a call whose [params] are no object; a call of an
    unknown tool; a call whose arguments do not bind.  [None] when
    nothing is. *)
Definition fault (d : dict) : option Z :=
  let method := Dict.get "method" JNull d in
  if eq_str method "initialize" || eq_str method "tools/list" then None
  else if eq_str method "tools/call" then
    match Dict.get "params" (JDict []) d with
    | JDict params =>
        match route (Dict.get "name" JNull params) with
        | Some f =>
            if bindable f (Dict.get "arguments" (JDict []) params)
            then None
            else Some internal_error
        | None => Some invalid_params
        end
    | _ => Some internal_error
    end
  else Some method_not_found.

(** The keywords [kw] are among the properties that the entry [a] of the
    tool list advertises, and every required one is there. *)
Definition conforms (a : Advertised) (kw : dict) : Prop :=
  (forall k, In k (Dict.keys kw) -> In k (ad_properties a))
  /\ (forall p, In p (ad_required a) -> Dict.mem p kw = true).

(** The request a line carries, when the line holds a JSON object. *)
Definition request_of_line (s : Setup) (line : string) : option dict :=
  if PyStr.is_empty (PyStr.strip line) then None
  else match su_loads s (PyStr.strip line) with
       | Some (JDict d) => Some d
       | _ => None
       end.

(** The lines before the end of the input: [readline] returns the empty
    line there. *)
Fixpoint before_eof (lines : list string) : list string :=
  match lines with
  | [] => []
  | line :: rest => if PyStr.is_empty line then [] else line :: before_eof rest
  end.

(** The requests of the input, in order. *)
Fixpoint requests_of_lines (s : Setup) (lines : list string) : list dict :=
  match lines with
  | [] => []
  | line :: rest =>
      match request_of_line s line with
      | Some d => d :: requests_of_lines s rest
      | None => requests_of_lines s rest
      end
  end.

(** [text] is the line that answers the request [d]. *)
Definition answers (s : Setup) (d : dict) (text : string) : Prop :=
  exists response,
    is_response (Dict.get "id" JNull d) response
    /\ text = su_dumps s response ++ newline.

Module ServerFixtures.

(** A rendering of JSON values that is good enough to tell them apart. *)
Fixpoint show (x : json) : string :=
  match x with
  | JNull => "null"
  | JBool true => "true"
  | JBool false => "false"
  | JInt z => PyStr.of_Z z
  | JStr s => "'" ++ s ++ "'"
  | JList items => "[" ++ String.concat "," (map show items) ++ "]"
  | JDict fields =>
      "{" ++ String.concat "," (map (fun kv => fst kv ++ ":" ++ show (snd kv)) fields)
      ++ "}"
  end.

Definition call (msg_id : Z) (name : string) (arguments : dict) : json :=
  JDict [("jsonrpc", JStr "2.0"); ("id", JInt msg_id); ("method", JStr "tools/call");
         ("params", JDict [("name", JStr name); ("arguments", JDict arguments)])].

(** The lines of the input that are JSON, by name. *)
Definition loads (line : string) : option json :=
  if String.eqb line "initialize" then
    Some (JDict [("jsonrpc", JStr "2.0"); ("id", JInt 1); ("method", JStr "initialize")])
  else if String.eqb line "initialized" then
    Some (JDict [("jsonrpc", JStr "2.0"); ("method", JStr "notifications/initialized")])
  else if String.eqb line "create" then
    Some (call 2 "diigo_create_bookmark"
               [("url", JStr "no scheme"); ("title", JStr "T")])
  else if String.eqb line "batch" then Some (JList [])
  else None.

(** The entry of the tool list for the creation of a bookmark. *)
Definition create_entry : Advertised :=
  {| ad_name := "diigo_create_bookmark";
     ad_properties := ["url"; "title"; "desc"; "tags"; "shared"; "read_later"];
     ad_required := ["url"; "title"] |}.

Definition setup : Setup :=
  {| su_urlparse := UrlModel.urlparse;
     su_cfg := Sample.cfg;
     su_world := SearchFixtures.account;
     su_fuel := 3;
     su_dumps := show;
     su_loads := loads;
     su_repr := show;
     su_tools_list := JList [];
     su_binding_error := fun _ _ => "got an unexpected keyword argument";
     su_untyped_body := fun _ _ => ret JNull |}.

End ServerFixtures.

(** * Properties *)

(** ** Tag lists (utils.py) *)

Module TagFacts.
Import PyStr.

Lemma length_lstrip (s : string) : (String.length (lstrip s) <= String.length s)%nat.
Proof.
  induction s as [|c s IH]; simpl; [lia|].
  destruct (is_space c); simpl; lia.
Qed.

Lemma length_rstrip (s : string) : (String.length (rstrip s) <= String.length s)%nat.
Proof.
  induction s as [|c s IH]; simpl; [lia|].
  destruct (rstrip s) eqn:E; [destruct (is_space c)|]; simpl in *; lia.
Qed.

Lemma rstrip_nonspace_head (c : ascii) (s : string) :
  is_space c = false -> rstrip (String c s) <> EmptyString.
Proof.
  intros Hc. simpl. destruct (rstrip s); [rewrite Hc|]; discriminate.
Qed.

(** A trimmed, non-empty string starts with a non-space character. *)
Lemma clean_tag_head (c : ascii) (s : string) :
  strip (String c s) = String c s -> is_space c = false.
Proof.
  intros H. destruct (is_space c) eqn:Hc; [exfalso|reflexivity].
  unfold strip in H. simpl in H. rewrite Hc in H.
  pose proof (length_rstrip (lstrip s)) as H1.
  pose proof (length_lstrip s) as H2.
  rewrite H in H1. simpl in H1. lia.
Qed.

Lemma split_comma_free (sep : ascii) (x : string) :
  mem_char sep x = false -> split sep x = [x].
Proof.
  induction x as [|c x IH]; simpl; [reflexivity|].
  intros H. apply orb_false_iff in H as [Hc Hx].
  rewrite Ascii.eqb_sym, Hc, (IH Hx). reflexivity.
Qed.

Lemma split_app_sep (sep : ascii) (x rest : string) :
  mem_char sep x = false ->
  split sep (x ++ String sep rest) = x :: split sep rest.
Proof.
  induction x as [|c x IH]; simpl.
  - intros _. rewrite Ascii.eqb_refl. reflexivity.
  - intros H. apply orb_false_iff in H as [Hc Hx].
    rewrite Ascii.eqb_sym, Hc, (IH Hx). reflexivity.
Qed.

(** Splitting undoes joining, for a non-empty list of comma-free tags. *)
Lemma split_join (x : string) (xs : list string) :
  Forall comma_free (x :: xs) ->
  split "," (join "," (x :: xs)) = x :: xs.
Proof.
  revert x. induction xs as [|y ys IH]; intros x H.
  - inversion H; subst. simpl. now apply split_comma_free.
  - inversion H as [|? ? Hx Hrest]; subst.
    change (join "," (x :: y :: ys)) with (x ++ String "," (join "," (y :: ys))).
    rewrite (split_app_sep _ _ _ Hx), (IH y Hrest). reflexivity.
Qed.

Lemma filter_clean (xs : list string) :
  Forall clean_tag xs ->
  filter (fun t => negb (is_empty (strip t))) xs = xs.
Proof.
  induction 1 as [|t ts [Hne Ht] _ IH]; simpl; [reflexivity|].
  rewrite Ht, IH. destruct t; [contradiction|reflexivity].
Qed.

Lemma map_strip_clean (xs : list string) :
  Forall clean_tag xs -> map strip xs = xs.
Proof.
  induction 1 as [|t ts [_ Ht] _ IH]; simpl; [reflexivity|].
  now rewrite Ht, IH.
Qed.

(** The joined string of a non-empty list of clean tags passes the
    guard of [parse_tags]. *)
Lemma join_not_blank (x : string) (xs : list string) :
  clean_tag x ->
  is_empty (join "," (x :: xs)) || is_empty (strip (join "," (x :: xs))) = false.
Proof.
  intros [Hne Hx]. destruct x as [|c r]; [contradiction|].
  pose proof (clean_tag_head _ _ Hx) as Hc.
  assert (E : exists tail, join "," (String c r :: xs) = String c tail).
  { destruct xs; simpl; eauto. }
  destruct E as [tail ->]. simpl.
  unfold strip. cbn [lstrip]. rewrite Hc.
  pose proof (rstrip_nonspace_head c tail Hc) as Hr.
  destruct (rstrip (String c tail)); [contradiction|reflexivity].
Qed.

End TagFacts.

(** C9, as stated, fails: a comma inside a tag is a separator on the way
    back.  The tag ["a,b"] is non-empty and trimmed, and the round trip
    turns the one-tag list into two tags. *)
Lemma comma_in_tag_counterexample :
  Forall clean_tag ["a,b"] /\
  parse_tags (tags_to_string ["a,b"]) = ["a"; "b"] /\
  parse_tags (tags_to_string ["a,b"]) <> ["a,b"].
Proof.
  repeat split.
  - constructor; [|constructor]. split; [discriminate|reflexivity].
  - discriminate.
Qed.

(** C9 (amended): for every sequence [xs] of non-empty, trimmed tag
    strings that hold no comma, [parse_tags (tags_to_string xs) = xs];
    and [parse_tags] of the empty string is the empty sequence. *)
Theorem parse_tags_roundtrip (xs : list string) :
  Forall clean_tag xs ->
  Forall comma_free xs ->
  parse_tags (tags_to_string xs) = xs /\ parse_tags "" = [].
Proof.
  intros Hclean Hfree. split; [|reflexivity].
  destruct xs as [|x xs]; [reflexivity|].
  unfold parse_tags, tags_to_string.
  rewrite TagFacts.join_not_blank by (now inversion Hclean).
  rewrite (TagFacts.split_join x xs Hfree).
  rewrite (TagFacts.filter_clean _ Hclean).
  apply (TagFacts.map_strip_clean _ Hclean).
Qed.

Lemma parse_tags_roundtrip_witness :
  parse_tags (tags_to_string ["python"; "web dev"; "rocq"])
  = ["python"; "web dev"; "rocq"]
  /\ parse_tags "" = [].
Proof.
  apply (parse_tags_roundtrip ["python"; "web dev"; "rocq"]).
  - repeat constructor; discriminate.
  - repeat constructor.
Defined.

(** ** The event log *)

Lemma requests_made_app (l1 l2 : Log) :
  requests_made (l1 ++ l2)%list = (requests_made l1 + requests_made l2)%nat.
Proof.
  induction l1 as [|ev l1 IH]; simpl; [reflexivity|].
  destruct ev; simpl; rewrite IH; reflexivity.
Qed.

Lemma sleeps_app (l1 l2 : Log) :
  sleeps (l1 ++ l2)%list = (sleeps l1 ++ sleeps l2)%list.
Proof.
  induction l1 as [|ev l1 IH]; simpl; [reflexivity|].
  destruct ev; simpl; rewrite IH; reflexivity.
Qed.

Lemma save_calls_app (l1 l2 : Log) :
  save_calls (l1 ++ l2)%list = (save_calls l1 ++ save_calls l2)%list.
Proof.
  induction l1 as [|ev l1 IH]; simpl; [reflexivity|].
  destruct ev; simpl; rewrite IH; reflexivity.
Qed.

Lemma requests_made_retry_events (r : Request) (waits : list Q) :
  requests_made (retry_events r waits) = List.length waits.
Proof.
  unfold retry_events.
  induction waits as [|wait waits IH]; [reflexivity|].
  cbn [flat_map app requests_made List.length]. now rewrite IH.
Qed.

Lemma sleeps_retry_events (r : Request) (waits : list Q) :
  sleeps (retry_events r waits) = waits.
Proof.
  unfold retry_events.
  induction waits as [|wait waits IH]; [reflexivity|].
  cbn [flat_map app sleeps ]. now rewrite IH.
Qed.

Lemma save_calls_retry_events (r : Request) (waits : list Q) :
  save_calls (retry_events r waits) = [].
Proof.
  unfold retry_events.
  induction waits as [|wait waits IH]; [reflexivity|].
  cbn [flat_map app save_calls ]. now rewrite IH.
Qed.

(** ** The retry loop (diigo_client.py) *)

Section RetryFacts.

Variable cfg : Config.
Variable w : World.

(** A transient outcome before the last attempt, with a backoff power
    that evaluates: sleep and go on. *)
Lemma on_attempt_transient (attempt : nat) (a : Attempt) (wait : Q) :
  is_transient a = true ->
  Z.of_nat attempt < MAX_RETRIES cfg - 1 ->
  backoff_wait cfg w attempt = Value wait ->
  on_attempt cfg w attempt a = RetryAfter wait.
Proof.
  intros Ht Hlt Hpow.
  assert (Hr : forall msg, retry_or cfg w attempt msg = RetryAfter wait).
  { intros msg. unfold retry_or. rewrite Hpow.
    destruct (Z.ltb_spec (Z.of_nat attempt) (MAX_RETRIES cfg - 1)); [reflexivity|lia]. }
  assert (Hr' : forall msg, retry_or_raise cfg w attempt msg = RetryAfter wait).
  { intros msg. unfold retry_or_raise. rewrite Hpow.
    destruct (Z.ltb_spec (Z.of_nat attempt) (MAX_RETRIES cfg - 1)); [reflexivity|lia]. }
  destruct a as [status text parsed|e]; simpl in *.
  - apply orb_true_iff in Ht as [H|H]; apply Z.eqb_eq in H; subst status; simpl;
      apply Hr.
  - destruct (exc_class e); try discriminate. apply Hr'.
Qed.

(** A transient outcome before the last attempt, with a backoff power
    that overflows: after a response the error of the overflow is
    returned, after a timeout the overflow leaves the function. *)
Lemma on_attempt_overflow (attempt : nat) (a : Attempt) (message : string) :
  is_transient a = true ->
  Z.of_nat attempt < MAX_RETRIES cfg - 1 ->
  backoff_wait cfg w attempt = Overflow message ->
  on_attempt cfg w attempt a
  = match a with
    | Response _ _ _ => Return (error_dict ("Request failed: " ++ message))
    | Failure _ => Escape (Exn OtherError message)
    end.
Proof.
  intros Ht Hlt Hpow.
  assert (Hr : forall msg, retry_or cfg w attempt msg
                           = Return (error_dict ("Request failed: " ++ message))).
  { intros msg. unfold retry_or. rewrite Hpow.
    destruct (Z.ltb_spec (Z.of_nat attempt) (MAX_RETRIES cfg - 1)); [reflexivity|lia]. }
  assert (Hr' : forall msg, retry_or_raise cfg w attempt msg
                            = Escape (Exn OtherError message)).
  { intros msg. unfold retry_or_raise. rewrite Hpow.
    destruct (Z.ltb_spec (Z.of_nat attempt) (MAX_RETRIES cfg - 1)); [reflexivity|lia]. }
  destruct a as [status text parsed|e]; simpl in *.
  - apply orb_true_iff in Ht as [H|H]; apply Z.eqb_eq in H; subst status; simpl;
      apply Hr.
  - destruct (exc_class e); try discriminate. apply Hr'.
Qed.

(** A transient outcome on the last attempt: the exhaustion error. *)
Lemma on_attempt_exhausted (attempt : nat) (a : Attempt) :
  is_transient a = true ->
  MAX_RETRIES cfg - 1 <= Z.of_nat attempt ->
  on_attempt cfg w attempt a = Return (error_dict (exhausted_message cfg a)).
Proof.
  intros Ht Hge.
  assert (Hr : forall msg, retry_or cfg w attempt msg = Return (error_dict msg)).
  { intros msg. unfold retry_or.
    destruct (Z.ltb_spec (Z.of_nat attempt) (MAX_RETRIES cfg - 1)); [lia|reflexivity]. }
  assert (Hr' : forall msg, retry_or_raise cfg w attempt msg = Return (error_dict msg)).
  { intros msg. unfold retry_or_raise.
    destruct (Z.ltb_spec (Z.of_nat attempt) (MAX_RETRIES cfg - 1)); [lia|reflexivity]. }
  destruct a as [status text parsed|e]; simpl in *.
  - apply orb_true_iff in Ht as [H|H]; apply Z.eqb_eq in H; subst status; simpl;
      apply Hr.
  - destruct (exc_class e); try discriminate. apply Hr'.
Qed.

(** Any other outcome ends the loop, whatever the attempt index. *)
Lemma on_attempt_terminal (attempt : nat) (a : Attempt) :
  is_transient a = false ->
  on_attempt cfg w attempt a = Return (terminal_result a).
Proof.
  intros Ht. destruct a as [status text parsed|e]; simpl in *.
  - apply orb_false_iff in Ht as [H4 H5]. rewrite H4, H5.
    destruct (status =? 200); [now destruct parsed|].
    repeat match goal with
           | |- context [if ?b then _ else _] => destruct b
           end; reflexivity.
  - destruct (exc_class e); try discriminate; reflexivity.
Qed.

(** The loop only adds to the log. *)
Lemma retry_loop_extends (rem : nat) :
  forall (attempt : nat) (r : Request) (log : Log),
  exists extra, snd (retry_loop cfg w rem attempt r log) = (log ++ extra)%list.
Proof.
  induction rem as [|rem IH]; intros attempt r log.
  - exists []. now rewrite app_nil_r.
  - cbn [retry_loop]. unfold bind at 1, http_request at 1.
    destruct (on_attempt cfg w attempt (w_http w (requests_made log) r))
      as [result|wait|e].
    + now exists [EvRequest r].
    + unfold bind, sleep, emit.
      destruct (IH (S attempt) r ((log ++ [EvRequest r]) ++ [EvSleep wait])%list)
        as (extra & Hextra).
      exists ([EvRequest r; EvSleep wait] ++ extra)%list.
      rewrite Hextra. now rewrite <- !app_assoc.
    + now exists [EvRequest r].
Qed.

(** The loop runs through the transient attempts whose backoff power
    evaluates, sleeping after each. *)
Lemma retry_loop_prefix (waits : list Q) :
  forall (rem attempt : nat) (r : Request) (log : Log),
  (forall i, (i < List.length waits)%nat ->
             is_transient (w_http w (requests_made log + i) r) = true) ->
  Z.of_nat (attempt + List.length waits) <= MAX_RETRIES cfg - 1 ->
  backs_off cfg w attempt waits ->
  retry_loop cfg w (List.length waits + rem) attempt r log
  = retry_loop cfg w rem (attempt + List.length waits) r
               (log ++ retry_events r waits)%list.
Proof.
  induction waits as [|wait waits IH]; intros rem attempt r log Htr Hle Hpow.
  - simpl. now rewrite Nat.add_0_r, app_nil_r.
  - unfold backs_off in Hpow. cbn [List.length seq map] in Hpow.
    injection Hpow as Hwait Hrest.
    cbn [List.length Nat.add retry_loop]. unfold bind at 1, http_request at 1.
    rewrite (on_attempt_transient attempt _ wait);
      [ | rewrite <- (Nat.add_0_r (requests_made log)); apply Htr; simpl; lia
        | simpl in Hle; lia
        | exact Hwait ].
    unfold bind, sleep, emit.
    rewrite IH.
    + f_equal; [simpl; lia|]. unfold retry_events. simpl.
      now rewrite <- !app_assoc.
    + intros i Hi. rewrite !requests_made_app. simpl.
      replace (requests_made log + 1 + 0 + i)%nat with (requests_made log + S i)%nat by lia.
      apply Htr. simpl. lia.
    + simpl in Hle. lia.
    + exact Hrest.
Qed.

(** The attempt that decides: after the transient attempts that were
    slept on, the next attempt makes [on_attempt] return, *)
Lemma request_with_retry_decides (method endpoint : string)
    (params data : option dict) (log : Log) (waits : list Q) (result : json) :
  let r := request_of cfg method endpoint params data in
  let k := List.length waits in
  (k < Z.to_nat (MAX_RETRIES cfg))%nat ->
  (forall i, (i < k)%nat ->
             is_transient (w_http w (requests_made log + i) r) = true) ->
  backs_off cfg w 0 waits ->
  on_attempt cfg w k (w_http w (requests_made log + k) r) = Return result ->
  _request_with_retry cfg w method endpoint params data log
  = (Ret result, (log ++ retry_events r waits ++ [EvRequest r])%list).
Proof.
  intros r k Hk Htr Hpow Hdec. unfold _request_with_retry. fold r.
  replace (Z.to_nat (MAX_RETRIES cfg))
    with (k + S (Z.to_nat (MAX_RETRIES cfg) - S k))%nat by lia.
  unfold k. rewrite retry_loop_prefix by (first [exact Htr | exact Hpow | fold k; lia]).
  cbn [retry_loop Nat.add]. unfold bind, http_request.
  rewrite requests_made_app, requests_made_retry_events. fold k. rewrite Hdec.
  unfold ret. now rewrite <- app_assoc.
Qed.

(** or lets an exception out. *)
Lemma request_with_retry_escapes (method endpoint : string)
    (params data : option dict) (log : Log) (waits : list Q) (e : exn) :
  let r := request_of cfg method endpoint params data in
  let k := List.length waits in
  (k < Z.to_nat (MAX_RETRIES cfg))%nat ->
  (forall i, (i < k)%nat ->
             is_transient (w_http w (requests_made log + i) r) = true) ->
  backs_off cfg w 0 waits ->
  on_attempt cfg w k (w_http w (requests_made log + k) r) = Escape e ->
  _request_with_retry cfg w method endpoint params data log
  = (Raise e, (log ++ retry_events r waits ++ [EvRequest r])%list).
Proof.
  intros r k Hk Htr Hpow Hdec. unfold _request_with_retry. fold r.
  replace (Z.to_nat (MAX_RETRIES cfg))
    with (k + S (Z.to_nat (MAX_RETRIES cfg) - S k))%nat by lia.
  unfold k. rewrite retry_loop_prefix by (first [exact Htr | exact Hpow | fold k; lia]).
  cbn [retry_loop Nat.add]. unfold bind, http_request.
  rewrite requests_made_app, requests_made_retry_events. fold k. rewrite Hdec.
  unfold raise. now rewrite <- app_assoc.
Qed.

(** A request whose answer ends the call whatever the attempt is the last
    event of the log, and its answer decides the result. *)
Lemma retry_loop_last (rem : nat) :
  forall (attempt : nat) (r : Request) (log before after : Log) (r' : Request)
         (result : json),
  sent log (snd (retry_loop cfg w rem attempt r log)) before r' after ->
  (forall i, on_attempt cfg w i (answer w log before r') = Return result) ->
  fst (retry_loop cfg w rem attempt r log) = Ret result /\ after = [] /\ r' = r.
Proof.
  unfold sent, answer.
  induction rem as [|rem IH]; intros attempt r log before after r' result Hsent Hdec.
  - cbn in Hsent. rewrite <- (app_nil_r log) in Hsent at 1.
    apply app_inv_head in Hsent. now destruct before.
  - cbn [retry_loop] in *. unfold bind at 1, http_request at 1 in Hsent.
    unfold bind at 1, http_request at 1.
    destruct (on_attempt cfg w attempt (w_http w (requests_made log) r))
      as [result0|wait|e] eqn:Hfirst.
    + cbn [ret snd fst] in *. apply app_inv_head in Hsent.
      destruct before as [|b before].
      * injection Hsent as <- <-. rewrite app_nil_r in Hdec.
        rewrite (Hdec attempt) in Hfirst. injection Hfirst as <-. now repeat split.
      * injection Hsent as _ Hrest. now destruct before.
    + unfold bind at 1, sleep at 1, emit at 1 in Hsent.
      unfold bind at 1, sleep at 1, emit at 1.
      destruct (retry_loop_extends rem (S attempt) r
                  ((log ++ [EvRequest r]) ++ [EvSleep wait])%list) as (extra & Hextra).
      rewrite Hextra in Hsent. rewrite <- !app_assoc in Hsent.
      apply app_inv_head in Hsent. cbn [app] in Hsent.
      destruct before as [|b before].
      * injection Hsent as <- _. rewrite app_nil_r in Hdec.
        rewrite (Hdec attempt) in Hfirst. discriminate.
      * injection Hsent as <- Hrest.
        destruct before as [|b before]; [discriminate|].
        injection Hrest as <- Hrest.
        apply (IH (S attempt) r ((log ++ [EvRequest r]) ++ [EvSleep wait])%list
                  before after r' result).
        -- rewrite Hextra, Hrest. reflexivity.
        -- intros i. rewrite <- !app_assoc. exact (Hdec i).
    + cbn [raise snd fst] in *. apply app_inv_head in Hsent.
      destruct before as [|b before].
      * injection Hsent as <- <-. rewrite app_nil_r in Hdec.
        rewrite (Hdec attempt) in Hfirst. discriminate.
      * injection Hsent as _ Hrest. now destruct before.
Qed.

Lemma request_with_retry_last (method endpoint : string)
    (params data : option dict) (log before after : Log) (r : Request) :
  sent log (snd (_request_with_retry cfg w method endpoint params data log))
       before r after ->
  is_transient (answer w log before r) = false ->
  fst (_request_with_retry cfg w method endpoint params data log)
  = Ret (terminal_result (answer w log before r))
  /\ after = []
  /\ r = request_of cfg method endpoint params data.
Proof.
  intros Hsent Hterminal. unfold _request_with_retry in *.
  apply (retry_loop_last _ _ _ _ _ _ _ _ Hsent).
  intros i. now apply on_attempt_terminal.
Qed.

End RetryFacts.

(** ** Substrings of the error messages *)

Lemma prefix_app (x tail : string) : prefix x (x ++ tail) = true.
Proof.
  induction x as [|c x IH]; simpl; [now destruct tail|].
  destruct (ascii_dec c c); [exact IH|contradiction].
Qed.

Lemma contains_unfold (x hay : string) :
  PyStr.contains x hay
  = prefix x hay
    || match hay with
       | EmptyString => false
       | String _ hay' => PyStr.contains x hay'
       end.
Proof. destruct hay; reflexivity. Qed.

Lemma contains_app (head x tail : string) :
  PyStr.contains x (head ++ x ++ tail) = true.
Proof.
  induction head as [|c head IH].
  - rewrite contains_unfold. simpl. now rewrite prefix_app.
  - cbn [append PyStr.contains]. rewrite IH. apply orb_true_r.
Qed.

Lemma exhausted_message_count (cfg : Config) (a : Attempt) :
  PyStr.contains (PyStr.of_Z (MAX_RETRIES cfg)) (exhausted_message cfg a) = true.
Proof.
  unfold exhausted_message.
  destruct a as [status text parsed|e]; [destruct (status =? 400)|];
    apply contains_app.
Qed.

Lemma exhausted_message_timeout (cfg : Config) (e : exn) :
  PyStr.contains "timeout" (exhausted_message cfg (Failure e)) = true.
Proof. reflexivity. Qed.

(** ** Retry, backoff and terminal outcomes *)




(** The scenario of the specification, for any backoff base: 503, 503,
    then 200 with three attempts allowed yields the payload, after the
    two sleeps [base ** 0] and [base ** 1], which are 1 and the base for
    every float. *)
Lemma busy_busy_ok (cfg : Config) (w : World) (method endpoint : string)
    (params data : option dict) (log : Log) (t0 t1 text : string)
    (p0 p1 : option json) (payload : json) :
  MAX_RETRIES cfg = 3 ->
  backs_off cfg w 0 [1; RETRY_BACKOFF cfg]%Q ->
  (forall i a, nth_error [Response 503 t0 p0; Response 503 t1 p1;
                          Response 200 text (Some payload)] i = Some a ->
     w_http w (requests_made log + i) (request_of cfg method endpoint params data) = a) ->
  exists log',
    _request_with_retry cfg w method endpoint params data log = (Ret payload, log')
    /\ sleeps log' = (sleeps log ++ [1; RETRY_BACKOFF cfg])%Q%list
    /\ (total_seconds [1; RETRY_BACKOFF cfg] == 1 + RETRY_BACKOFF cfg)%Q.
Proof.
  intros Hmax Hpow Hw. eexists. split; [|split].
  - apply request_with_retry_decides with (waits := [1; RETRY_BACKOFF cfg]%Q).
    + rewrite Hmax. vm_compute. lia.
    + intros [|[|i]] Hi; [| |simpl in Hi; lia].
      * now rewrite (Hw 0%nat _ eq_refl).
      * now rewrite (Hw 1%nat _ eq_refl).
    + exact Hpow.
    + cbn [List.length]. now rewrite (Hw 2%nat _ eq_refl).
  - rewrite !sleeps_app, sleeps_retry_events. reflexivity.
  - simpl. ring.
Qed.

(** C3: a 401 response ends the call at once.  Whatever attempt it
    answers, the request that drew the 401 is the last event of the log,
    so no retry and no backoff sleep follow it, and the authentication
    error is what the call returns.  The 401 is drawn by attempt [k]
    whenever the [k] attempts before it were transient and slept on; on
    the first attempt that is one request and no sleep at all. *)
Theorem unauthorized_is_terminal (cfg : Config) (w : World)
    (method endpoint : string) (params data : option dict) (log : Log)
    (text : string) (parsed : option json) :
  (forall before after r,
     sent log (snd (_request_with_retry cfg w method endpoint params data log))
          before r after ->
     answer w log before r = Response 401 text parsed ->
     fst (_request_with_retry cfg w method endpoint params data log)
     = Ret (error_dict ("Authentication failed: " ++ text))
     /\ after = []
     /\ r = request_of cfg method endpoint params data)
  /\ (forall waits,
        (List.length waits < Z.to_nat (MAX_RETRIES cfg))%nat ->
        (forall i, (i < List.length waits)%nat ->
           is_transient
             (w_http w (requests_made log + i)
                     (request_of cfg method endpoint params data))
           = true) ->
        backs_off cfg w 0 waits ->
        w_http w (requests_made log + List.length waits)
               (request_of cfg method endpoint params data)
        = Response 401 text parsed ->
        _request_with_retry cfg w method endpoint params data log
        = (Ret (error_dict ("Authentication failed: " ++ text)),
           (log ++ retry_events (request_of cfg method endpoint params data) waits
                ++ [EvRequest (request_of cfg method endpoint params data)])%list)).
Proof.
  split.
  - intros before after r Hsent Ha.
    destruct (request_with_retry_last cfg w method endpoint params data log
                before after r Hsent) as (Hres & Hafter & Hr).
    + now rewrite Ha.
    + rewrite Ha in Hres. now repeat split.
  - intros waits Hk Htr Hpow Ha.
    apply request_with_retry_decides; [exact Hk|exact Htr|exact Hpow|].
    rewrite Ha. reflexivity.
Qed.

Lemma unauthorized_is_terminal_witness :
  _request_with_retry Sample.cfg RetryFixtures.busy_then_unauthorized
                      "GET" "bookmarks" None None []
  = (Ret (error_dict "Authentication failed: bad credentials"),
     [EvRequest (request_of Sample.cfg "GET" "bookmarks" None None);
      EvSleep 1;
      EvRequest (request_of Sample.cfg "GET" "bookmarks" None None)])
  /\ (fst (_request_with_retry Sample.cfg RetryFixtures.busy_then_unauthorized
                               "GET" "bookmarks" None None [])
      = Ret (error_dict "Authentication failed: bad credentials")
      /\ @nil Event = []
      /\ request_of Sample.cfg "GET" "bookmarks" None None
         = request_of Sample.cfg "GET" "bookmarks" None None).
Proof.
  split.
  - apply (proj2 (unauthorized_is_terminal Sample.cfg RetryFixtures.busy_then_unauthorized
                    "GET" "bookmarks" None None [] "bad credentials" None) [1%Q]).
    + vm_compute. lia.
    + intros [|i] Hi; [reflexivity|simpl in Hi; lia].
    + reflexivity.
    + reflexivity.
  - apply (proj1 (unauthorized_is_terminal Sample.cfg RetryFixtures.busy_then_unauthorized
                    "GET" "bookmarks" None None [] "bad credentials" None)
             [EvRequest (request_of Sample.cfg "GET" "bookmarks" None None); EvSleep 1]
             []
             (request_of Sample.cfg "GET" "bookmarks" None None));
      reflexivity.
Defined.

(** A 401 on the very first attempt: one request, no sleep. *)
Example unauthorized_first_attempt :
  let w := Sample.scripted [Response 401 "bad credentials" None] Sample.busy in
  _request_with_retry Sample.cfg w "GET" "bookmarks" None None []
  = (Ret (error_dict "Authentication failed: bad credentials"),
     [EvRequest (request_of Sample.cfg "GET" "bookmarks" None None)]).
Proof. reflexivity. Qed.

(** C8: an exception raised during an attempt that is not a timeout ends
    the call at once.  Whatever attempt raises it, the request that
    failed is the last event of the log, so no retry and no backoff sleep
    follow it, however many attempts remain, and the error returned
    embeds [str(e)].  The attempt [k] is made whenever the [k] attempts
    before it were transient and slept on. *)
Theorem transport_fault_is_terminal (cfg : Config) (w : World)
    (method endpoint : string) (params data : option dict) (log : Log)
    (e : exn) :
  exc_class e <> TimeoutError ->
  (forall before after r,
     sent log (snd (_request_with_retry cfg w method endpoint params data log))
          before r after ->
     answer w log before r = Failure e ->
     fst (_request_with_retry cfg w method endpoint params data log)
     = Ret (error_dict ("Request failed: " ++ exc_msg e))
     /\ after = []
     /\ r = request_of cfg method endpoint params data)
  /\ (forall waits,
        (List.length waits < Z.to_nat (MAX_RETRIES cfg))%nat ->
        (forall i, (i < List.length waits)%nat ->
           is_transient
             (w_http w (requests_made log + i)
                     (request_of cfg method endpoint params data))
           = true) ->
        backs_off cfg w 0 waits ->
        w_http w (requests_made log + List.length waits)
               (request_of cfg method endpoint params data)
        = Failure e ->
        _request_with_retry cfg w method endpoint params data log
        = (Ret (error_dict ("Request failed: " ++ exc_msg e)),
           (log ++ retry_events (request_of cfg method endpoint params data) waits
                ++ [EvRequest (request_of cfg method endpoint params data)])%list)).
Proof.
  intros Hclass.
  assert (Hterminal : is_transient (Failure e) = false).
  { simpl. destruct (exc_class e); [contradiction| | |]; reflexivity. }
  split.
  - intros before after r Hsent Ha.
    destruct (request_with_retry_last cfg w method endpoint params data log
                before after r Hsent) as (Hres & Hafter & Hr).
    + now rewrite Ha.
    + rewrite Ha in Hres. now repeat split.
  - intros waits Hk Htr Hpow Ha.
    apply request_with_retry_decides; [exact Hk|exact Htr|exact Hpow|].
    rewrite Ha. now apply on_attempt_terminal.
Qed.

Lemma transport_fault_is_terminal_witness :
  _request_with_retry Sample.cfg RetryFixtures.timeout_then_refused
                      "POST" "bookmarks" None None []
  = (Ret (error_dict "Request failed: Cannot connect to host secure.diigo.com:443"),
     [EvRequest (request_of Sample.cfg "POST" "bookmarks" None None);
      EvSleep 1;
      EvRequest (request_of Sample.cfg "POST" "bookmarks" None None)]).
Proof.
  apply (proj2 (transport_fault_is_terminal Sample.cfg RetryFixtures.timeout_then_refused
                  "POST" "bookmarks" None None [] RetryFixtures.refused
                  ltac:(discriminate)) [1%Q]).
  - vm_compute. lia.
  - intros [|i] Hi; [reflexivity|simpl in Hi; lia].
  - reflexivity.
  - reflexivity.
Defined.

(** A connection error on the first of three attempts: one request, no
    sleep, two attempts left unused. *)
Example transport_fault_first_attempt :
  let w := Sample.scripted [Failure RetryFixtures.refused] (Sample.ok Sample.added) in
  _request_with_retry Sample.cfg w "GET" "bookmarks" None None []
  = (Ret (error_dict "Request failed: Cannot connect to host secure.diigo.com:443"),
     [EvRequest (request_of Sample.cfg "GET" "bookmarks" None None)]).
Proof. reflexivity. Qed.

(** ** get_bookmarks *)

(** C10, as stated, fails: a 200 response whose JSON body is an object
    with an [error] key is not a list, yet [get_bookmarks] hands that
    object back instead of the empty list. *)
Lemma get_bookmarks_error_payload_counterexample :
  w_http RetryFixtures.error_in_body 0
         (request_of Sample.cfg "GET" "bookmarks"
            (Some (get_bookmarks_params Sample.cfg None 0 100 1 None "all" None)) None)
  = Response 200 "" (Some RetryFixtures.quota)
  /\ is_list RetryFixtures.quota = false
  /\ fst (get_bookmarks Sample.cfg RetryFixtures.error_in_body
                        None 0 100 1 None "all" None [])
     = Ret RetryFixtures.quota
  /\ fst (get_bookmarks Sample.cfg RetryFixtures.error_in_body
                        None 0 100 1 None "all" None [])
     <> Ret (JList []).
Proof. repeat split. discriminate. Qed.

(** C10 (amended): a 200 response ends a [get_bookmarks] call, whatever
    attempt it answers: the request that drew it is the last event of
    the log.  When its payload is neither a list nor an object with an
    [error] key, the call returns the empty list; that is so for a body
    on which [resp.json()] raises [ContentTypeError], which the retry
    layer wraps as [{"message": text}].  A payload that is an object
    with an [error] key is returned as it is, and a list is returned as
    it is. *)
Theorem get_bookmarks_non_list_payload (cfg : Config) (w : World)
    (user : option string) (start count sort : Z) (tags : option string)
    (filter : string) (list_name : option string) (log before after : Log)
    (r : Request) (text : string) (parsed : option json) :
  sent log (snd (get_bookmarks cfg w user start count sort tags filter list_name log))
       before r after ->
  answer w log before r = Response 200 text parsed ->
  after = []
  /\ (is_list (payload_of text parsed) = false ->
      is_error_dict (payload_of text parsed) = false ->
      fst (get_bookmarks cfg w user start count sort tags filter list_name log)
      = Ret (JList []))
  /\ (parsed = None ->
      fst (get_bookmarks cfg w user start count sort tags filter list_name log)
      = Ret (JList []))
  /\ (is_error_dict (payload_of text parsed) = true ->
      fst (get_bookmarks cfg w user start count sort tags filter list_name log)
      = Ret (payload_of text parsed))
  /\ (is_list (payload_of text parsed) = true ->
      fst (get_bookmarks cfg w user start count sort tags filter list_name log)
      = Ret (payload_of text parsed)).
Proof.
  intros Hsent Ha.
  assert (Hsnd : snd (get_bookmarks cfg w user start count sort tags filter list_name log)
                 = snd (_request_with_retry cfg w "GET" "bookmarks"
                          (Some (get_bookmarks_params cfg user start count sort tags
                                                      filter list_name)) None log)).
  { unfold get_bookmarks, bind.
    destruct (_request_with_retry cfg w "GET" "bookmarks" _ None log) as [[v|e|] l];
      try reflexivity.
    cbn [snd]. destruct (is_error_dict v); [reflexivity|]. now destruct v. }
  rewrite Hsnd in Hsent.
  destruct (request_with_retry_last cfg w "GET" "bookmarks" _ None log
              before after r Hsent) as (Hres & Hafter & Hr).
  { now rewrite Ha. }
  rewrite Ha in Hres.
  assert (Hterm : terminal_result (Response 200 text parsed) = payload_of text parsed)
    by reflexivity.
  rewrite Hterm in Hres.
  assert (Hfst : fst (get_bookmarks cfg w user start count sort tags filter list_name log)
                 = Ret (if is_error_dict (payload_of text parsed)
                        then payload_of text parsed
                        else if is_list (payload_of text parsed)
                             then payload_of text parsed
                             else JList [])).
  { unfold get_bookmarks, bind.
    destruct (_request_with_retry cfg w "GET" "bookmarks" _ None log) as [[v|e|] l];
      cbn [fst] in Hres; try discriminate.
    injection Hres as ->.
    destruct (is_error_dict (payload_of text parsed)); [reflexivity|].
    now destruct (payload_of text parsed). }
  split; [exact Hafter|]. rewrite Hfst. repeat split.
  - intros -> ->. reflexivity.
  - intros ->. reflexivity.
  - intros ->. reflexivity.
  - intros Hlist. destruct (payload_of text parsed); try discriminate. reflexivity.
Qed.

Lemma get_bookmarks_non_list_payload_witness :
  @nil Event = []
  /\ fst (get_bookmarks Sample.cfg RetryFixtures.html_page None 0 100 1 None "all" None [])
     = Ret (JList []).
Proof.
  destruct (get_bookmarks_non_list_payload Sample.cfg RetryFixtures.html_page
              None 0 100 1 None "all" None [] [] []
              (request_of Sample.cfg "GET" "bookmarks"
                 (Some (get_bookmarks_params Sample.cfg None 0 100 1 None "all" None))
                 None)
              "<html>maintenance</html>" None eq_refl eq_refl)
    as (Hafter & _ & Hwrapped & _).
  split; [exact Hafter|exact (Hwrapped eq_refl)].
Defined.

(** The same call against an account without bookmarks: the two cannot be
    told apart by the value returned. *)
Example get_bookmarks_empty_account :
  let w := Sample.scripted [Sample.ok (JList [])] Sample.busy in
  fst (get_bookmarks Sample.cfg w None 0 100 1 None "all" None [])
  = fst (get_bookmarks Sample.cfg RetryFixtures.html_page None 0 100 1 None "all" None []).
Proof. reflexivity. Qed.

(** A body that does not parse although the response says it is JSON is
    no success: [resp.json()] raises inside the attempt, and the call
    returns the error of that exception. *)
Example get_bookmarks_unparsable_body :
  let w := Sample.scripted
             [Failure (Exn OtherError "Expecting value: line 1 column 1 (char 0)")]
             Sample.busy in
  fst (get_bookmarks Sample.cfg w None 0 100 1 None "all" None [])
  = Ret (error_dict "Request failed: Expecting value: line 1 column 1 (char 0)").
Proof. reflexivity. Qed.

(** ** Pagination (get_all_bookmarks) *)

Section PageFacts.

Variable cfg : Config.
Variable w : World.
Variable user : option string.
Variable sort : Z.
Variable tags : option string.
Variable filter : string.
Variable list_name : option string.

(** The loop, started at any offset with any bookmarks already collected:
    it runs through [n] full pages and stops at the page after them. *)
Lemma get_all_loop_pages (n : nat) :
  forall (fuel : nat) (start : Z) (acc : list json) (log : Log) (last : json),
    (forall k, (k < n)%nat ->
       full_page (page_result cfg w user sort tags filter list_name start k log)) ->
    page_result cfg w user sort tags filter list_name start n log = Ret last ->
    last_page last ->
    (n < fuel)%nat ->
    get_all_loop cfg w fuel user sort tags filter list_name start acc log
    = (Ret (if is_error_dict last then last
            else JList (acc ++ pages_items cfg w user sort tags filter list_name
                                           start (S n) log)),
       log_after_pages cfg w user sort tags filter list_name start (S n) log).
Proof.
  induction n as [|n IH]; intros fuel start acc log last Hfull Hlast Hstop Hfuel;
    (destruct fuel as [|fuel]; [lia|]);
    cbn [get_all_loop page_result pages_items log_after_pages] in *;
    unfold bind at 1;
    destruct (get_bookmarks cfg w user start 100 sort tags filter list_name log)
      as [res log1] eqn:Hget; cbn [fst snd] in *.
  - subst res. destruct Hstop as [Herr|(items & -> & Hlen)].
    + now rewrite Herr.
    + cbn [is_error_dict items_of]. destruct items as [|b items].
      * cbn. now rewrite app_nil_r.
      * cbn [negb truthy py_iter py_len]. unfold bind, ret.
        destruct (Z.ltb_spec (Z.of_nat (List.length (b :: items))) 100); [|lia].
        now rewrite app_nil_r.
  - destruct (Hfull 0%nat ltac:(lia)) as (items & Hres & Hlen).
    cbn [page_result fst] in Hres. rewrite Hget in Hres. cbn [fst] in Hres.
    subst res. cbn [is_error_dict items_of]. destruct items as [|b items].
    { simpl in Hlen. lia. }
    cbn [negb truthy py_iter py_len]. unfold bind at 1 2, ret.
    destruct (Z.ltb_spec (Z.of_nat (List.length (b :: items))) 100); [lia|].
    rewrite (IH fuel (start + 100) (acc ++ b :: items)%list log1 last).
    + now rewrite <- app_assoc.
    + intros k Hk. specialize (Hfull (S k) ltac:(lia)).
      cbn [page_result] in Hfull. now rewrite Hget in Hfull.
    + exact Hlast.
    + exact Hstop.
    + lia.
Qed.

End PageFacts.

(** Pages of 100: [get_all_bookmarks] fetches page after page, at the
    offsets 0, 100, 200, ..., and concatenates them.  If the first [n]
    pages are full (at least 100 items) and page [n] is not (it is an
    error, empty, or shorter than 100), the call stops with page [n]: it
    returns the error alone, or all the bookmarks of pages [0 .. n], and
    the log is the one after exactly [n + 1] fetches. *)
Lemma get_all_bookmarks_pages (cfg : Config) (w : World)
    (user : option string) (sort : Z) (tags : option string) (filter : string)
    (list_name : option string) (log : Log) (n fuel : nat) (last : json) :
  (forall k, (k < n)%nat ->
     full_page (page_result cfg w user sort tags filter list_name 0 k log)) ->
  page_result cfg w user sort tags filter list_name 0 n log = Ret last ->
  last_page last ->
  (n < fuel)%nat ->
  get_all_bookmarks cfg w fuel user sort tags filter list_name log
  = (Ret (if is_error_dict last then last
          else JList (pages_items cfg w user sort tags filter list_name 0 (S n) log)),
     log_after_pages cfg w user sort tags filter list_name 0 (S n) log).
Proof.
  intros Hfull Hlast Hstop Hfuel. unfold get_all_bookmarks.
  now rewrite (get_all_loop_pages cfg w user sort tags filter list_name
                 n fuel 0 [] log last Hfull Hlast Hstop Hfuel).
Qed.

(** The server of the specification, with pages of 100, 100 and 37: 237
    bookmarks after three fetches. *)
Example get_all_bookmarks_three_pages :
  exists items log',
    get_all_bookmarks Sample.cfg PageFixtures.three_pages 1000
                      None 1 None "all" None []
    = (Ret (JList items), log')
    /\ items = PageFixtures.bookmarks 0 237
    /\ List.length items = 237%nat
    /\ requests_made log' = 3%nat.
Proof.
  pose proof (get_all_bookmarks_pages Sample.cfg PageFixtures.three_pages
                None 1 None "all" None [] 2 1000
                (JList (PageFixtures.bookmarks 200 37))) as H.
  rewrite H.
  - eexists. eexists. split; [reflexivity|].
    split; [vm_compute; reflexivity|]. split; vm_compute; reflexivity.
  - intros [|[|k]] Hk; [| |lia].
    + exists (PageFixtures.bookmarks 0 100). split; [reflexivity|].
      vm_compute. lia.
    + exists (PageFixtures.bookmarks 100 100). split; [reflexivity|].
      vm_compute. lia.
  - reflexivity.
  - right. exists (PageFixtures.bookmarks 200 37). split; [reflexivity|].
    vm_compute. lia.
  - lia.
Qed.

(** The page size of the loop is the literal 100, but what a request asks
    for is [min(100, MAX_BOOKMARKS_PER_REQUEST)].  With a limit below 100
    a server that holds more bookmarks than the limit sends a page that
    is full for it and short for the loop: the loop stops after one
    request, with the first page only. *)
Lemma small_limit_stops_after_one_page (cfg : Config) (all : list json)
    (fuel : nat) (user : option string) (sort : Z) (tags : option string)
    (filter : string) (list_name : option string) (log : Log) :
  1 <= MAX_RETRIES cfg ->
  0 < MAX_BOOKMARKS_PER_REQUEST cfg < 100 ->
  (Z.to_nat (MAX_BOOKMARKS_PER_REQUEST cfg) < List.length all)%nat ->
  get_all_bookmarks cfg (PageFixtures.honest all) (S fuel)
                    user sort tags filter list_name log
  = (Ret (JList (firstn (Z.to_nat (MAX_BOOKMARKS_PER_REQUEST cfg)) all)),
     (log ++ [EvRequest
                (request_of cfg "GET" "bookmarks"
                   (Some (get_bookmarks_params cfg user 0 100 sort tags filter list_name))
                   None)])%list).
Proof.
  intros Hmax Hcap Hmore.
  set (cap := MAX_BOOKMARKS_PER_REQUEST cfg) in *.
  set (r := request_of cfg "GET" "bookmarks"
              (Some (get_bookmarks_params cfg user 0 100 sort tags filter list_name))
              None).
  assert (Hpage : PageFixtures.page_of all r = firstn (Z.to_nat cap) all).
  { unfold PageFixtures.page_of, r, request_of, get_bookmarks_params.
    cbn [rq_params].
    replace (Z.min 100 (MAX_BOOKMARKS_PER_REQUEST cfg)) with cap by (unfold cap; lia).
    destruct tags as [[|c t]|], list_name as [[|c' l]|]; reflexivity. }
  unfold get_all_bookmarks. cbn [get_all_loop].
  unfold bind at 1, get_bookmarks at 1, bind at 1.
  rewrite (request_with_retry_decides cfg (PageFixtures.honest all) "GET" "bookmarks"
             _ None log [] (JList (PageFixtures.page_of all r)));
    [|simpl; lia|intros i Hi; simpl in Hi; lia|reflexivity|reflexivity].
  cbn [retry_events flat_map app]. fold r. rewrite Hpage.
  assert (Hlen : List.length (firstn (Z.to_nat cap) all) = Z.to_nat cap)
    by (apply firstn_length_le; lia).
  destruct (firstn (Z.to_nat cap) all) as [|b page] eqn:Hfirst.
  { simpl in Hlen. lia. }
  cbv beta iota delta [is_error_dict truthy negb py_iter py_len ret bind].
  rewrite Hlen.
  destruct (Z.ltb_spec (Z.of_nat (Z.to_nat cap)) 100) as [_|Hge]; [reflexivity|lia].
Qed.

(** C4, at the failing input: [MAX_BOOKMARKS_PER_REQUEST=50], and a
    server that holds 237 bookmarks and answers every request with the
    page it asks for.  [get_all_bookmarks] asks once, for 50 bookmarks
    from offset 0, gets a page that is full, and stops because 50 is
    less than the 100 it compares with: it returns 50 bookmarks of 237.
    With the default limit of 100 the same server is asked three times,
    at the offsets 0, 100 and 200, and all 237 bookmarks come back. *)
Theorem get_all_bookmarks_small_limit :
  let all := PageFixtures.bookmarks 0 237 in
  let run := get_all_bookmarks PageFixtures.pages_of_50 (PageFixtures.honest all) 1000
                               None 1 None "all" None [] in
  let reference := get_all_bookmarks Sample.cfg (PageFixtures.honest all) 1000
                                     None 1 None "all" None [] in
  MAX_BOOKMARKS_PER_REQUEST PageFixtures.pages_of_50 = 50
  /\ fst run = Ret (JList (PageFixtures.bookmarks 0 50))
  /\ map (fun r => (param "start" r, param "count" r)) (requests (snd run))
     = [(Some (JInt 0), Some (JInt 50))]
  /\ fst reference = Ret (JList all)
  /\ map (fun r => (param "start" r, param "count" r)) (requests (snd reference))
     = [(Some (JInt 0), Some (JInt 100)); (Some (JInt 100), Some (JInt 100));
        (Some (JInt 200), Some (JInt 100))].
Proof. vm_compute. repeat split; reflexivity. Qed.

(** The three fetches ask for the offsets 0, 100 and 200. *)
Example three_pages_offsets :
  map (fun ev => match ev with
                 | EvRequest r => Dict.lookup "start" (rq_params r)
                 | _ => None
                 end)
      (snd (get_all_bookmarks Sample.cfg PageFixtures.three_pages 1000
                              None 1 None "all" None []))
  = [Some (JInt 0); Some (JInt 100); Some (JInt 200)].
Proof. vm_compute. reflexivity. Qed.

(** A page that fails: the error is what the call returns, the bookmarks
    of the page before it are dropped, and no third fetch is made. *)
Example second_page_forbidden :
  let w := Sample.scripted
             [Sample.ok (JList (PageFixtures.bookmarks 0 100));
              Response 403 "no access" None]
             (Sample.ok (JList (PageFixtures.bookmarks 0 100))) in
  let run := get_all_bookmarks Sample.cfg w 1000 None 1 None "all" None [] in
  fst run = Ret (error_dict "Access forbidden: no access")
  /\ requests_made (snd run) = 2%nat.
Proof. vm_compute. split; reflexivity. Qed.

(** ** What the client layer always does *)

Lemma save_calls_io (l : Log) : Forall io_event l -> save_calls l = [].
Proof.
  induction 1 as [|ev l Hev _ IH]; [reflexivity|].
  destruct ev; simpl in *; try contradiction; exact IH.
Qed.

Lemma clients_built_io (l : Log) : Forall io_event l -> clients_built l = 0%nat.
Proof.
  induction 1 as [|ev l Hev _ IH]; [reflexivity|].
  destruct ev; simpl in *; try contradiction; exact IH.
Qed.

Section ClientFacts.

Variable cfg : Config.
Variable w : World.

(** Only a 200 response with a JSON list makes the retry layer return a
    list: every error it builds is an object. *)
Lemma on_attempt_list (attempt : nat) (a : Attempt) (items : list json) :
  on_attempt cfg w attempt a = Return (JList items) ->
  exists text, a = Response 200 text (Some (JList items)).
Proof.
  destruct a as [status text parsed|e]; simpl.
  - destruct (Z.eqb_spec status 200) as [->|_].
    + destruct parsed as [payload|]; intros H; inversion H; subst. now exists text.
    + unfold retry_or, error_dict.
      destruct (backoff_wait cfg w attempt);
        repeat match goal with
               | |- context [if ?b then _ else _] => destruct b
               end; intros H; discriminate.
  - unfold retry_or_raise, error_dict.
    destruct (backoff_wait cfg w attempt), (exc_class e);
      repeat match goal with
             | |- context [if ?b then _ else _] => destruct b
             end; intros H; discriminate.
Qed.

(** The retry loop always comes back, with a value or with the exception
    of a backoff power; it logs requests and sleeps only; and a list it
    returns is the payload of one of its requests. *)
Lemma retry_loop_returns (rem : nat) :
  forall (attempt : nat) (r : Request) (log : Log),
  exists res extra,
    retry_loop cfg w rem attempt r log = (res, (log ++ extra)%list)
    /\ res <> Spin
    /\ Forall io_event extra
    /\ (forall items, res = Ret (JList items) ->
          exists i text,
            (requests_made log <= i < requests_made (log ++ extra)%list)%nat
            /\ w_http w i r = Response 200 text (Some (JList items))).
Proof.
  induction rem as [|rem IH]; intros attempt r log.
  - exists (Ret (error_dict "Max retries exceeded")), []. rewrite app_nil_r.
    repeat split; [discriminate|constructor|]. intros items H. discriminate.
  - cbn [retry_loop]. unfold bind at 1, http_request at 1.
    destruct (on_attempt cfg w attempt (w_http w (requests_made log) r))
      as [result|wait|e] eqn:Hdec.
    + exists (Ret result), [EvRequest r]. split; [reflexivity|].
      split; [discriminate|]. split.
      * repeat constructor.
      * intros items [= ->]. apply on_attempt_list in Hdec as [text Ha].
        exists (requests_made log), text. split; [|exact Ha].
        rewrite requests_made_app. simpl. lia.
    + unfold bind, sleep, emit.
      destruct (IH (S attempt) r ((log ++ [EvRequest r]) ++ [EvSleep wait])%list)
        as (res & extra & Hrun & Hback & Hio & Hlist).
      exists res, ([EvRequest r; EvSleep wait] ++ extra)%list.
      split; [|split; [exact Hback|split]].
      * rewrite Hrun. f_equal. now rewrite <- !app_assoc.
      * apply Forall_app. split; [repeat constructor|exact Hio].
      * intros items Hv. destruct (Hlist items Hv) as (i & text & Hi & Ha).
        exists i, text. split; [|exact Ha].
        rewrite !requests_made_app in *. simpl in *. lia.
    + exists (Raise e), [EvRequest r]. split; [reflexivity|].
      split; [discriminate|]. split; [repeat constructor|]. intros items H. discriminate.
Qed.

(** [get_bookmarks] comes back; what it returns is an error object or a
    list. *)
Lemma get_bookmarks_returns (user : option string) (start count sort : Z)
    (tags : option string) (filter : string) (list_name : option string)
    (log : Log) :
  exists res extra,
    get_bookmarks cfg w user start count sort tags filter list_name log
    = (res, (log ++ extra)%list)
    /\ res <> Spin
    /\ Forall io_event extra
    /\ (forall v, res = Ret v ->
          (is_error_dict v = true \/ exists items, v = JList items)
          /\ (forall b items, v = JList (b :: items) ->
                exists i r text,
                  (requests_made log <= i < requests_made (log ++ extra)%list)%nat
                  /\ w_http w i r = Response 200 text (Some v))).
Proof.
  unfold get_bookmarks, _request_with_retry, bind.
  destruct (retry_loop_returns (Z.to_nat (MAX_RETRIES cfg)) 0
              (request_of cfg "GET" "bookmarks"
                 (Some (get_bookmarks_params cfg user start count sort tags filter list_name))
                 None) log)
    as (res & extra & -> & Hback & Hio & Hlist).
  destruct res as [v|e|]; [| |now destruct Hback].
  - destruct (is_error_dict v) eqn:Herr.
    + exists (Ret v), extra. repeat split; try assumption; try discriminate.
      * injection H as <-. now left.
      * injection H as <-. intros b items ->. discriminate.
    + destruct v as [| | | |items|d];
        try (exists (Ret (JList [])), extra; repeat split; try assumption;
             try discriminate;
             [injection H as <-; right; now eexists
             |injection H as <-; intros; discriminate]).
      exists (Ret (JList items)), extra. repeat split; try assumption; try discriminate.
      * injection H as <-. right. now eexists.
      * injection H as <-. intros b items' Heq.
        destruct (Hlist items eq_refl) as (i & text & Hi & Ha).
        now exists i, (request_of cfg "GET" "bookmarks"
                      (Some (get_bookmarks_params cfg user start count sort tags
                                                  filter list_name))
                      None), text.
  - exists (Raise e), extra. repeat split; try assumption; try discriminate.
Qed.

(** The pagination loop comes back once the server has no full page left,
    and then it has logged requests and sleeps only. *)
Lemma get_all_loop_returns (n : nat) (user : option string) (sort : Z)
    (tags : option string) (filter : string) (list_name : option string) :
  full_pages_end w n ->
  forall (fuel : nat) (start : Z) (acc : list json) (log : Log),
    (n < requests_made log + fuel)%nat ->
    (0 < fuel)%nat ->
    exists res extra,
      get_all_loop cfg w fuel user sort tags filter list_name start acc log
      = (res, (log ++ extra)%list)
      /\ res <> Spin
      /\ Forall io_event extra
      /\ (forall v, res = Ret v ->
            is_error_dict v = true \/ exists items, v = JList items).
Proof.
  intros Hend. induction fuel as [|fuel IH]; intros start acc log Hn Hfuel; [lia|].
  cbn [get_all_loop]. unfold bind at 1.
  destruct (get_bookmarks_returns user start 100 sort tags filter list_name log)
    as (res & e1 & -> & Hback & Hio1 & Hret).
  destruct res as [v|e|]; [| |now destruct Hback].
  2:{ exists (Raise e), e1. repeat split; try assumption; discriminate. }
  destruct (Hret v eq_refl) as [Hshape Hfrom].
  destruct (is_error_dict v) eqn:Herr.
  { exists (Ret v), e1. repeat split; try assumption; try discriminate.
    intros v' [= <-]. now left. }
  destruct Hshape as [Hv|(items & ->)]; [congruence|].
  destruct items as [|b items].
  { exists (Ret (JList acc)), e1. repeat split; try assumption; try discriminate.
    intros v' [= <-]. right. now eexists. }
  cbn [negb truthy py_iter py_len]. unfold bind at 1 2, ret.
  destruct (Z.ltb_spec (Z.of_nat (List.length (b :: items))) 100) as [Hshort|Hlong].
  { eexists (Ret _), e1. repeat split; try assumption; try discriminate.
    intros v' [= <-]. right. now eexists. }
  destruct (Hfrom b items eq_refl) as (i & r & text & Hi & Ha).
  assert (Hin : (i < n)%nat).
  { destruct (Nat.lt_ge_cases i n) as [H|H]; [exact H|].
    specialize (Hend i r H). rewrite Ha in Hend. unfold is_full_page in Hend.
    change (200 =? 200) with true in Hend. cbn [andb] in Hend.
    apply Nat.leb_gt in Hend. lia. }
  destruct (IH (start + 100) (acc ++ b :: items)%list (log ++ e1)%list)
    as (res' & e2 & Hrun & Hback' & Hio2 & Hshape'); [lia|lia|].
  exists res', (e1 ++ e2)%list. rewrite Hrun, <- app_assoc.
  repeat split; try assumption. apply Forall_app. now split.
Qed.

Lemma get_all_bookmarks_returns (n fuel : nat) (user : option string) (sort : Z)
    (tags : option string) (filter : string) (list_name : option string)
    (log : Log) :
  full_pages_end w n ->
  (n < fuel)%nat ->
  exists res extra,
    get_all_bookmarks cfg w fuel user sort tags filter list_name log
    = (res, (log ++ extra)%list)
    /\ res <> Spin
    /\ Forall io_event extra
    /\ (forall v, res = Ret v ->
          is_error_dict v = true \/ exists items, v = JList items).
Proof.
  intros Hend Hfuel. unfold get_all_bookmarks.
  apply (get_all_loop_returns n); [exact Hend|lia|lia].
Qed.

End ClientFacts.

(** ** Computations that come back *)

Lemma total_ret {A : Type} (a : A) : total (ret a).
Proof. intros log. discriminate. Qed.

Lemma total_raise {A : Type} (e : exn) : total (@raise A e).
Proof. intros log. discriminate. Qed.

Lemma total_emit (ev : Event) : total (emit ev).
Proof. intros log. discriminate. Qed.

Lemma total_may_fail (o : option exn) : total (may_fail o).
Proof. destruct o; [apply total_raise|apply total_ret]. Qed.

Lemma total_bind {A B : Type} (c : M A) (k : A -> M B) :
  total c -> (forall a, total (k a)) -> total (bind c k).
Proof.
  intros Hc Hk log. unfold bind. specialize (Hc log).
  destruct (c log) as [[a|e|] log']; simpl in *;
    [apply Hk|discriminate|contradiction].
Qed.

Lemma total_try_except {A : Type} (c : M A) (h : exn -> M A) :
  total c -> (forall e, total (h e)) -> total (try_except c h).
Proof.
  intros Hc Hh log. unfold try_except. specialize (Hc log).
  destruct (c log) as [[a|e|] log']; simpl in *;
    [discriminate|apply Hh|contradiction].
Qed.

Lemma total_py_get (x : json) (k : string) (default : json) :
  total (py_get x k default).
Proof. destruct x; first [apply total_ret|apply total_raise]. Qed.

Lemma total_py_lower (x : json) : total (py_lower x).
Proof. destruct x; first [apply total_ret|apply total_raise]. Qed.

Lemma total_py_iter (x : json) : total (py_iter x).
Proof. destruct x; first [apply total_ret|apply total_raise]. Qed.

Lemma total_py_len (x : json) : total (py_len x).
Proof. destruct x; first [apply total_ret|apply total_raise]. Qed.

Create HintDb total.

#[local] Hint Resolve total_ret total_raise total_emit total_may_fail
  total_py_get total_py_lower total_py_iter total_py_len : total.

(** Breaks a goal [total c] along the structure of [c]. *)
Ltac total_step :=
  match goal with
  | |- total (bind _ _) => apply total_bind; [|intros ?]
  | |- total (try_except _ _) => apply total_try_except; [|intros ?]
  | |- total (if ?b then _ else _) => destruct b
  | |- total (match ?x with _ => _ end) => destruct x
  | |- total _ => solve [auto with total]
  end.

Section ToolFacts.

Variable urlparse : string -> UrlParse.
Variable cfg : Config.
Variable w : World.

Lemma total_request_with_retry (method endpoint : string)
    (params data : option dict) :
  total (_request_with_retry cfg w method endpoint params data).
Proof.
  intros log. unfold _request_with_retry.
  destruct (retry_loop_returns cfg w (Z.to_nat (MAX_RETRIES cfg)) 0
              (request_of cfg method endpoint params data) log)
    as (res & extra & -> & Hback & _). exact Hback.
Qed.

Lemma total_get_bookmarks (user : option string) (start count sort : Z)
    (tags : option string) (filter : string) (list_name : option string) :
  total (get_bookmarks cfg w user start count sort tags filter list_name).
Proof.
  intros log.
  destruct (get_bookmarks_returns cfg w user start count sort tags filter list_name log)
    as (res & extra & -> & Hback & _). exact Hback.
Qed.

Lemma total_get_all_bookmarks (n fuel : nat) (user : option string) (sort : Z)
    (tags : option string) (filter : string) (list_name : option string) :
  full_pages_end w n ->
  (n < fuel)%nat ->
  total (get_all_bookmarks cfg w fuel user sort tags filter list_name).
Proof.
  intros Hend Hfuel log.
  destruct (get_all_bookmarks_returns cfg w n fuel user sort tags filter list_name
              log Hend Hfuel)
    as (res & extra & -> & Hback & _). exact Hback.
Qed.

Lemma total_save_bookmark (a : SaveArgs) : total (save_bookmark cfg w a).
Proof. unfold save_bookmark. total_step; [auto with total|apply total_request_with_retry]. Qed.

Lemma total_delete_bookmark (url title : json) :
  total (delete_bookmark cfg w url title).
Proof. apply total_request_with_retry. Qed.

Lemma total_bind_save_kwargs (kw : dict) : total (bind_save_kwargs kw).
Proof. unfold bind_save_kwargs. repeat total_step. Qed.

Lemma total_bulk_step (total_items : nat) (delay : Q) (i : nat) (bookmark : dict)
    (success_count : Z) (failed : list json) :
  total (bulk_step cfg w total_items delay i bookmark success_count failed).
Proof.
  unfold bulk_step, sleep.
  repeat first [ apply total_bind_save_kwargs | apply total_save_bookmark | total_step ].
Qed.

Lemma total_bulk_loop (total_items : nat) (delay : Q) (bookmarks : list dict) :
  forall (i : nat) (success_count : Z) (failed : list json),
    total (bulk_loop cfg w total_items delay i bookmarks success_count failed).
Proof.
  induction bookmarks as [|bookmark rest IH]; intros i success_count failed;
    cbn [bulk_loop]; [apply total_ret|].
  apply total_bind; [apply total_bulk_step|intros counters; apply IH].
Qed.

Lemma total_bulk_save_bookmarks (bookmarks : list dict) (delay : Q) :
  total (bulk_save_bookmarks cfg w bookmarks delay).
Proof.
  unfold bulk_save_bookmarks.
  apply total_bind; [apply total_bulk_loop|intros counters; apply total_ret].
Qed.

Lemma total_find_by_url (url : string) (items : list json) :
  total (find_by_url url items).
Proof.
  induction items as [|b rest IH]; cbn [find_by_url]; [apply total_ret|].
  repeat first [ exact IH | total_step ].
Qed.

Lemma total_search_filter (query_lower : string) (items : list json) :
  total (search_filter query_lower items).
Proof.
  induction items as [|b rest IH]; cbn [search_filter]; [apply total_ret|].
  repeat first [ exact IH | total_step ].
Qed.

(** The [async with] block comes back when its body does. *)
Lemma total_with_client {A : Type} (body : M A) :
  total body -> total (with_client w body).
Proof.
  intros Hbody. unfold with_client.
  repeat (apply total_bind; [auto with total|intros ?]).
  intros log. specialize (Hbody log).
  destruct (body log) as [[result|exc|] log']; simpl in *; try contradiction;
    unfold bind, emit; destruct (w_exit w); simpl; discriminate.
Qed.

(** The boundary turns every exception into an error object, so a body
    that comes back makes the tool return a value. *)
Lemma tool_boundary_returns (body : M json) (log : Log) :
  fst (body log) <> Spin ->
  exists v log', tool_boundary body log = (Ret v, log').
Proof.
  intros Hbody. unfold tool_boundary, try_except.
  destruct (body log) as [[v|e|] log']; simpl in *;
    [eauto|unfold ret; eauto|contradiction].
Qed.

(** No exception gets past the boundary. *)
Lemma tool_boundary_never_raises (body : M json) (log : Log) (e : exn) :
  fst (tool_boundary body log) <> Raise e.
Proof.
  unfold tool_boundary, try_except.
  destruct (body log) as [[v|e'|] log']; simpl; discriminate.
Qed.

(** Every tool is its boundary around a body. *)
Lemma run_tool_boundary (fuel : nat) (call : ToolCall) :
  exists body, run_tool urlparse cfg w fuel call = tool_boundary body.
Proof. destruct call; eexists; reflexivity. Qed.

(** With the pagination budget above the number of full pages the server
    has, the body of every tool comes back. *)
Lemma run_tool_total (n fuel : nat) (call : ToolCall) :
  full_pages_end w n ->
  (n < fuel)%nat ->
  total (run_tool urlparse cfg w fuel call).
Proof.
  intros Hend Hfuel.
  pose proof (fun user sort tags filter list_name =>
                total_get_all_bookmarks n fuel user sort tags filter list_name
                                        Hend Hfuel) as Hall.
  destruct call; cbn [run_tool];
    unfold list_bookmarks_tool, search_bookmarks_tool, get_bookmark_tool,
      create_bookmark_tool, update_bookmark_tool, delete_bookmark_tool,
      get_recent_bookmarks_tool, get_annotations_tool, bulk_create_bookmarks_tool,
      tool_boundary;
    repeat first
      [ apply total_with_client
      | apply Hall
      | apply total_get_bookmarks
      | apply total_save_bookmark
      | apply total_delete_bookmark
      | apply total_bulk_save_bookmarks
      | apply total_find_by_url
      | apply total_search_filter
      | total_step ].
Qed.

End ToolFacts.

(** ** The tool boundary (tools.py) *)

Example validate_url_examples :
  map (validate_url UrlModel.urlparse)
      ["https://e.com/a"; "http://localhost:8080"; "not a url"; "mailto:a@e.com";
       "//e.com/a"; "https://"; ""]
  = [true; true; false; false; false; false; false].
Proof. reflexivity. Qed.

(** Against a server that answers every request with a full page, the
    pagination loop never leaves its first branch. *)
Lemma endless_loop_spins (fuel : nat) :
  forall (user : option string) (sort : Z) (tags : option string) (filter : string)
         (list_name : option string) (start : Z) (acc : list json) (log : Log),
    fst (get_all_loop Sample.cfg PageFixtures.endless fuel user sort tags filter
                      list_name start acc log) = Spin.
Proof.
  induction fuel as [|fuel IH]; intros; cbn [get_all_loop]; [reflexivity|].
  unfold bind at 1, get_bookmarks at 1, bind at 1.
  rewrite (request_with_retry_decides Sample.cfg PageFixtures.endless "GET" "bookmarks"
             _ None log [] (JList (PageFixtures.bookmarks 0 100)));
    [|vm_compute; lia|intros i Hi; simpl in Hi; lia|reflexivity|reflexivity].
  cbn [retry_events flat_map app].
  set (page := PageFixtures.bookmarks 0 100).
  assert (Hlen : List.length page = 100%nat) by reflexivity.
  destruct page as [|b rest]; [discriminate|].
  cbv beta iota delta [is_error_dict truthy negb py_iter py_len ret bind].
  rewrite Hlen. change (Z.of_nat 100 <? 100) with false. cbv iota. apply IH.
Qed.

(** Listing all bookmarks of that server: whatever the number of loop
    iterations allowed, the run is still inside the [while True] loop of
    [get_all_bookmarks]. *)
Lemma list_bookmarks_endless_spins (fuel : nat) :
  fst (run_tool UrlModel.urlparse Sample.cfg PageFixtures.endless fuel
                (ListBookmarks None None 0 1 None "all" None) [])
  = Spin.
Proof.
  cbn [run_tool].
  unfold list_bookmarks_tool, tool_boundary, try_except, with_client.
  unfold bind at 1 2 3 4.
  cbn [emit may_fail PageFixtures.endless w_new w_enter ret app].
  unfold bind at 1, get_all_bookmarks.
  pose proof (endless_loop_spins fuel None 1 None "all" None 0 [] [EvNew; EvEnter]) as H.
  destruct (get_all_loop _ _ _ _ _ _ _ _ _ _ _) as [[v|e|] log'] eqn:E;
    simpl in H; try discriminate.
  reflexivity.
Qed.


Section BoundaryFacts.

Variable urlparse : string -> UrlParse.
Variable cfg : Config.
Variable w : World.

(** The tools that never enter the pagination loop come back whatever the
    budget is. *)
Lemma run_tool_total_without_pages (fuel : nat) (call : ToolCall) :
  paginates call = false ->
  total (run_tool urlparse cfg w fuel call).
Proof.
  intros Hp.
  destruct call as [user [count|] start sort tags filter list_name | | | | | url title | | |];
    try discriminate; cbn [run_tool];
    unfold list_bookmarks_tool, create_bookmark_tool, delete_bookmark_tool,
      get_recent_bookmarks_tool, bulk_create_bookmarks_tool, tool_boundary;
    try (cbn [paginates] in Hp; apply negb_false_iff in Hp; rewrite Hp);
    repeat first
      [ apply total_with_client
      | apply total_get_bookmarks
      | apply total_save_bookmark
      | apply total_delete_bookmark
      | apply total_bulk_save_bookmarks
      | total_step ].
Qed.

End BoundaryFacts.



(** What that search returns: the eight bookmarks whose title holds
    "bookmark 23", that is number 23 and numbers 230 to 236, after three
    requests. *)
Example search_small_account :
  let run := run_tool UrlModel.urlparse Sample.cfg ToolFixtures.small_account 3
                      (SearchBookmarks "bookmark 23" None "all" None) [] in
  fst run = Ret (JList (PageFixtures.bookmark_no 23 :: PageFixtures.bookmarks 230 7))
  /\ requests_made (snd run) = 3%nat.
Proof. vm_compute. split; reflexivity. Qed.

(** An exception inside the body comes out as an error object: here the
    server sends a list that holds a number where a bookmark should be. *)
Example get_bookmark_malformed_item :
  let w := Sample.scripted [Sample.ok (JList [JInt 7])] Sample.busy in
  fst (run_tool UrlModel.urlparse Sample.cfg w 3
                (GetBookmark "https://e.com/a" None) [])
  = Ret (error_dict "'int' object has no attribute 'get'").
Proof. reflexivity. Qed.

(** ** What the tools log *)

Section LogFacts.

Variable cfg : Config.
Variable w : World.

(** Whatever comes of it, the pagination loop logs requests and sleeps
    only. *)
Lemma get_all_loop_log (fuel : nat) (user : option string) (sort : Z)
    (tags : option string) (filter : string) (list_name : option string) :
  forall (start : Z) (acc : list json) (log : Log),
  exists extra,
    snd (get_all_loop cfg w fuel user sort tags filter list_name start acc log)
    = (log ++ extra)%list
    /\ Forall io_event extra.
Proof.
  induction fuel as [|fuel IH]; intros start acc log; cbn [get_all_loop].
  { exists []. rewrite app_nil_r. split; [reflexivity|constructor]. }
  unfold bind at 1.
  destruct (get_bookmarks_returns cfg w user start 100 sort tags filter list_name log)
    as (res & e1 & -> & Hback & Hio1 & Hret).
  destruct res as [v|e|]; [|now exists e1|now destruct Hback].
  destruct (Hret v eq_refl) as [Hshape _].
  destruct (is_error_dict v) eqn:Herr; [now exists e1|].
  destruct Hshape as [Hv|(items & ->)]; [congruence|].
  destruct items as [|b items]; [now exists e1|].
  cbv beta iota delta [truthy negb py_iter py_len ret bind].
  destruct (Z.of_nat (List.length (b :: items)) <? 100); [now exists e1|].
  destruct (IH (start + 100) (acc ++ b :: items)%list (log ++ e1)%list)
    as (e2 & Hlog & Hio2).
  exists (e1 ++ e2)%list. rewrite Hlog, <- app_assoc. split; [reflexivity|].
  apply Forall_app. now split.
Qed.

(** A save call is logged once, followed by its requests and sleeps. *)
Lemma save_bookmark_effect (a : SaveArgs) (log : Log) :
  exists res extra,
    save_bookmark cfg w a log = (res, (log ++ EvSave a :: extra)%list)
    /\ res <> Spin
    /\ Forall io_event extra.
Proof.
  unfold save_bookmark, bind, emit, _request_with_retry.
  destruct (retry_loop_returns cfg w (Z.to_nat (MAX_RETRIES cfg)) 0
              (request_of cfg "POST" "bookmarks" None (Some (save_data a)))
              (log ++ [EvSave a])%list)
    as (res & extra & -> & Hback & Hio & _).
  exists res, extra. rewrite <- app_assoc. now split.
Qed.

(** The session of a client that can be built and opened: the body runs
    between [EvNew; EvEnter] and [EvExit]. *)
Lemma with_client_log {A : Type} (body : M A) (log : Log) :
  w_new w = None ->
  w_enter w = None ->
  exists closing,
    snd (with_client w body log)
    = (snd (body (log ++ [EvNew; EvEnter])%list) ++ closing)%list
    /\ (closing = [] \/ closing = [EvExit]).
Proof.
  intros Hnew Henter. unfold with_client, bind, emit, may_fail, ret.
  rewrite Hnew, Henter. rewrite <- app_assoc. cbn [app].
  destruct (body (log ++ [EvNew; EvEnter])%list) as [[x|e|] log'];
    cbn [fst snd].
  - destruct (w_exit w); cbn [raise snd]; exists [EvExit]; now split; [|right].
  - destruct (w_exit w); cbn [raise snd]; exists [EvExit]; now split; [|right].
  - exists []. rewrite app_nil_r. now split; [|left].
Qed.

End LogFacts.

Lemma find_by_url_found (url : string) (before after : list json)
    (existing : dict) (log : Log) :
  Forall (other_bookmark url) before ->
  eq_str (Dict.get "url" JNull existing) url = true ->
  find_by_url url (before ++ JDict existing :: after) log
  = (Ret (Some (JDict existing)), log).
Proof.
  intros Hbefore Hurl.
  induction Hbefore as [|b before (d & -> & Hd) _ IH]; cbn [app find_by_url py_get];
    unfold bind, ret.
  - now rewrite Hurl.
  - rewrite Hd. exact IH.
Qed.

Lemma find_by_url_missing (url : string) (items : list json) (log : Log) :
  Forall (other_bookmark url) items ->
  find_by_url url items log = (Ret None, log).
Proof.
  induction 1 as [|b items (d & -> & Hd) _ IH]; cbn [find_by_url py_get];
    unfold bind, ret; [reflexivity|].
  rewrite Hd. exact IH.
Qed.

(** ** Creating and updating a bookmark *)

Lemma tool_boundary_log (c : M json) (l : Log) :
  snd (tool_boundary c l) = snd (c l).
Proof.
  unfold tool_boundary, try_except. destruct (c l) as [[v|e|] l']; reflexivity.
Qed.

Lemma existing_truthy (existing : dict) (url : string) :
  eq_str (Dict.get "url" JNull existing) url = true ->
  truthy (JDict existing) = true.
Proof. destruct existing; [discriminate|reflexivity]. Qed.


Lemma field_or_current (provided : option string) (existing : dict)
    (key : string) (log : Log) :
  match provided with
  | Some s => ret (JStr s)
  | None => py_get (JDict existing) key (JStr "")
  end log
  = (Ret (provided_or provided (Dict.get key (JStr "") existing)), log).
Proof. destruct provided; reflexivity. Qed.

Lemma flag_or_current (provided : option bool) (existing : dict)
    (key : string) (log : Log) :
  match provided with
  | Some b => ret (JBool b)
  | None => bind (py_get (JDict existing) key JNull)
                 (fun v => ret (JBool (eq_str v "yes")))
  end log
  = (Ret (flag_or provided (Dict.get key JNull existing)), log).
Proof. destruct provided; reflexivity. Qed.

Lemma with_client_run {A : Type} (w : World) (body : M A) (log : Log) :
  w_new w = None ->
  w_enter w = None ->
  w_exit w = None ->
  with_client w body log
  = match body (log ++ [EvNew; EvEnter])%list with
    | (Spin, log') => (Spin, log')
    | (outcome, log') => (outcome, (log' ++ [EvExit])%list)
    end.
Proof.
  intros Hnew Henter Hexit. unfold with_client, bind, emit, may_fail, ret.
  rewrite Hnew, Henter, Hexit. rewrite <- app_assoc. cbn [app].
  destruct (body (log ++ [EvNew; EvEnter])%list) as [[x|e|] log']; reflexivity.
Qed.

(** C7: [create_bookmark_tool] checks the URL before anything else.  With
    an invalid URL it returns the validation error and the log is left as
    it was: no client is built, no request is sent.  With a valid URL (and
    a client that can be built and opened) it makes exactly one
    [save_bookmark] call, with the fields given and [merge] false. *)
Theorem create_validates_then_saves_once (urlparse : string -> UrlParse)
    (cfg : Config) (w : World) (url title desc tags : string)
    (shared read_later : bool) (log : Log) :
  (validate_url urlparse url = false ->
   create_bookmark_tool urlparse cfg w url title desc tags shared read_later log
   = (Ret (invalid_url url), log))
  /\ (validate_url urlparse url = true ->
      w_new w = None ->
      w_enter w = None ->
      save_calls
        (snd (create_bookmark_tool urlparse cfg w url title desc tags
                                   shared read_later log))
      = (save_calls log
         ++ [{| sv_url := JStr url;
                sv_title := JStr title;
                sv_desc := JStr desc;
                sv_tags := JStr tags;
                sv_shared := JBool shared;
                sv_read_later := JBool read_later;
                sv_merge := JBool false |}])%list).
Proof.
  split.
  - intros Hbad. unfold create_bookmark_tool, tool_boundary, try_except.
    now rewrite Hbad.
  - intros Hok Hnew Henter.
    unfold create_bookmark_tool. rewrite Hok. cbn [negb].
    set (args := {| sv_url := JStr url; sv_title := JStr title; sv_desc := JStr desc;
                    sv_tags := JStr tags; sv_shared := JBool shared;
                    sv_read_later := JBool read_later; sv_merge := JBool false |}).
    set (body := bind (save_bookmark cfg w args) (fun result => ret result)).
    rewrite tool_boundary_log.
    destruct (with_client_log w body log Hnew Henter) as (closing & -> & Hclosing).
    unfold body, bind.
    destruct (save_bookmark_effect cfg w args (log ++ [EvNew; EvEnter])%list)
      as (res & extra & -> & Hback & Hio).
    destruct res as [v|e|]; [| |now destruct Hback];
      cbn [ret snd]; rewrite !save_calls_app; cbn [save_calls];
      rewrite (save_calls_io _ Hio);
      (destruct Hclosing as [-> | ->]; cbn [save_calls]; now rewrite !app_nil_r).
Qed.

Lemma create_validates_then_saves_once_witness :
  create_bookmark_tool UrlModel.urlparse Sample.cfg ToolFixtures.accepting
                       "not a url" "B" "" "" false false []
  = (Ret (error_dict "Invalid URL: not a url"), [])
  /\ save_calls
       (snd (create_bookmark_tool UrlModel.urlparse Sample.cfg ToolFixtures.accepting
                                  "https://e.com/a" "T" "D" "x,y" true false []))
     = [{| sv_url := JStr "https://e.com/a";
           sv_title := JStr "T";
           sv_desc := JStr "D";
           sv_tags := JStr "x,y";
           sv_shared := JBool true;
           sv_read_later := JBool false;
           sv_merge := JBool false |}].
Proof.
  split.
  - apply (proj1 (create_validates_then_saves_once UrlModel.urlparse Sample.cfg
                    ToolFixtures.accepting "not a url" "B" "" "" false false [])).
    reflexivity.
  - apply (proj2 (create_validates_then_saves_once UrlModel.urlparse Sample.cfg
                    ToolFixtures.accepting "https://e.com/a" "T" "D" "x,y"
                    true false []));
      reflexivity.
Defined.

(** On the wire, the one request of that save call carries [merge=no]. *)
Example create_sends_merge_no :
  map (fun ev => match ev with
                 | EvRequest r =>
                     match rq_data r with
                     | Some data => Dict.lookup "merge" data
                     | None => None
                     end
                 | _ => None
                 end)
      (snd (create_bookmark_tool UrlModel.urlparse Sample.cfg ToolFixtures.accepting
                                 "https://e.com/a" "T" "D" "x,y" true false []))
  = [None; None; None; Some (JStr "no"); None].
Proof. reflexivity. Qed.

(** C5: [update_bookmark_tool] reads the whole account, takes the first
    record whose url is exactly [url], and makes one [save_bookmark] call
    in which every field is the value given when one was given, and else
    the current value of the record; [merge] is true.  When no record has
    that url, it returns the not-found error and makes no save call. *)
Theorem update_merges_fields (urlparse : string -> UrlParse) (cfg : Config)
    (w : World) (fuel : nat) (url : string) (title desc tags : option string)
    (shared read_later : option bool) (log log1 : Log) (bookmarks : list json) :
  validate_url urlparse url = true ->
  w_new w = None ->
  w_enter w = None ->
  get_all_bookmarks cfg w fuel None 1 None "all" None (log ++ [EvNew; EvEnter])%list
  = (Ret (JList bookmarks), log1) ->
  (forall before existing after,
      bookmarks = (before ++ JDict existing :: after)%list ->
      Forall (other_bookmark url) before ->
      eq_str (Dict.get "url" JNull existing) url = true ->
      save_calls
        (snd (update_bookmark_tool urlparse cfg w fuel url title desc tags
                                   shared read_later log))
      = (save_calls log
         ++ [merged_args url title desc tags shared read_later existing])%list)
  /\ (Forall (other_bookmark url) bookmarks ->
      w_exit w = None ->
      fst (update_bookmark_tool urlparse cfg w fuel url title desc tags
                                shared read_later log)
      = Ret (not_found url)
      /\ save_calls
           (snd (update_bookmark_tool urlparse cfg w fuel url title desc tags
                                      shared read_later log))
         = save_calls log).
Proof.
  intros Hok Hnew Henter Hall.
  assert (Hlog1 : save_calls log1 = save_calls log).
  { destruct (get_all_loop_log cfg w fuel None 1 None "all" None 0 []
                (log ++ [EvNew; EvEnter])%list) as (extra & Hextra & Hio).
    unfold get_all_bookmarks in Hall. rewrite Hall in Hextra. cbn [snd] in Hextra.
    rewrite Hextra, !save_calls_app, (save_calls_io _ Hio). cbn [save_calls].
    now rewrite !app_nil_r. }
  split.
  - intros before existing after -> Hbefore Hurl.
    unfold update_bookmark_tool. rewrite tool_boundary_log, Hok. cbn [negb].
    match goal with
    | |- context [with_client w ?b log] =>
        destruct (with_client_log w b log Hnew Henter) as (closing & -> & Hclosing)
    end.
    unfold bind at 1. rewrite Hall. cbn [is_error_dict py_iter].
    unfold bind at 1, ret at 1. unfold bind at 1.
    rewrite (find_by_url_found url before after existing log1 Hbefore Hurl).
    rewrite (existing_truthy existing url Hurl). cbn [negb].
    unfold bind at 1. rewrite field_or_current.
    unfold bind at 1. rewrite field_or_current.
    unfold bind at 1. rewrite field_or_current.
    unfold bind at 1. rewrite flag_or_current.
    unfold bind at 1. rewrite flag_or_current.
    unfold bind at 1.
    match goal with
    | |- context [save_bookmark cfg w ?a log1] =>
        destruct (save_bookmark_effect cfg w a log1) as (res & extra & -> & Hback & Hio)
    end.
    destruct res as [v|e|]; [| |now destruct Hback];
      cbn [ret snd]; rewrite !save_calls_app; cbn [save_calls];
      rewrite (save_calls_io _ Hio), Hlog1;
      (destruct Hclosing as [-> | ->]; cbn [save_calls]; now rewrite !app_nil_r).
  - intros Hmissing Hexit.
    assert (Hrun : update_bookmark_tool urlparse cfg w fuel url title desc tags
                                        shared read_later log
                   = (Ret (not_found url), (log1 ++ [EvExit])%list)).
    { unfold update_bookmark_tool. rewrite Hok. cbn [negb].
      unfold tool_boundary, try_except.
      rewrite (with_client_run w _ log Hnew Henter Hexit).
      unfold bind at 1. rewrite Hall. cbn [is_error_dict py_iter].
      unfold bind at 1, ret at 1. unfold bind at 1.
      now rewrite (find_by_url_missing url bookmarks log1 Hmissing). }
    rewrite Hrun. cbn [fst snd]. split; [reflexivity|].
    rewrite save_calls_app. cbn [save_calls]. now rewrite app_nil_r.
Qed.

Lemma update_merges_fields_witness :
  save_calls
    (snd (update_bookmark_tool UrlModel.urlparse Sample.cfg UpdateFixtures.account 5
                               "https://e.com/a" None None (Some "new") None None []))
  = [{| sv_url := JStr "https://e.com/a";
        sv_title := JStr "T";
        sv_desc := JStr "D";
        sv_tags := JStr "new";
        sv_shared := JBool true;
        sv_read_later := JBool false;
        sv_merge := JBool true |}]
  /\ fst (update_bookmark_tool UrlModel.urlparse Sample.cfg UpdateFixtures.account 5
                               "https://e.com/c" None None (Some "new") None None [])
     = Ret (error_dict "Bookmark not found: https://e.com/c")
  /\ save_calls
       (snd (update_bookmark_tool UrlModel.urlparse Sample.cfg UpdateFixtures.account 5
                                  "https://e.com/c" None None (Some "new") None None []))
     = [].
Proof.
  split.
  - apply (proj1 (update_merges_fields UrlModel.urlparse Sample.cfg
                    UpdateFixtures.account 5 "https://e.com/a"
                    None None (Some "new") None None []
                    (snd (get_all_bookmarks Sample.cfg UpdateFixtures.account 5
                                            None 1 None "all" None [EvNew; EvEnter]))
                    [JDict UpdateFixtures.neighbour; JDict UpdateFixtures.record]
                    eq_refl eq_refl eq_refl eq_refl)
             [JDict UpdateFixtures.neighbour] UpdateFixtures.record []).
    + reflexivity.
    + constructor; [|constructor]. exists UpdateFixtures.neighbour. now split.
    + reflexivity.
  - apply (proj2 (update_merges_fields UrlModel.urlparse Sample.cfg
                    UpdateFixtures.account 5 "https://e.com/c"
                    None None (Some "new") None None []
                    (snd (get_all_bookmarks Sample.cfg UpdateFixtures.account 5
                                            None 1 None "all" None [EvNew; EvEnter]))
                    [JDict UpdateFixtures.neighbour; JDict UpdateFixtures.record]
                    eq_refl eq_refl eq_refl eq_refl)).
    + constructor; [|constructor; [|constructor]].
      * exists UpdateFixtures.neighbour. now split.
      * exists UpdateFixtures.record. now split.
    + reflexivity.
Defined.

(** A field given explicitly wins even when it is empty or false. *)
Example update_explicit_empty_values :
  save_calls
    (snd (update_bookmark_tool UrlModel.urlparse Sample.cfg UpdateFixtures.account 5
                               "https://e.com/a" (Some "") None None (Some false) None []))
  = [{| sv_url := JStr "https://e.com/a";
        sv_title := JStr "";
        sv_desc := JStr "D";
        sv_tags := JStr "old";
        sv_shared := JBool false;
        sv_read_later := JBool false;
        sv_merge := JBool true |}].
Proof. reflexivity. Qed.

(** ** Bulk creation *)

Section BulkFacts.

Variable cfg : Config.
Variable w : World.

(** One item: a success, or one more failure record with the index of
    the item; a save call is logged when the keywords bind. *)
Lemma bulk_step_cases (total : nat) (delay : Q) (i : nat) (bookmark : dict)
    (success_count : Z) (failed : list json) (log : Log) :
  exists (outcome : option json) (extra : Log),
    bulk_step cfg w total delay i bookmark success_count failed log
    = (Ret (match outcome with
            | None => (success_count + 1, failed)
            | Some error =>
                (success_count, (failed ++ [failure_record i bookmark error])%list)
            end),
       (log ++ extra)%list)
    /\ save_calls extra
       = (if has_no_error bookmark then [bound_args bookmark] else []).
Proof.
  unfold bulk_step, try_except, bind_save_kwargs, has_no_error.
  destruct (keyword_error bookmark) as [msg|].
  { exists (Some (JStr msg)), []. rewrite app_nil_r. split; reflexivity. }
  unfold bind at 1, ret at 1. unfold bind at 1.
  destruct (save_bookmark_effect cfg w (bound_args bookmark) log)
    as (res & extra & -> & Hback & Hio).
  destruct res as [v|e|]; [| |now destruct Hback].
  2:{ exists (Some (JStr (exc_msg e))), (EvSave (bound_args bookmark) :: extra).
      split; [reflexivity|]. cbn [save_calls]. now rewrite (save_calls_io _ Hio). }
  assert (Hsleep : forall l : Log,
             exists tail,
               (if Z.of_nat i <? Z.of_nat total - 1 then sleep delay else ret tt) l
               = (Ret tt, (l ++ tail)%list)
               /\ Forall io_event tail).
  { intros l. destruct (Z.of_nat i <? Z.of_nat total - 1).
    - exists [EvSleep delay]. split; [reflexivity|]. repeat constructor.
    - exists []. rewrite app_nil_r. split; [reflexivity|constructor]. }
  destruct v as [| | | |items|d];
    try (eexists (Some (JStr _)), (EvSave (bound_args bookmark) :: extra);
         split; [reflexivity|]; cbn [save_calls]; now rewrite (save_calls_io _ Hio)).
  destruct (Dict.mem "error" d) eqn:Herr; cbn [negb py_get].
  - unfold bind at 1 2, ret at 1 2.
    destruct (Hsleep (log ++ EvSave (bound_args bookmark) :: extra)%list)
      as (tail & Hs & Hio').
    unfold bind. rewrite Hs.
    exists (Some (Dict.get "error" (JStr "Unknown error") d)),
           (EvSave (bound_args bookmark) :: extra ++ tail)%list.
    split.
    + unfold ret. f_equal. rewrite <- app_assoc. reflexivity.
    + cbn [save_calls]. rewrite save_calls_app, (save_calls_io _ Hio), (save_calls_io _ Hio').
      reflexivity.
  - unfold bind at 1, ret at 1.
    destruct (Hsleep (log ++ EvSave (bound_args bookmark) :: extra)%list)
      as (tail & Hs & Hio').
    unfold bind. rewrite Hs.
    exists None, (EvSave (bound_args bookmark) :: extra ++ tail)%list.
    split.
    + unfold ret. f_equal. rewrite <- app_assoc. reflexivity.
    + cbn [save_calls]. rewrite save_calls_app, (save_calls_io _ Hio), (save_calls_io _ Hio').
      reflexivity.
Qed.

(** The loop takes the items one after the other and never stops early:
    every item has an outcome. *)
Lemma bulk_loop_outcomes (total : nat) (delay : Q) (bookmarks : list dict) :
  forall (i : nat) (success_count : Z) (failed : list json) (log : Log),
  exists (outcomes : list (option json)) (extra : Log),
    List.length outcomes = List.length bookmarks
    /\ bulk_loop cfg w total delay i bookmarks success_count failed log
       = (Ret (success_count + succeeded outcomes,
               (failed ++ failure_records i bookmarks outcomes)%list),
          (log ++ extra)%list)
    /\ save_calls extra = map bound_args (filter has_no_error bookmarks).
Proof.
  induction bookmarks as [|bookmark rest IH]; intros i success_count failed log.
  - exists [], []. cbn. rewrite Z.add_0_r, !app_nil_r. repeat split.
  - cbn [bulk_loop]. unfold bind.
    destruct (bulk_step_cases total delay i bookmark success_count failed log)
      as (outcome & e1 & -> & Hcalls1).
    destruct outcome as [error|]; cbn [fst snd].
    + destruct (IH (S i) success_count (failed ++ [failure_record i bookmark error])%list
                  (log ++ e1)%list) as (outcomes & e2 & Hlen & -> & Hcalls2).
      exists (Some error :: outcomes), (e1 ++ e2)%list. split; [simpl; lia|]. split.
      * cbn [succeeded failure_records]. now rewrite <- !app_assoc.
      * rewrite save_calls_app, Hcalls1, Hcalls2. cbn [filter].
        destruct (has_no_error bookmark); reflexivity.
    + destruct (IH (S i) (success_count + 1) failed (log ++ e1)%list)
        as (outcomes & e2 & Hlen & -> & Hcalls2).
      exists (None :: outcomes), (e1 ++ e2)%list. split; [simpl; lia|]. split.
      * cbn [succeeded failure_records]. rewrite <- !app_assoc. do 3 f_equal. lia.
      * rewrite save_calls_app, Hcalls1, Hcalls2. cbn [filter].
        destruct (has_no_error bookmark); reflexivity.
Qed.

(** The summary of a batch: every item is counted once, as a success or
    as a failure record that carries its index, in input order; and every
    item whose keywords bind is saved, in input order. *)
Lemma bulk_save_bookmarks_summary (bookmarks : list dict) (delay : Q) (log : Log) :
  exists (outcomes : list (option json)) (extra : Log),
    List.length outcomes = List.length bookmarks
    /\ bulk_save_bookmarks cfg w bookmarks delay log
       = (Ret (bulk_summary
                 (Z.of_nat (List.length bookmarks))
                 (succeeded outcomes)
                 (Z.of_nat (List.length (failure_records 0 bookmarks outcomes)))
                 (failure_records 0 bookmarks outcomes)),
          (log ++ extra)%list)
    /\ save_calls extra = map bound_args (filter has_no_error bookmarks).
Proof.
  unfold bulk_save_bookmarks, bind.
  destruct (bulk_loop_outcomes (List.length bookmarks) delay bookmarks 0 0 [] log)
    as (outcomes & extra & Hlen & -> & Hcalls).
  exists outcomes, extra. split; [exact Hlen|]. split; [reflexivity|exact Hcalls].
Qed.

End BulkFacts.

(** Successes and failure records add up to the number of items. *)
Lemma outcomes_add_up (bookmarks : list dict) :
  forall (i : nat) (outcomes : list (option json)),
    List.length outcomes = List.length bookmarks ->
    succeeded outcomes + Z.of_nat (List.length (failure_records i bookmarks outcomes))
    = Z.of_nat (List.length bookmarks).
Proof.
  induction bookmarks as [|b bs IH]; intros i [|[error|] os] Hlen;
    simpl in Hlen; try discriminate; [reflexivity| |];
    specialize (IH (S i) os ltac:(lia));
    cbn [succeeded failure_records List.length]; lia.
Qed.

(** A failure record carries the index of its item. *)
Lemma failure_records_index (bookmarks : list dict) :
  forall (i : nat) (outcomes : list (option json)) (record : json),
    In record (failure_records i bookmarks outcomes) ->
    exists j b error,
      record = failure_record (i + j) b error
      /\ nth_error bookmarks j = Some b
      /\ nth_error outcomes j = Some (Some error).
Proof.
  induction bookmarks as [|b bs IH]; intros i [|[error|] os] record Hin;
    cbn [failure_records] in Hin; try contradiction.
  - destruct Hin as [<-|Hin].
    + exists 0%nat, b, error. rewrite Nat.add_0_r. now repeat split.
    + destruct (IH (S i) os record Hin) as (j & b' & error' & -> & Hb & Ho).
      exists (S j), b', error'. split; [f_equal; lia|]. now split.
  - destruct (IH (S i) os record Hin) as (j & b' & error' & -> & Hb & Ho).
    exists (S j), b', error'. split; [f_equal; lia|]. now split.
Qed.

(** C6, at the failing input: three items, the second with a URL that
    [validate_url] rejects, sent to a server that accepts every request.
    [bulk_save_bookmarks] does not validate: it saves the second item like
    the others and reports three successes, where [create_bookmark_tool]
    refuses the same URL before any request is made.  The two delay
    sleeps between the three calls are there. *)
Theorem bulk_create_skips_validation :
  let run := run_tool UrlModel.urlparse Sample.cfg ToolFixtures.accepting 0
                      (BulkCreateBookmarks BulkFixtures.items (1 # 2)) [] in
  validate_url UrlModel.urlparse "not a url" = false
  /\ fst run = Ret (bulk_summary 3 3 0 [])
  /\ map sv_url (save_calls (snd run))
     = [JStr "https://a.example/1"; JStr "not a url"; JStr "https://c.example/3"]
  /\ requests_made (snd run) = 3%nat
  /\ sleeps (snd run) = [1 # 2; 1 # 2]%Q
  /\ run_tool UrlModel.urlparse Sample.cfg ToolFixtures.accepting 0
              (CreateBookmark "not a url" "B" "" "" false false) []
     = (Ret (error_dict "Invalid URL: not a url"), []).
Proof. vm_compute. repeat split; reflexivity. Qed.

(** When the server turns the second item down, the summary is the one
    the specification expects: two successes, one failure with index 1,
    two delay sleeps, and the batch goes on to the third item. *)
Example bulk_create_second_rejected :
  let run := run_tool UrlModel.urlparse Sample.cfg BulkFixtures.rejecting_second 0
                      (BulkCreateBookmarks BulkFixtures.items (1 # 2)) [] in
  fst run
  = Ret (bulk_summary 3 2 1
           [JDict [("index", JInt 1); ("url", JStr "not a url");
                   ("error", JStr "HTTP 422: invalid url")]])
  /\ requests_made (snd run) = 3%nat
  /\ sleeps (snd run) = [1 # 2; 1 # 2]%Q.
Proof. vm_compute. repeat split; reflexivity. Qed.

(** An item that makes [save_bookmark] raise is recorded as a failure
    too, and the batch goes on; but the delay that should follow it is
    skipped, because the sleep stands inside the [try] block. *)
Example bulk_create_stray_keyword :
  let run := run_tool UrlModel.urlparse Sample.cfg ToolFixtures.accepting 0
                      (BulkCreateBookmarks BulkFixtures.items_with_stray_key (1 # 2)) [] in
  fst run
  = Ret (bulk_summary 3 2 1
           [JDict [("index", JInt 1); ("url", JStr "https://b.example/2");
                   ("error",
                    JStr "DiigoClient.save_bookmark() got an unexpected keyword argument 'note'")]])
  /\ requests_made (snd run) = 2%nat
  /\ sleeps (snd run) = [1 # 2]%Q.
Proof. vm_compute. repeat split; reflexivity. Qed.

(** * Further properties *)

(** ** Python helpers *)

Lemma lower_char_idempotent (c : ascii) :
  PyStr.lower_char (PyStr.lower_char c) = PyStr.lower_char c.
Proof. destruct c as [[] [] [] [] [] [] [] []]; reflexivity. Qed.

Lemma lower_idempotent (s : string) : PyStr.lower (PyStr.lower s) = PyStr.lower s.
Proof.
  induction s as [|c s IH]; simpl; [reflexivity|].
  now rewrite lower_char_idempotent, IH.
Qed.

Lemma lookup_set_eq (k : string) (v : json) (d : dict) :
  Dict.lookup k (Dict.set k v d) = Some v.
Proof.
  induction d as [|[k' v'] d IH]; simpl.
  - now rewrite String.eqb_refl.
  - destruct (String.eqb k k') eqn:E; simpl; rewrite ?String.eqb_refl, ?E; auto.
Qed.

Lemma lookup_set_ne (k k' : string) (v : json) (d : dict) :
  k <> k' -> Dict.lookup k' (Dict.set k v d) = Dict.lookup k' d.
Proof.
  intros Hne. induction d as [|[k0 v0] d IH]; simpl.
  - destruct (String.eqb_spec k' k); [congruence|reflexivity].
  - destruct (String.eqb_spec k k0) as [->|Hk]; simpl.
    + destruct (String.eqb_spec k' k0); [congruence|reflexivity].
    + destruct (String.eqb k' k0); [reflexivity|exact IH].
Qed.

(** ** The parameter normalizers (utils.py) *)

(** X1: the wire form of a boolean is always ["yes"] or ["no"]; a wire
    value fed back in comes out unchanged; and reading a flag back the way
    [update_bookmark_tool] does, by comparing it with ["yes"], recovers
    the boolean that was encoded. *)
Theorem bool_param_round_trip (value : json) (b : bool) :
  yes_or_no (parse_bool_param value)
  /\ parse_bool_param (JStr (parse_bool_param value)) = parse_bool_param value
  /\ eq_str (JStr (parse_bool_param (JBool b))) "yes" = b.
Proof.
  assert (Hwire : yes_or_no (parse_bool_param value)).
  { destruct value as [|[]| |s| |]; unfold parse_bool_param;
      try (now left); try (now right).
    match goal with
    | |- context [existsb ?f ?l] => destruct (existsb f l)
    end; [now left|now right]. }
  split; [exact Hwire|]. split.
  - destruct Hwire as [-> | ->]; reflexivity.
  - destruct b; reflexivity.
Qed.

(** The truthy spellings, whatever their case. *)
Example bool_param_spellings :
  map parse_bool_param
      [JStr "YES"; JStr "True"; JStr "1"; JStr "y"; JStr "on"; JStr ""; JInt 1; JNull]
  = ["yes"; "yes"; "yes"; "yes"; "no"; "no"; "no"; "no"].
Proof. reflexivity. Qed.

Lemma table_get_in {A : Type} (P : A -> Prop) (k : string) (default : A)
    (table : list (string * A)) :
  P default -> Forall (fun entry => P (snd entry)) table ->
  P (table_get k default table).
Proof.
  intros Hd. induction 1 as [|[k' v] table Hv _ IH]; simpl; [exact Hd|].
  destruct (String.eqb k k'); [exact Hv|exact IH].
Qed.

(** X2: [parse_sort_param] always yields one of the four sort orders of
    the API, 0 to 3: an integer outside that range is clamped, a name the
    table does not know becomes 1.  An order that is already valid is left
    alone, so normalizing twice changes nothing. *)
Theorem sort_param_in_range (sort_value : SortArg) :
  0 <= parse_sort_param sort_value <= 3
  /\ (forall n, 0 <= n <= 3 -> parse_sort_param (SortInt n) = n)
  /\ parse_sort_param (SortInt (parse_sort_param sort_value))
     = parse_sort_param sort_value.
Proof.
  assert (Hrange : forall a, 0 <= parse_sort_param a <= 3).
  { intros [n|name]; unfold parse_sort_param; [lia|].
    apply (table_get_in (fun z => 0 <= z <= 3)); [lia|].
    unfold sort_map. repeat constructor; simpl; lia. }
  assert (Hfix : forall n, 0 <= n <= 3 -> parse_sort_param (SortInt n) = n).
  { intros n Hn. unfold parse_sort_param. lia. }
  split; [apply Hrange|]. split; [exact Hfix|]. apply Hfix, Hrange.
Qed.

Example sort_param_examples :
  map parse_sort_param
      [SortInt (-5); SortInt 2; SortInt 99; SortName "Created_At"; SortName "HOT";
       SortName "newest"; SortName ""]
  = [0; 2; 3; 0; 3; 1; 1].
Proof. reflexivity. Qed.

(** X3: [parse_filter_param] only ever yields the two filters the API
    knows, ["all"] and ["public"]; it yields ["public"] exactly for the
    spellings of "public", whatever their case, so ["private"] is widened
    to ["all"]; and a normalized filter is left alone. *)
Theorem filter_param_all_or_public (filter_value : string) :
  (parse_filter_param filter_value = "all"
   \/ parse_filter_param filter_value = "public")
  /\ (parse_filter_param filter_value = "public"
      <-> PyStr.lower filter_value = "public")
  /\ parse_filter_param (PyStr.lower filter_value) = parse_filter_param filter_value
  /\ parse_filter_param (parse_filter_param filter_value)
     = parse_filter_param filter_value.
Proof.
  unfold parse_filter_param. rewrite lower_idempotent. simpl.
  destruct (String.eqb_spec (PyStr.lower filter_value) "all") as [Ha|Ha].
  { rewrite Ha. repeat split; try (now left); try reflexivity; discriminate. }
  destruct (String.eqb_spec (PyStr.lower filter_value) "public") as [Hp|Hp].
  { rewrite Hp. repeat split; try (now right); reflexivity. }
  destruct (String.eqb_spec (PyStr.lower filter_value) "private") as [Hv|Hv];
    repeat split; try (now left); try reflexivity; try discriminate; congruence.
Qed.

Example filter_param_examples :
  map parse_filter_param ["all"; "Public"; "private"; "read_later"; ""]
  = ["all"; "public"; "all"; "all"; "all"].
Proof. reflexivity. Qed.

(** ** sanitize_tag *)

Lemma sanitize_from_alphabet (s : string) :
  forall in_run, every_char tag_char (sanitize_from in_run s) = true.
Proof.
  induction s as [|c s IH]; intros in_run; simpl; [reflexivity|].
  destruct (tag_char c) eqn:Hc; simpl.
  - now rewrite Hc, IH.
  - destruct in_run; simpl; apply IH.
Qed.

Lemma sanitize_from_clean (s : string) :
  every_char tag_char s = true -> forall in_run, sanitize_from in_run s = s.
Proof.
  induction s as [|c s IH]; simpl; [reflexivity|].
  intros H in_run. apply andb_true_iff in H as [Hc Hs].
  now rewrite Hc, (IH Hs).
Qed.

Lemma sanitize_from_length (s : string) :
  forall in_run,
    (String.length (sanitize_from in_run s) <= String.length s)%nat.
Proof.
  induction s as [|c s IH]; intros in_run; simpl; [lia|].
  destruct (tag_char c); simpl; [specialize (IH false); lia|].
  destruct in_run; simpl; specialize (IH true); lia.
Qed.

(** X4: a sanitized tag holds only letters, digits, [@], [_] and [-]; it
    is never longer than the tag it comes from; a tag is left as it is
    exactly when it held only those characters; and sanitizing twice is
    the same as sanitizing once. *)
Theorem sanitize_tag_alphabet (tag : string) :
  every_char tag_char (sanitize_tag tag) = true
  /\ (String.length (sanitize_tag tag) <= String.length tag)%nat
  /\ (sanitize_tag tag = tag <-> every_char tag_char tag = true)
  /\ sanitize_tag (sanitize_tag tag) = sanitize_tag tag.
Proof.
  unfold sanitize_tag.
  pose proof (sanitize_from_alphabet tag false) as Halpha.
  split; [exact Halpha|]. split; [apply sanitize_from_length|]. split.
  - split; intros H.
    + now rewrite H in Halpha.
    + now apply sanitize_from_clean.
  - now apply sanitize_from_clean.
Qed.

(** A run of foreign characters becomes one underscore. *)
Example sanitize_tag_examples :
  map sanitize_tag ["web dev"; "c++"; "a  &  b"; "r&d@home_lab-1"; "!!!"; ""]
  = ["web_dev"; "c_"; "a_b"; "r_d@home_lab-1"; "_"; ""].
Proof. reflexivity. Qed.

(** ** chunk_list *)

Section ChunkFacts.

Context {A : Type}.
Variable lst : list A.

Lemma slice_short (i n : nat) :
  (List.length lst <= i + n)%nat -> slice lst i n = skipn i lst.
Proof.
  intros H. unfold slice. apply firstn_all2. rewrite length_skipn. lia.
Qed.

(** The chunks cut from offset [start] on make up the rest of the list
    from [start]. *)
Lemma concat_range_steps (n : nat) :
  (0 < n)%nat ->
  forall fuel start,
    (List.length lst <= start + fuel)%nat ->
    concat (map (fun i => slice lst i n)
                (range_steps fuel start (List.length lst) n))
    = skipn start lst.
Proof.
  intros Hn. induction fuel as [|fuel IH]; intros start Hfuel; cbn [range_steps].
  - simpl. symmetry. apply skipn_all2. lia.
  - destruct (Nat.ltb_spec start (List.length lst)) as [Hlt|Hge].
    + cbn [map concat]. rewrite IH by lia.
      unfold slice.
      rewrite <- (firstn_skipn n (skipn start lst)) at 2.
      f_equal. rewrite skipn_skipn. f_equal. lia.
    + simpl. symmetry. now apply skipn_all2.
Qed.

(** Every chunk cut is non-empty and holds at most [n] items; a chunk
    that is followed by another holds exactly [n]. *)
Lemma range_steps_sizes (n : nat) :
  (0 < n)%nat ->
  forall fuel start,
    Forall (fun c => (0 < List.length c <= n)%nat)
           (map (fun i => slice lst i n)
                (range_steps fuel start (List.length lst) n))
    /\ Forall (fun c => List.length c = n)
              (removelast (map (fun i => slice lst i n)
                               (range_steps fuel start (List.length lst) n))).
Proof.
  intros Hn. induction fuel as [|fuel IH]; intros start; cbn [range_steps].
  - split; constructor.
  - destruct (Nat.ltb_spec start (List.length lst)) as [Hlt|Hge];
      [|split; constructor].
    destruct (IH (start + n)%nat) as [Hall Hfull]. cbn [map]. split.
    + constructor; [|exact Hall].
      unfold slice. rewrite length_firstn, length_skipn. lia.
    + remember (map (fun i => slice lst i n)
                    (range_steps fuel (start + n) (List.length lst) n)) as rest eqn:Erest.
      destruct rest as [|c rest']; [constructor|].
      change (removelast (slice lst start n :: c :: rest'))
        with (slice lst start n :: removelast (c :: rest')).
      constructor; [|exact Hfull].
      assert (Hnext : (start + n < List.length lst)%nat).
      { destruct fuel as [|fuel']; [discriminate|]. cbn [range_steps] in Erest.
        destruct (Nat.ltb_spec (start + n) (List.length lst)); [assumption|discriminate]. }
      unfold slice. rewrite length_firstn, length_skipn. lia.
Qed.

End ChunkFacts.

(** X5: for a positive chunk size, [chunk_list] cuts the list into pieces
    that, put back together, are the list again: nothing is lost, repeated
    or reordered.  No piece is empty, none is longer than the chunk size,
    and every piece but the last has exactly that size. *)
Theorem chunk_list_partitions {A : Type} (lst : list A) (chunk_size : Z) :
  0 < chunk_size ->
  exists chunks,
    chunk_list lst chunk_size = Ret chunks
    /\ concat chunks = lst
    /\ Forall (fun c => 0 < Z.of_nat (List.length c) <= chunk_size) chunks
    /\ Forall (fun c => Z.of_nat (List.length c) = chunk_size) (removelast chunks).
Proof.
  intros Hpos. unfold chunk_list.
  destruct (Z.eqb_spec chunk_size 0) as [->|_]; [lia|].
  destruct (Z.ltb_spec chunk_size 0) as [Hneg|_]; [lia|].
  eexists. split; [reflexivity|].
  assert (Hn : (0 < Z.to_nat chunk_size)%nat) by lia.
  split; [|split].
  - rewrite (concat_range_steps lst (Z.to_nat chunk_size) Hn) by lia. reflexivity.
  - eapply Forall_impl; [|apply (proj1 (range_steps_sizes lst _ Hn _ _))].
    intros c Hc. cbv beta in Hc. lia.
  - eapply Forall_impl; [|apply (proj2 (range_steps_sizes lst _ Hn _ _))].
    intros c Hc. cbv beta in Hc. lia.
Qed.

Lemma chunk_list_partitions_witness :
  exists chunks,
    chunk_list [1; 2; 3; 4; 5; 6; 7] 3 = Ret chunks
    /\ concat chunks = [1; 2; 3; 4; 5; 6; 7]
    /\ Forall (fun c => 0 < Z.of_nat (List.length c) <= 3) chunks
    /\ Forall (fun c => Z.of_nat (List.length c) = 3) (removelast chunks).
Proof. apply (chunk_list_partitions [1; 2; 3; 4; 5; 6; 7] 3). lia. Defined.

(** The pieces of seven items by three; a size of zero raises, and a
    negative size yields no piece at all. *)
Example chunk_list_examples :
  chunk_list [1; 2; 3; 4; 5; 6; 7] 3 = Ret [[1; 2; 3]; [4; 5; 6]; [7]]
  /\ chunk_list (@nil Z) 3 = Ret []
  /\ chunk_list [1; 2; 3] 0 = Raise (Exn OtherError "range() arg 3 must not be zero")
  /\ chunk_list [1; 2; 3] (-2) = Ret [].
Proof. repeat split. Qed.

(** ** parse_tags on arbitrary input *)

Module StripFacts.
Import PyStr.

Lemma lstrip_head (s : string) :
  lstrip s = EmptyString
  \/ exists c t, lstrip s = String c t /\ is_space c = false.
Proof.
  induction s as [|c s IH]; simpl; [now left|].
  destruct (is_space c) eqn:Hc; [exact IH|]. right. now exists c, s.
Qed.

Lemma rstrip_head (c : ascii) (t : string) :
  is_space c = false -> exists t', rstrip (String c t) = String c t'.
Proof.
  intros Hc. simpl. destruct (rstrip t); [rewrite Hc|]; eauto.
Qed.

Lemma rstrip_idempotent (s : string) : rstrip (rstrip s) = rstrip s.
Proof.
  induction s as [|c s IH]; simpl; [reflexivity|].
  destruct (rstrip s) as [|d r] eqn:E.
  - destruct (is_space c) eqn:Hc; simpl; [reflexivity|now rewrite Hc].
  - cbn [rstrip]. cbn [rstrip] in IH. now rewrite IH.
Qed.

Lemma strip_idempotent (s : string) : strip (strip s) = strip s.
Proof.
  unfold strip. destruct (lstrip_head s) as [-> | (c & t & -> & Hc)]; [reflexivity|].
  destruct (rstrip_head c t Hc) as [t' Ht]. rewrite Ht.
  cbn [lstrip]. rewrite Hc, <- Ht. apply rstrip_idempotent.
Qed.

Lemma mem_char_lstrip (c : ascii) (s : string) :
  mem_char c s = false -> mem_char c (lstrip s) = false.
Proof.
  induction s as [|d s IH]; simpl; [reflexivity|].
  intros H. apply orb_false_iff in H as [Hd Hs].
  destruct (is_space d); [now apply IH|]. simpl. now rewrite Hd, Hs.
Qed.

Lemma mem_char_rstrip (c : ascii) (s : string) :
  mem_char c s = false -> mem_char c (rstrip s) = false.
Proof.
  induction s as [|d s IH]; simpl; [reflexivity|].
  intros H. apply orb_false_iff in H as [Hd Hs]. specialize (IH Hs).
  destruct (rstrip s) as [|e r].
  - destruct (is_space d); simpl; [reflexivity|]. now rewrite Hd.
  - cbn [mem_char] in *. now rewrite Hd, IH.
Qed.

Lemma mem_char_strip (c : ascii) (s : string) :
  mem_char c s = false -> mem_char c (strip s) = false.
Proof. intros H. now apply mem_char_rstrip, mem_char_lstrip. Qed.

(** No piece of a split holds the separator. *)
Lemma split_pieces (sep : ascii) (s : string) :
  Forall (fun piece => mem_char sep piece = false) (split sep s).
Proof.
  induction s as [|c s IH]; simpl; [repeat constructor|].
  destruct (Ascii.eqb c sep) eqn:Hc; [constructor; [reflexivity|exact IH]|].
  destruct (split sep s) as [|piece pieces]; [repeat constructor; simpl|].
  - now rewrite Ascii.eqb_sym, Hc.
  - inversion IH; subst. constructor; [|assumption].
    simpl. rewrite Ascii.eqb_sym, Hc. assumption.
Qed.

(** A string of white space strips to nothing. *)
Lemma lstrip_blank (s : string) :
  every_char is_space s = true -> lstrip s = EmptyString.
Proof.
  induction s as [|c s IH]; simpl; [reflexivity|].
  intros H. apply andb_true_iff in H as [Hc Hs]. now rewrite Hc, IH.
Qed.

End StripFacts.

Lemma parse_tags_clean_tags (tags_string : string) :
  Forall clean_tag (parse_tags tags_string)
  /\ Forall comma_free (parse_tags tags_string).
Proof.
  unfold parse_tags.
  destruct (PyStr.is_empty tags_string || PyStr.is_empty (PyStr.strip tags_string));
    [split; constructor|].
  pose proof (StripFacts.split_pieces "," tags_string) as Hpieces.
  induction Hpieces as [|piece pieces Hpiece _ IH]; simpl; [split; constructor|].
  destruct (PyStr.is_empty (PyStr.strip piece)) eqn:Hblank; simpl; [exact IH|].
  destruct IH as [IHc IHf]. split; constructor; try assumption.
  - split.
    + intros H. now rewrite H in Hblank.
    + apply StripFacts.strip_idempotent.
  - now apply StripFacts.mem_char_strip.
Qed.

(** X6: whatever string it is given, [parse_tags] yields only tags that
    are non-empty, trimmed and free of commas; so joining its result and
    parsing again gives the same tags: a parsed tag list is a fixed point
    of the round trip.  A string of white space only yields no tag. *)
Theorem parse_tags_normalizes (tags_string : string) :
  Forall clean_tag (parse_tags tags_string)
  /\ Forall comma_free (parse_tags tags_string)
  /\ parse_tags (tags_to_string (parse_tags tags_string)) = parse_tags tags_string
  /\ (every_char PyStr.is_space tags_string = true -> parse_tags tags_string = []).
Proof.
  destruct (parse_tags_clean_tags tags_string) as [Hclean Hfree].
  split; [exact Hclean|]. split; [exact Hfree|]. split.
  - destruct (parse_tags tags_string) as [|x xs] eqn:E; [reflexivity|].
    unfold parse_tags at 1. unfold tags_to_string.
    rewrite TagFacts.join_not_blank by (now inversion Hclean).
    rewrite (TagFacts.split_join x xs Hfree).
    rewrite (TagFacts.filter_clean _ Hclean).
    apply (TagFacts.map_strip_clean _ Hclean).
  - intros Hblank. unfold parse_tags, PyStr.strip.
    rewrite (StripFacts.lstrip_blank _ Hblank). simpl.
    now rewrite orb_true_r.
Qed.

Lemma parse_tags_normalizes_witness :
  every_char PyStr.is_space "  " = true /\ parse_tags "  " = [].
Proof.
  split; [reflexivity|].
  now apply (proj2 (proj2 (proj2 (parse_tags_normalizes "  ")))).
Defined.

Example parse_tags_examples :
  map parse_tags [" a , b ,, c "; ",,"; "one"; " , x,"; "a b,c"]
  = [["a"; "b"; "c"]; []; ["one"]; ["x"]; ["a b"; "c"]].
Proof. reflexivity. Qed.

(** ** format_bookmark_json *)

(** X7: when [format_bookmark_json] returns, every field of the bookmark
    is still there with its value, apart from the two keys it writes:
    ["tags_list"] holds the parsed tags whenever the bookmark has
    ["tags"], and ["generated_id"] holds the generated identifier
    whenever the bookmark has both ["created_at"] and ["url"]. *)
Theorem format_bookmark_json_keeps_fields
    (generate_bookmark_id : json -> json -> string)
    (bookmark formatted : dict) :
  format_bookmark_json generate_bookmark_id bookmark = Ret formatted ->
  (forall k, k <> "generated_id" -> k <> "tags_list" ->
             Dict.lookup k formatted = Dict.lookup k bookmark)
  /\ (Dict.mem "tags" bookmark = true ->
      exists tags_list,
        parse_tags_value (Dict.get "tags" JNull bookmark) = Ret tags_list
        /\ Dict.lookup "tags_list" formatted = Some (JList (map JStr tags_list)))
  /\ (Dict.mem "created_at" bookmark && Dict.mem "url" bookmark = true ->
      Dict.lookup "generated_id" formatted
      = Some (JStr (generate_bookmark_id (Dict.get "created_at" JNull bookmark)
                                         (Dict.get "url" JNull bookmark)))).
Proof.
  unfold format_bookmark_json. intros H.
  destruct (Dict.mem "tags" bookmark) eqn:Htags.
  - destruct (parse_tags_value (Dict.get "tags" JNull bookmark)) as [tags_list| |] eqn:Hp;
      try discriminate.
    inversion H; subst formatted; clear H. split; [|split].
    + intros k Hg Ht. rewrite lookup_set_ne by congruence.
      destruct (Dict.mem "created_at" bookmark && Dict.mem "url" bookmark);
        [now rewrite lookup_set_ne by congruence|reflexivity].
    + intros _. exists tags_list. split; [reflexivity|apply lookup_set_eq].
    + intros ->. rewrite lookup_set_ne by discriminate. apply lookup_set_eq.
  - inversion H; subst formatted; clear H. split; [|split].
    + intros k Hg Ht.
      destruct (Dict.mem "created_at" bookmark && Dict.mem "url" bookmark);
        [now rewrite lookup_set_ne by congruence|reflexivity].
    + discriminate.
    + intros ->. apply lookup_set_eq.
Qed.

Lemma format_bookmark_json_keeps_fields_witness :
  let bookmark := [("url", JStr "https://e.com/a");
                   ("created_at", JStr "2008/04/30 06:28:54 +0800");
                   ("tags", JStr "web, rocq ,")] in
  let formatted := (bookmark ++ [("generated_id", JStr "080430abcd");
                                 ("tags_list", JList [JStr "web"; JStr "rocq"])])%list in
  format_bookmark_json (fun _ _ => "080430abcd") bookmark = Ret formatted
  /\ Dict.lookup "url" formatted = Dict.lookup "url" bookmark.
Proof.
  split; [reflexivity|].
  apply (proj1 (format_bookmark_json_keeps_fields
                  (fun _ _ => "080430abcd")
                  [("url", JStr "https://e.com/a");
                   ("created_at", JStr "2008/04/30 06:28:54 +0800");
                   ("tags", JStr "web, rocq ,")]
                  _ eq_refl));
    discriminate.
Defined.

(** A bookmark whose tags are not a string cannot be formatted; one
    without tags, or with null tags, can. *)
Example format_bookmark_json_odd_tags :
  format_bookmark_json (fun _ _ => "id") [("tags", JList [JStr "a"])]
  = Raise (Exn AttributeError "'list' object has no attribute 'strip'")
  /\ format_bookmark_json (fun _ _ => "id") [("tags", JNull)]
     = Ret [("tags", JNull); ("tags_list", JList [])]
  /\ format_bookmark_json (fun _ _ => "id") [("title", JStr "T")]
     = Ret [("title", JStr "T")].
Proof. repeat split. Qed.

(** ** The retry loop, for every server *)

Section RetryShape.

Variable cfg : Config.
Variable w : World.

(** The loop goes on only after a transient outcome that is not the last
    attempt, and then sleeps what the backoff power of that attempt
    evaluates to. *)
Lemma on_attempt_retry_inv (attempt : nat) (a : Attempt) (wait : Q) :
  on_attempt cfg w attempt a = RetryAfter wait ->
  is_transient a = true
  /\ Z.of_nat attempt < MAX_RETRIES cfg - 1
  /\ backoff_wait cfg w attempt = Value wait.
Proof.
  assert (Hr : forall msg, retry_or cfg w attempt msg = RetryAfter wait ->
                           Z.of_nat attempt < MAX_RETRIES cfg - 1
                           /\ backoff_wait cfg w attempt = Value wait).
  { intros msg. unfold retry_or.
    destruct (Z.ltb_spec (Z.of_nat attempt) (MAX_RETRIES cfg - 1)) as [Hlt|Hge];
      [|discriminate].
    destruct (backoff_wait cfg w attempt); intros Hret; inversion Hret. now split. }
  assert (Hr' : forall msg, retry_or_raise cfg w attempt msg = RetryAfter wait ->
                            Z.of_nat attempt < MAX_RETRIES cfg - 1
                            /\ backoff_wait cfg w attempt = Value wait).
  { intros msg. unfold retry_or_raise.
    destruct (Z.ltb_spec (Z.of_nat attempt) (MAX_RETRIES cfg - 1)) as [Hlt|Hge];
      [|discriminate].
    destruct (backoff_wait cfg w attempt); intros Hret; inversion Hret. now split. }
  destruct a as [status text parsed|e]; simpl.
  - destruct (Z.eqb_spec status 200) as [E2|E2]; [destruct parsed; discriminate|].
    destruct (Z.eqb_spec status 400) as [->|E4];
      [intros Hret; split; [reflexivity|eauto]|].
    destruct (Z.eqb_spec status 401) as [E1|E1]; [discriminate|].
    destruct (Z.eqb_spec status 403) as [E3|E3]; [discriminate|].
    destruct (Z.eqb_spec status 404) as [E0|E0]; [discriminate|].
    destruct (Z.eqb_spec status 503) as [->|E5]; [|discriminate].
    intros Hret. split; [reflexivity|eauto].
  - destruct (exc_class e); try discriminate.
    intros Hret. split; [reflexivity|eauto].
Qed.

(** An exception leaves the loop only from the timeout clause, when the
    backoff power of an attempt that is not the last one overflows. *)
Lemma on_attempt_escape_inv (attempt : nat) (a : Attempt) (e : exn) :
  on_attempt cfg w attempt a = Escape e ->
  (exists t, a = Failure t /\ exc_class t = TimeoutError)
  /\ Z.of_nat attempt < MAX_RETRIES cfg - 1
  /\ exists message,
       backoff_wait cfg w attempt = Overflow message /\ e = Exn OtherError message.
Proof.
  destruct a as [status text parsed|t]; simpl.
  - unfold retry_or.
    destruct (backoff_wait cfg w attempt);
      repeat match goal with
             | |- context [if ?b then _ else _] => destruct b
             | |- context [match ?p with Some _ => _ | None => _ end] => destruct p
             end; discriminate.
  - destruct (exc_class t) eqn:Hclass; try discriminate.
    unfold retry_or_raise.
    destruct (Z.ltb_spec (Z.of_nat attempt) (MAX_RETRIES cfg - 1)) as [Hlt|Hge];
      [|discriminate].
    destruct (backoff_wait cfg w attempt) as [wait|message]; [discriminate|].
    intros [= <-]. split; [now exists t|]. split; [exact Hlt|]. now exists message.
Qed.

(** Every run of the loop that starts within the budget is decided by one
    attempt, after a run of transient ones that were slept on. *)
Lemma retry_loop_complete (rem : nat) :
  forall (attempt : nat) (r : Request) (log : Log),
    (0 < rem)%nat ->
    Z.of_nat (attempt + rem) = MAX_RETRIES cfg ->
    exists (waits : list Q) (res : Res json),
      (List.length waits < rem)%nat
      /\ (forall i, (i < List.length waits)%nat ->
            is_transient (w_http w (requests_made log + i) r) = true)
      /\ backs_off cfg w attempt waits
      /\ decided (on_attempt cfg w (attempt + List.length waits)
                             (w_http w (requests_made log + List.length waits) r))
                 res
      /\ retry_loop cfg w rem attempt r log
         = (res, (log ++ retry_events r waits ++ [EvRequest r])%list).
Proof.
  induction rem as [|rem IH]; intros attempt r log Hpos Hmax; [lia|].
  cbn [retry_loop]. unfold bind at 1, http_request at 1.
  destruct (on_attempt cfg w attempt (w_http w (requests_made log) r))
    as [result|wait|e] eqn:Hdec.
  - exists [], (Ret result). cbn [List.length]. rewrite !Nat.add_0_r, Hdec.
    split; [lia|]. split; [intros i Hi; lia|]. split; [reflexivity|].
    split; reflexivity.
  - destruct (on_attempt_retry_inv _ _ _ Hdec) as (Htr & Hlt & Hwait).
    unfold bind, sleep, emit.
    destruct (IH (S attempt) r ((log ++ [EvRequest r]) ++ [EvSleep wait])%list)
      as (waits & res & Hk & Hpre & Hpow & Hlast & Hrun); [lia|lia|].
    assert (Hreq : requests_made ((log ++ [EvRequest r]) ++ [EvSleep wait])%list
                   = S (requests_made log)).
    { rewrite !requests_made_app. simpl. lia. }
    rewrite Hreq in *.
    exists (wait :: waits), res. cbn [List.length].
    split; [lia|]. split; [|split; [|split]].
    + intros [|i] Hi; [now rewrite Nat.add_0_r|].
      replace (requests_made log + S i)%nat with (S (requests_made log) + i)%nat by lia.
      apply Hpre. lia.
    + unfold backs_off in *. cbn [List.length seq map]. now rewrite Hwait, Hpow.
    + replace (attempt + S (List.length waits))%nat
        with (S attempt + List.length waits)%nat by lia.
      replace (requests_made log + S (List.length waits))%nat
        with (S (requests_made log) + List.length waits)%nat by lia.
      exact Hlast.
    + rewrite Hrun. f_equal. unfold retry_events. cbn [flat_map].
      now rewrite <- !app_assoc.
  - exists [], (Raise e). cbn [List.length]. rewrite !Nat.add_0_r, Hdec.
    split; [lia|]. split; [intros i Hi; lia|]. split; [reflexivity|].
    split; reflexivity.
Qed.

(** The whole call, for every server: no attempt at all when the budget
    is not positive, and otherwise a run of retried attempts and a last
    one. *)
Lemma request_with_retry_shape (method endpoint : string)
    (params data : option dict) (log : Log) :
  (MAX_RETRIES cfg <= 0
   /\ _request_with_retry cfg w method endpoint params data log
      = (Ret (error_dict "Max retries exceeded"), log))
  \/ (exists (waits : list Q) (res : Res json),
        Z.of_nat (List.length waits) < MAX_RETRIES cfg
        /\ (forall i, (i < List.length waits)%nat ->
              is_transient
                (w_http w (requests_made log + i)
                        (request_of cfg method endpoint params data)) = true)
        /\ backs_off cfg w 0 waits
        /\ decided (on_attempt cfg w (List.length waits)
                      (w_http w (requests_made log + List.length waits)
                              (request_of cfg method endpoint params data)))
                   res
        /\ _request_with_retry cfg w method endpoint params data log
           = (res,
              (log ++ retry_events (request_of cfg method endpoint params data) waits
                   ++ [EvRequest (request_of cfg method endpoint params data)])%list)).
Proof.
  unfold _request_with_retry.
  destruct (Z.to_nat (MAX_RETRIES cfg)) as [|n] eqn:Hn.
  - left. split; [lia|reflexivity].
  - right.
    destruct (retry_loop_complete (S n) 0 (request_of cfg method endpoint params data) log)
      as (waits & res & Hk & Hpre & Hpow & Hlast & Hrun); [lia|lia|].
    exists waits, res. split; [lia|]. split; [exact Hpre|]. split; [exact Hpow|].
    split; [exact Hlast|exact Hrun].
Qed.

Lemma decided_back (d : Decision) (res : Res json) : decided d res -> res <> Spin.
Proof. destruct d; simpl; intros H; subst; try discriminate. destruct H. Qed.

Lemma retry_events_of (r : Request) (waits : list Q) :
  Forall (retry_event_of r) (retry_events r waits).
Proof.
  unfold retry_events.
  induction waits as [|wait waits IH]; [constructor|]. cbn [flat_map app].
  constructor; [now left|]. constructor; [right; eauto|apply IH].
Qed.

End RetryShape.


Example request_attempts_exhausted :
  _request_with_retry Sample.cfg RetryFixtures.always_busy "GET" "bookmarks" None None []
  = (Ret (error_dict "Server busy after 3 attempts: busy"),
     [EvRequest (request_of Sample.cfg "GET" "bookmarks" None None);
      EvSleep 1;
      EvRequest (request_of Sample.cfg "GET" "bookmarks" None None);
      EvSleep 2;
      EvRequest (request_of Sample.cfg "GET" "bookmarks" None None)]).
Proof. reflexivity. Qed.

(** X9: with a retry budget of zero or less, [_request_with_retry] sends
    nothing and returns the fallback error "Max retries exceeded"; with a
    budget of one or more it always sends at least one request. *)
Theorem request_needs_positive_budget (cfg : Config) (w : World)
    (method endpoint : string) (params data : option dict) (log : Log) :
  (MAX_RETRIES cfg <= 0 ->
   _request_with_retry cfg w method endpoint params data log
   = (Ret (error_dict "Max retries exceeded"), log))
  /\ (1 <= MAX_RETRIES cfg ->
      (requests_made log
       < requests_made
           (snd (_request_with_retry cfg w method endpoint params data log)))%nat).
Proof.
  destruct (request_with_retry_shape cfg w method endpoint params data log)
    as [[Hmax Hrun]|(waits & res & Hk & _ & _ & _ & Hrun)]; split; intros H; try lia.
  - exact Hrun.
  - rewrite Hrun. cbn [snd].
    rewrite !requests_made_app, requests_made_retry_events. simpl. lia.
Qed.

Lemma request_needs_positive_budget_witness :
  _request_with_retry BudgetFixtures.no_attempts ToolFixtures.accepting
                      "GET" "bookmarks" None None []
  = (Ret (error_dict "Max retries exceeded"), [])
  /\ (0 < requests_made
            (snd (_request_with_retry Sample.cfg ToolFixtures.accepting
                                      "GET" "bookmarks" None None [])))%nat.
Proof.
  split.
  - apply (proj1 (request_needs_positive_budget BudgetFixtures.no_attempts
                    ToolFixtures.accepting "GET" "bookmarks" None None [])).
    vm_compute. discriminate.
  - apply (proj2 (request_needs_positive_budget Sample.cfg
                    ToolFixtures.accepting "GET" "bookmarks" None None [])).
    vm_compute. discriminate.
Defined.



Lemma requests_app (l1 l2 : Log) :
  requests (l1 ++ l2)%list = (requests l1 ++ requests l2)%list.
Proof.
  induction l1 as [|ev l1 IH]; simpl; [reflexivity|].
  destruct ev; simpl; rewrite IH; reflexivity.
Qed.

Lemma requests_of_retry_events (r r' : Request) (extra : Log) :
  Forall (retry_event_of r) extra -> In r' (requests extra) -> r' = r.
Proof.
  induction 1 as [|ev extra Hev _ IH]; simpl; [contradiction|].
  destruct Hev as [-> | (seconds & ->)]; simpl; [|exact IH].
  intros [<-|Hin]; [reflexivity|now apply IH].
Qed.

(** Everything [_request_with_retry] logs is the one request, or a sleep. *)
Lemma request_with_retry_events (cfg : Config) (w : World)
    (method endpoint : string) (params data : option dict) (log : Log) :
  exists (res : Res json) (extra : Log),
    _request_with_retry cfg w method endpoint params data log
    = (res, (log ++ extra)%list)
    /\ res <> Spin
    /\ Forall (retry_event_of (request_of cfg method endpoint params data)) extra.
Proof.
  destruct (request_with_retry_shape cfg w method endpoint params data log)
    as [[Hmax Hrun]|(waits & res & Hk & _ & _ & Hlast & Hrun)].
  - exists (Ret (error_dict "Max retries exceeded")), []. rewrite app_nil_r.
    split; [exact Hrun|]. split; [discriminate|constructor].
  - eexists res, _. split; [exact Hrun|]. split; [exact (decided_back _ _ Hlast)|].
    apply Forall_app. split; [apply retry_events_of|].
    constructor; [now left|constructor].
Qed.

(** X11: a response whose status is neither 200, 400 nor 503 ends the
    call at once, whatever attempt it answers: the request that drew it
    is the last event of the log, so nothing is retried or slept after
    it, and the call returns the error of the status: 401, 403 and 404
    have their own messages, every other status is reported as
    "HTTP <status>:", each followed by the body.  The response is drawn
    by attempt [k] whenever the [k] attempts before it were transient
    and slept on. *)
Theorem other_status_is_terminal (cfg : Config) (w : World)
    (method endpoint : string) (params data : option dict) (log : Log)
    (status : Z) (text : string) (parsed : option json) :
  status <> 200 -> status <> 400 -> status <> 503 ->
  (forall before after r,
     sent log (snd (_request_with_retry cfg w method endpoint params data log))
          before r after ->
     answer w log before r = Response status text parsed ->
     fst (_request_with_retry cfg w method endpoint params data log)
     = Ret (error_dict (status_error status text))
     /\ after = []
     /\ r = request_of cfg method endpoint params data)
  /\ (forall waits,
        (List.length waits < Z.to_nat (MAX_RETRIES cfg))%nat ->
        (forall i, (i < List.length waits)%nat ->
           is_transient
             (w_http w (requests_made log + i)
                     (request_of cfg method endpoint params data))
           = true) ->
        backs_off cfg w 0 waits ->
        w_http w (requests_made log + List.length waits)
               (request_of cfg method endpoint params data)
        = Response status text parsed ->
        _request_with_retry cfg w method endpoint params data log
        = (Ret (error_dict (status_error status text)),
           (log ++ retry_events (request_of cfg method endpoint params data) waits
                ++ [EvRequest (request_of cfg method endpoint params data)])%list)).
Proof.
  intros H200 H400 H503.
  assert (Hterminal : is_transient (Response status text parsed) = false).
  { simpl. destruct (Z.eqb_spec status 400); [contradiction|].
    destruct (Z.eqb_spec status 503); [contradiction|reflexivity]. }
  assert (Hresult : terminal_result (Response status text parsed)
                    = error_dict (status_error status text)).
  { unfold terminal_result, status_error.
    destruct (Z.eqb_spec status 200); [contradiction|].
    destruct (status =? 401); [reflexivity|].
    destruct (status =? 403); [reflexivity|].
    destruct (status =? 404); reflexivity. }
  split.
  - intros before after r Hsent Ha.
    destruct (request_with_retry_last cfg w method endpoint params data log
                before after r Hsent) as (Hres & Hafter & Hr).
    + now rewrite Ha.
    + rewrite Ha, Hresult in Hres. now repeat split.
  - intros waits Hk Htr Hpow Ha.
    apply request_with_retry_decides; [exact Hk|exact Htr|exact Hpow|].
    rewrite Ha, <- Hresult. now apply on_attempt_terminal.
Qed.

Lemma other_status_is_terminal_witness :
  _request_with_retry Sample.cfg BudgetFixtures.teapot "GET" "bookmarks" None None []
  = (Ret (error_dict "HTTP 418: short and stout"),
     [EvRequest (request_of Sample.cfg "GET" "bookmarks" None None);
      EvSleep 1;
      EvRequest (request_of Sample.cfg "GET" "bookmarks" None None)]).
Proof.
  apply (proj2 (other_status_is_terminal Sample.cfg BudgetFixtures.teapot
                  "GET" "bookmarks" None None [] 418 "short and stout" None
                  ltac:(discriminate) ltac:(discriminate) ltac:(discriminate))
           [1%Q]).
  - vm_compute. lia.
  - intros [|i] Hi; [reflexivity|simpl in Hi; lia].
  - reflexivity.
  - reflexivity.
Defined.

Example forbidden_and_missing :
  let run status :=
    fst (_request_with_retry Sample.cfg
           (Sample.scripted [Response status "body" None] Sample.busy)
           "GET" "bookmarks" None None []) in
  map run [403; 404; 500; 302]
  = [Ret (error_dict "Access forbidden: body");
     Ret (error_dict "Resource not found: body");
     Ret (error_dict "HTTP 500: body");
     Ret (error_dict "HTTP 302: body")].
Proof. reflexivity. Qed.

(** X12: every request that [_request_with_retry] sends goes to
    [<base url>/<endpoint>] with the method and form data it was given,
    carries the configured API key under the query parameter ["key"], and
    keeps every other query parameter of the caller as it was. *)
Theorem api_key_on_every_request (cfg : Config) (w : World)
    (method endpoint : string) (params data : option dict) (log : Log)
    (r : Request) :
  In r (requests (snd (_request_with_retry cfg w method endpoint params data log))) ->
  In r (requests log)
  \/ (rq_method r = method
      /\ rq_url r = DIIGO_BASE_URL cfg ++ "/" ++ endpoint
      /\ rq_data r = data
      /\ param "key" r = Some (opt_str (DIIGO_API_KEY cfg))
      /\ forall k, k <> "key" ->
           param k r
           = Dict.lookup k (match params with Some p => p | None => [] end)).
Proof.
  destruct (request_with_retry_events cfg w method endpoint params data log)
    as (result & extra & -> & _ & Hevents).
  cbn [snd]. rewrite requests_app, in_app_iff.
  intros [Hold|Hnew]; [now left|right].
  rewrite (requests_of_retry_events _ _ _ Hevents Hnew).
  unfold param, request_of. cbn [rq_method rq_url rq_data rq_params].
  repeat split.
  - apply lookup_set_eq.
  - intros k Hk. apply lookup_set_ne. congruence.
Qed.

Lemma api_key_on_every_request_witness :
  let r := request_of Sample.cfg "GET" "bookmarks" (Some [("user", JStr "bob")]) None in
  param "key" r = Some (JStr "k3y") /\ param "user" r = Some (JStr "bob").
Proof.
  destruct (api_key_on_every_request Sample.cfg ToolFixtures.accepting
              "GET" "bookmarks" (Some [("user", JStr "bob")]) None []
              (request_of Sample.cfg "GET" "bookmarks" (Some [("user", JStr "bob")]) None))
    as [Hold|(_ & _ & _ & Hkey & Hother)].
  - left. reflexivity.
  - destruct Hold.
  - split; [exact Hkey|]. apply (Hother "user"). discriminate.
Defined.

(** ** get_bookmarks and save_bookmark on the wire *)

(** What leaves [_request_with_retry] as an exception is the overflow of
    the backoff power of an attempt that is not the last one. *)
Lemma request_with_retry_raises (cfg : Config) (w : World)
    (method endpoint : string) (params data : option dict) (log : Log) (e : exn) :
  fst (_request_with_retry cfg w method endpoint params data log) = Raise e ->
  exists (message : string) (attempt : nat),
    Z.of_nat attempt < MAX_RETRIES cfg - 1
    /\ backoff_wait cfg w attempt = Overflow message
    /\ e = Exn OtherError message.
Proof.
  destruct (request_with_retry_shape cfg w method endpoint params data log)
    as [[Hmax Hrun]|(waits & res & Hk & _ & _ & Hlast & Hrun)];
    rewrite Hrun; cbn [fst]; [discriminate|].
  intros ->.
  destruct (on_attempt cfg w (List.length waits)
              (w_http w (requests_made log + List.length waits)
                      (request_of cfg method endpoint params data)))
    as [result|wait|e'] eqn:Hdec; cbn [decided] in Hlast;
    [discriminate|destruct Hlast|].
  injection Hlast as <-.
  destruct (on_attempt_escape_inv cfg w _ _ _ Hdec) as (_ & Hlt & message & Hover & ->).
  now exists message, (List.length waits).
Qed.


Example get_bookmarks_overflow :
  fst (get_bookmarks RetryFixtures.steep RetryFixtures.always_late
                     None 0 10 1 None "all" None [])
  = Raise (Exn OtherError "(34, 'Numerical result out of range')").
Proof. reflexivity. Qed.

(** The log after a call whose continuation logs nothing. *)
Lemma snd_bind_log {A B : Type} (c : M A) (k : A -> M B) (log log' : Log)
    (res : Res A) :
  c log = (res, log') ->
  (forall x l, snd (k x l) = l) ->
  snd (bind c k log) = log'.
Proof.
  intros Hrun Hk. unfold bind. rewrite Hrun. destruct res; [apply Hk| |]; reflexivity.
Qed.

(** X14: every request [get_bookmarks] sends is a GET without form data
    that asks for at most [MAX_BOOKMARKS_PER_REQUEST] items, and for no
    more than the caller wanted; it names the configured user when the
    caller names none, and it leaves out the tag and list filters when
    they are missing or empty. *)
Theorem get_bookmarks_request_params (cfg : Config) (w : World)
    (user : option string) (start count sort : Z) (tags : option string)
    (filter : string) (list_name : option string) (log : Log) (r : Request) :
  In r (requests
          (snd (get_bookmarks cfg w user start count sort tags filter list_name log))) ->
  In r (requests log)
  \/ (rq_method r = "GET"
      /\ rq_data r = None
      /\ (exists sent,
            param "count" r = Some (JInt sent)
            /\ sent <= MAX_BOOKMARKS_PER_REQUEST cfg /\ sent <= count
            /\ (sent = count \/ sent = MAX_BOOKMARKS_PER_REQUEST cfg))
      /\ param "start" r = Some (JInt start)
      /\ param "sort" r = Some (JInt sort)
      /\ param "filter" r = Some (JStr filter)
      /\ param "user" r
         = Some (opt_str (match user with
                          | Some u => Some u
                          | None => DIIGO_USERNAME cfg
                          end))
      /\ param "tags" r = optional_param tags
      /\ param "list" r = optional_param list_name).
Proof.
  unfold get_bookmarks.
  destruct (request_with_retry_events cfg w "GET" "bookmarks"
              (Some (get_bookmarks_params cfg user start count sort tags filter list_name))
              None log)
    as (result & extra & Hrun & _ & Hevents).
  rewrite (snd_bind_log _ _ _ _ _ Hrun).
  2: { intros x l. destruct (is_error_dict x); [reflexivity|]. now destruct x. }
  rewrite requests_app, in_app_iff. intros [Hold|Hnew]; [now left|right].
  rewrite (requests_of_retry_events _ _ _ Hevents Hnew).
  split; [reflexivity|]. split; [reflexivity|]. split.
  { exists (Z.min count (MAX_BOOKMARKS_PER_REQUEST cfg)). split; [|lia].
    destruct tags as [[|c t]|], list_name as [[|c' l]|]; reflexivity. }
  repeat split;
    destruct tags as [[|c t]|], list_name as [[|c' l]|]; reflexivity.
Qed.

Lemma get_bookmarks_request_params_witness :
  let r := request_of Sample.cfg "GET" "bookmarks"
             (Some (get_bookmarks_params Sample.cfg None 0 250 1 (Some "") "all" None))
             None in
  param "count" r = Some (JInt 100)
  /\ param "user" r = Some (JStr "alice")
  /\ param "tags" r = None.
Proof.
  destruct (get_bookmarks_request_params Sample.cfg ToolFixtures.accepting
              None 0 250 1 (Some "") "all" None []
              (request_of Sample.cfg "GET" "bookmarks"
                 (Some (get_bookmarks_params Sample.cfg None 0 250 1 (Some "") "all" None))
                 None))
    as [Hold|(_ & _ & (sent & Hcount & _) & _ & _ & _ & Huser & Htags & _)].
  - left. reflexivity.
  - destruct Hold.
  - cbv zeta. split; [reflexivity|]. split; [exact Huser|exact Htags].
Defined.

(** X15: every request [save_bookmark] sends is a POST whose form carries
    the url, title, description and tags it was given, and the three
    flags as the strings "yes" or "no": a boolean argument is sent as
    "yes" when it is true and as "no" when it is false. *)
Theorem save_bookmark_wire_format (cfg : Config) (w : World) (a : SaveArgs)
    (log : Log) (r : Request) :
  In r (requests (snd (save_bookmark cfg w a log))) ->
  In r (requests log)
  \/ (rq_method r = "POST"
      /\ field "url" r = Some (sv_url a)
      /\ field "title" r = Some (sv_title a)
      /\ field "desc" r = Some (sv_desc a)
      /\ field "tags" r = Some (sv_tags a)
      /\ (exists shared read_later merge,
            field "shared" r = Some (JStr shared)
            /\ field "readLater" r = Some (JStr read_later)
            /\ field "merge" r = Some (JStr merge)
            /\ yes_or_no shared /\ yes_or_no read_later /\ yes_or_no merge
            /\ (forall b, sv_shared a = JBool b -> shared = if b then "yes" else "no")
            /\ (forall b, sv_read_later a = JBool b ->
                          read_later = if b then "yes" else "no")
            /\ (forall b, sv_merge a = JBool b -> merge = if b then "yes" else "no"))).
Proof.
  unfold save_bookmark, bind, emit.
  destruct (request_with_retry_events cfg w "POST" "bookmarks" None (Some (save_data a))
              (log ++ [EvSave a])%list)
    as (result & extra & -> & _ & Hevents).
  cbn [snd]. rewrite !requests_app, !in_app_iff. cbn [requests].
  intros [[Hold|[]]|Hnew]; [now left|right].
  rewrite (requests_of_retry_events _ _ _ Hevents Hnew).
  split; [reflexivity|]. do 4 (split; [reflexivity|]).
  exists (parse_bool_param (sv_shared a)), (parse_bool_param (sv_read_later a)),
         (parse_bool_param (sv_merge a)).
  do 3 (split; [reflexivity|]).
  assert (Hwire : forall v, yes_or_no (parse_bool_param v)).
  { intros v. destruct v as [|[]| |s| |]; unfold parse_bool_param;
      try (now left); try (now right).
    match goal with
    | |- context [existsb ?f ?l] => destruct (existsb f l)
    end; [now left|now right]. }
  do 3 (split; [apply Hwire|]).
  repeat split; intros b ->; reflexivity.
Qed.

Lemma save_bookmark_wire_format_witness :
  let a := {| sv_url := JStr "https://e.com/a"; sv_title := JStr "T";
              sv_desc := JStr ""; sv_tags := JStr ""; sv_shared := JBool true;
              sv_read_later := JBool false; sv_merge := JStr "Yes" |} in
  let r := request_of Sample.cfg "POST" "bookmarks" None (Some (save_data a)) in
  In r (requests (snd (save_bookmark Sample.cfg ToolFixtures.accepting a [])))
  /\ field "shared" r = Some (JStr "yes")
  /\ field "readLater" r = Some (JStr "no")
  /\ field "merge" r = Some (JStr "yes").
Proof.
  cbv zeta.
  set (a := {| sv_url := JStr "https://e.com/a"; sv_title := JStr "T";
               sv_desc := JStr ""; sv_tags := JStr ""; sv_shared := JBool true;
               sv_read_later := JBool false; sv_merge := JStr "Yes" |}).
  assert (Hin : In (request_of Sample.cfg "POST" "bookmarks" None (Some (save_data a)))
                   (requests (snd (save_bookmark Sample.cfg ToolFixtures.accepting a [])))).
  { left. reflexivity. }
  split; [exact Hin|].
  destruct (save_bookmark_wire_format Sample.cfg ToolFixtures.accepting a [] _ Hin)
    as [Hold|(_ & _ & _ & _ & _ & _)]; [destruct Hold|].
  repeat split.
Defined.

(** ** Bulk creation, for every batch *)

Lemma succeeded_nonneg (outcomes : list (option json)) : 0 <= succeeded outcomes.
Proof.
  induction outcomes as [|[error|] os IH]; cbn [succeeded]; lia.
Qed.

(** The failure records carry the indices of their items, in increasing
    order. *)
Lemma failure_records_indices (bookmarks : list dict) :
  forall (i : nat) (outcomes : list (option json)),
  exists js : list nat,
    map record_index (failure_records i bookmarks outcomes)
    = map (fun j => Some (Z.of_nat j)) js
    /\ StronglySorted lt js
    /\ Forall (fun j => (i <= j < i + List.length bookmarks)%nat) js.
Proof.
  induction bookmarks as [|b bs IH]; intros i [|[error|] os];
    cbn [failure_records];
    try (exists []; repeat split; constructor).
  - destruct (IH (S i) os) as (js & Hmap & Hsorted & Hrange).
    exists (i :: js). split; [|split].
    + cbn [map]. now rewrite Hmap.
    + constructor; [exact Hsorted|].
      eapply Forall_impl; [|exact Hrange]. cbv beta. intros j Hj. lia.
    + constructor; [simpl; lia|].
      eapply Forall_impl; [|exact Hrange]. cbv beta. simpl. intros j Hj. lia.
  - destruct (IH (S i) os) as (js & Hmap & Hsorted & Hrange).
    exists js. split; [exact Hmap|]. split; [exact Hsorted|].
    eapply Forall_impl; [|exact Hrange]. cbv beta. simpl. intros j Hj. lia.
Qed.


(** The empty batch: a summary of zeros, and nothing sent or slept. *)
Example bulk_empty_batch :
  bulk_save_bookmarks Sample.cfg ToolFixtures.accepting [] (1 # 2) []
  = (Ret (bulk_summary 0 0 0 []), []).
Proof. reflexivity. Qed.

Section BulkDelays.

Variable cfg : Config.
Variable w : World.

Hypothesis budget : 1 <= MAX_RETRIES cfg.
Hypothesis steady : forall i r, settled (w_http w i r) = true.

Lemma settled_returns_object (attempt : nat) (a : Attempt) :
  settled a = true -> exists d, on_attempt cfg w attempt a = Return (JDict d).
Proof.
  unfold settled. intros H. apply andb_true_iff in H as [Htr Hobj].
  apply negb_true_iff in Htr.
  destruct a as [status text parsed|e]; simpl in *.
  - apply orb_false_iff in Htr as [H4 H5]. rewrite H4, H5.
    destruct (status =? 200).
    + destruct parsed as [[| | | | |d]|]; try discriminate; eauto.
    + unfold error_dict.
      repeat match goal with
             | |- context [if ?b then _ else _] => destruct b
             end; eauto.
  - destruct (exc_class e); try discriminate; unfold error_dict; eauto.
Qed.

(** A save that is settled at once: one save call, one request. *)
Lemma save_bookmark_settled (a : SaveArgs) (log : Log) :
  exists d,
    save_bookmark cfg w a log
    = (Ret (JDict d),
       (log ++ [EvSave a;
                EvRequest (request_of cfg "POST" "bookmarks" None (Some (save_data a)))])%list).
Proof.
  unfold save_bookmark, bind, emit.
  destruct (settled_returns_object 0
              (w_http w (requests_made (log ++ [EvSave a])%list + 0)
                      (request_of cfg "POST" "bookmarks" None (Some (save_data a))))
              (steady _ _)) as [d Hd].
  exists d.
  rewrite (request_with_retry_decides cfg w "POST" "bookmarks" None (Some (save_data a))
             (log ++ [EvSave a])%list [] (JDict d));
    [|cbn [List.length]; lia|intros i Hi; cbn [List.length] in Hi; lia
     |reflexivity|exact Hd].
  cbn [retry_events flat_map app]. now rewrite <- app_assoc.
Qed.

Lemma bulk_step_settled (total : nat) (delay : Q) (i : nat) (bookmark : dict)
    (success_count : Z) (failed : list json) (log : Log) :
  has_no_error bookmark = true ->
  exists counters,
    bulk_step cfg w total delay i bookmark success_count failed log
    = (Ret counters,
       (log ++ [EvSave (bound_args bookmark);
                EvRequest (request_of cfg "POST" "bookmarks" None
                                      (Some (save_data (bound_args bookmark))))]
            ++ (if Z.of_nat i <? Z.of_nat total - 1 then [EvSleep delay] else []))%list).
Proof.
  unfold has_no_error, bulk_step, try_except, bind_save_kwargs.
  destruct (keyword_error bookmark); [discriminate|intros _].
  unfold bind at 1, ret at 1. unfold bind at 1.
  destruct (save_bookmark_settled (bound_args bookmark) log) as [d ->].
  destruct (Dict.mem "error" d); cbn [negb py_get];
    unfold bind, ret, sleep, emit;
    destruct (Z.of_nat i <? Z.of_nat total - 1);
    eexists; rewrite <- ?app_assoc, ?app_nil_r; reflexivity.
Qed.

Lemma bulk_loop_settled (total : nat) (delay : Q) (bookmarks : list dict) :
  forall (i : nat) (success_count : Z) (failed : list json) (log : Log),
    Forall (fun b => has_no_error b = true) bookmarks ->
    (i + List.length bookmarks = total)%nat ->
    exists counters extra,
      bulk_loop cfg w total delay i bookmarks success_count failed log
      = (Ret counters, (log ++ extra)%list)
      /\ sleeps extra = repeat delay (List.length bookmarks - 1)
      /\ requests_made extra = List.length bookmarks.
Proof.
  induction bookmarks as [|b bs IH]; intros i success_count failed log Hok Htotal.
  - exists (success_count, failed), []. rewrite app_nil_r. now repeat split.
  - apply Forall_cons_iff in Hok as [Hb Hbs]. cbn [bulk_loop]. unfold bind.
    cbn [List.length] in Htotal. subst total.
    destruct (bulk_step_settled (i + S (List.length bs)) delay i b success_count failed log Hb)
      as [counters ->].
    match goal with
    | |- context [bulk_loop _ _ _ _ (S i) bs _ _ ?l] =>
        destruct (IH (S i) (fst counters) (snd counters) l Hbs ltac:(lia))
          as (counters' & extra & -> & Hsleeps & Hreqs)
    end.
    eexists counters', _. split; [now rewrite <- app_assoc|].
    rewrite !sleeps_app, !requests_made_app, Hsleeps, Hreqs.
    cbn [sleeps requests_made List.length].
    destruct bs as [|b' bs'].
    + cbn [List.length].
      destruct (Z.ltb_spec (Z.of_nat i) (Z.of_nat (i + 1) - 1)); [lia|].
      split; reflexivity.
    + cbn [List.length].
      destruct (Z.ltb_spec (Z.of_nat i) (Z.of_nat (i + S (S (List.length bs'))) - 1));
        [|lia].
      split; [|simpl; lia].
      cbn [sleeps app]. replace (S (S (List.length bs')) - 1)%nat
        with (S (List.length bs')) by lia.
      replace (S (List.length bs') - 1)%nat with (List.length bs') by lia.
      reflexivity.
Qed.

End BulkDelays.



(** ** What the tools add to the log *)

Section LogsOnly.

Variable P : Event -> Prop.

Lemma logs_only_ret {A : Type} (a : A) : logs_only P (ret a).
Proof. intros log. exists []. rewrite app_nil_r. split; [reflexivity|constructor]. Qed.

Lemma logs_only_raise {A : Type} (e : exn) : logs_only P (@raise A e).
Proof. intros log. exists []. rewrite app_nil_r. split; [reflexivity|constructor]. Qed.

Lemma logs_only_emit (ev : Event) : P ev -> logs_only P (emit ev).
Proof. intros Hev log. exists [ev]. split; [reflexivity|]. now repeat constructor. Qed.

Lemma logs_only_may_fail (o : option exn) : logs_only P (may_fail o).
Proof. destruct o; [apply logs_only_raise|apply logs_only_ret]. Qed.

Lemma logs_only_bind {A B : Type} (c : M A) (k : A -> M B) :
  logs_only P c -> (forall a, logs_only P (k a)) -> logs_only P (bind c k).
Proof.
  intros Hc Hk log. unfold bind. destruct (Hc log) as (e1 & H1 & HP1).
  destruct (c log) as [[a|e|] log1]; cbn [snd] in H1; subst log1.
  - destruct (Hk a (log ++ e1)%list) as (e2 & H2 & HP2).
    exists (e1 ++ e2)%list. rewrite H2, <- app_assoc. split; [reflexivity|].
    apply Forall_app. now split.
  - now exists e1.
  - now exists e1.
Qed.

Lemma logs_only_try_except {A : Type} (c : M A) (h : exn -> M A) :
  logs_only P c -> (forall e, logs_only P (h e)) -> logs_only P (try_except c h).
Proof.
  intros Hc Hh log. unfold try_except. destruct (Hc log) as (e1 & H1 & HP1).
  destruct (c log) as [[a|e|] log1]; cbn [snd] in H1; subst log1.
  - now exists e1.
  - destruct (Hh e (log ++ e1)%list) as (e2 & H2 & HP2).
    exists (e1 ++ e2)%list. rewrite H2, <- app_assoc. split; [reflexivity|].
    apply Forall_app. now split.
  - now exists e1.
Qed.

Lemma logs_only_py_get (x : json) (k : string) (default : json) :
  logs_only P (py_get x k default).
Proof. destruct x; first [apply logs_only_ret|apply logs_only_raise]. Qed.

Lemma logs_only_py_lower (x : json) : logs_only P (py_lower x).
Proof. destruct x; first [apply logs_only_ret|apply logs_only_raise]. Qed.

Lemma logs_only_py_iter (x : json) : logs_only P (py_iter x).
Proof. destruct x; first [apply logs_only_ret|apply logs_only_raise]. Qed.

Lemma logs_only_py_len (x : json) : logs_only P (py_len x).
Proof. destruct x; first [apply logs_only_ret|apply logs_only_raise]. Qed.

End LogsOnly.

Create HintDb logs.

#[local] Hint Resolve logs_only_ret logs_only_raise logs_only_may_fail
  logs_only_py_get logs_only_py_lower logs_only_py_iter logs_only_py_len : logs.

(** Breaks a goal [logs_only P c] along the structure of [c]. *)
Ltac logs_step :=
  match goal with
  | |- logs_only _ (bind _ _) => apply logs_only_bind; [|intros ?]
  | |- logs_only _ (try_except _ _) => apply logs_only_try_except; [|intros ?]
  | |- logs_only _ (if ?b then _ else _) => destruct b
  | |- logs_only _ (match ?x with _ => _ end) => destruct x
  | |- logs_only _ _ => solve [auto with logs]
  end.

Section LogsOnlyClient.

Variable P : Event -> Prop.
Variable cfg : Config.
Variable w : World.

Hypothesis sleeps_allowed : forall seconds, P (EvSleep seconds).

Lemma logs_only_request (method endpoint : string) (params data : option dict) :
  P (EvRequest (request_of cfg method endpoint params data)) ->
  logs_only P (_request_with_retry cfg w method endpoint params data).
Proof.
  intros Hreq log.
  destruct (request_with_retry_events cfg w method endpoint params data log)
    as (result & extra & -> & _ & Hevents).
  exists extra. split; [reflexivity|].
  eapply Forall_impl; [|exact Hevents].
  intros ev [-> | (seconds & ->)]; [exact Hreq|apply sleeps_allowed].
Qed.

Lemma logs_only_get_bookmarks (user : option string) (start count sort : Z)
    (tags : option string) (filter : string) (list_name : option string) :
  (forall r, rq_method r = "GET" -> rq_data r = None -> P (EvRequest r)) ->
  logs_only P (get_bookmarks cfg w user start count sort tags filter list_name).
Proof.
  intros Hget. unfold get_bookmarks.
  apply logs_only_bind; [apply logs_only_request; now apply Hget|].
  intros result. repeat logs_step.
Qed.

Lemma logs_only_get_all_bookmarks (fuel : nat) (user : option string) (sort : Z)
    (tags : option string) (filter : string) (list_name : option string) :
  (forall r, rq_method r = "GET" -> rq_data r = None -> P (EvRequest r)) ->
  logs_only P (get_all_bookmarks cfg w fuel user sort tags filter list_name).
Proof.
  intros Hget. unfold get_all_bookmarks. generalize 0 (@nil json).
  induction fuel as [|fuel IH]; intros start acc; cbn [get_all_loop].
  - intros log. exists []. rewrite app_nil_r. split; [reflexivity|constructor].
  - apply logs_only_bind; [now apply logs_only_get_bookmarks|].
    intros batch. repeat first [ apply IH | logs_step ].
Qed.

Lemma logs_only_find_by_url (url : string) (items : list json) :
  logs_only P (find_by_url url items).
Proof.
  induction items as [|b rest IH]; cbn [find_by_url]; [apply logs_only_ret|].
  repeat first [ exact IH | logs_step ].
Qed.

Lemma logs_only_search_filter (query_lower : string) (items : list json) :
  logs_only P (search_filter query_lower items).
Proof.
  induction items as [|b rest IH]; cbn [search_filter]; [apply logs_only_ret|].
  repeat first [ exact IH | logs_step ].
Qed.

Lemma logs_only_with_client {A : Type} (body : M A) :
  P EvNew -> P EvEnter -> P EvExit ->
  logs_only P body -> logs_only P (with_client w body).
Proof.
  intros Hnew Henter Hexit Hbody. unfold with_client.
  apply logs_only_bind; [now apply logs_only_emit|intros _].
  apply logs_only_bind; [apply logs_only_may_fail|intros _].
  apply logs_only_bind; [now apply logs_only_emit|intros _].
  apply logs_only_bind; [apply logs_only_may_fail|intros _].
  intros log. destruct (Hbody log) as (e1 & H1 & HP1).
  destruct (body log) as [[a|e|] log1]; cbn [snd] in H1; subst log1;
    try (now exists e1);
    unfold bind, emit;
    (exists (e1 ++ [EvExit])%list; split;
     [destruct (w_exit w); cbn; now rewrite <- app_assoc
     |apply Forall_app; split; [exact HP1|now repeat constructor]]).
Qed.

End LogsOnlyClient.

(** X18: the five tools that only read (list, search, get, get-recent,
    get-annotations) never change anything on the server: whatever the
    server answers and however the run ends, every request they send is a
    GET without form data, and they make no save call. *)
Theorem reading_tools_only_get (urlparse : string -> UrlParse) (cfg : Config)
    (w : World) (fuel : nat) (call : ToolCall) (log : Log) :
  reads_only call = true ->
  exists extra,
    snd (run_tool urlparse cfg w fuel call log) = (log ++ extra)%list
    /\ Forall reading_event extra
    /\ save_calls extra = []
    /\ Forall (fun r => rq_method r = "GET" /\ rq_data r = None) (requests extra).
Proof.
  intros Hread.
  assert (Hlogs : logs_only reading_event (run_tool urlparse cfg w fuel call)).
  { assert (Hget : forall r, rq_method r = "GET" -> rq_data r = None ->
                             reading_event (EvRequest r)) by (intros r; now split).
    assert (Hsleep : forall seconds, reading_event (EvSleep seconds)) by exact (fun _ => I).
    destruct call; try discriminate; cbn [run_tool];
      unfold list_bookmarks_tool, search_bookmarks_tool, get_bookmark_tool,
        get_recent_bookmarks_tool, get_annotations_tool, tool_boundary;
      repeat first
        [ apply logs_only_with_client; [exact I|exact I|exact I|]
        | apply logs_only_get_all_bookmarks; [exact Hsleep|exact Hget]
        | apply logs_only_get_bookmarks; [exact Hsleep|exact Hget]
        | apply logs_only_find_by_url
        | apply logs_only_search_filter
        | logs_step ]. }
  destruct (Hlogs log) as (extra & Hsnd & Hall).
  exists extra. split; [exact Hsnd|]. split; [exact Hall|].
  clear Hsnd. induction Hall as [|ev extra Hev _ [IHs IHr]]; [split; [reflexivity|constructor]|].
  destruct ev; cbn [save_calls requests]; try (split; assumption).
  - destruct Hev.
  - split; [exact IHs|]. constructor; assumption.
Qed.

Lemma reading_tools_only_get_witness :
  exists extra,
    snd (run_tool UrlModel.urlparse Sample.cfg ToolFixtures.small_account 3
                  (GetAnnotations "https://example.com/7" None) [])
    = ([] ++ extra)%list
    /\ Forall reading_event extra
    /\ save_calls extra = []
    /\ Forall (fun r => rq_method r = "GET" /\ rq_data r = None) (requests extra).
Proof.
  apply (reading_tools_only_get UrlModel.urlparse Sample.cfg ToolFixtures.small_account 3
           (GetAnnotations "https://example.com/7" None) []).
  reflexivity.
Defined.

(** ** A failed listing *)

(** X19: the tools that list the account first (list without a count,
    search, get, update of a valid URL, delete without a title,
    get-annotations) hand a failed listing on unchanged: when
    [get_all_bookmarks] returns an error object, the tool returns that
    very object, and the only thing it still does is close the session:
    nothing is saved or deleted. *)
Theorem failed_listing_is_returned (urlparse : string -> UrlParse) (cfg : Config)
    (w : World) (fuel : nat) (call : ToolCall) (listing : Listing)
    (log log1 : Log) (err : json) :
  listing_of urlparse call = Some listing ->
  w_new w = None -> w_enter w = None -> w_exit w = None ->
  run_listing cfg w fuel listing (log ++ [EvNew; EvEnter])%list = (Ret err, log1) ->
  is_error_dict err = true ->
  run_tool urlparse cfg w fuel call log = (Ret err, (log1 ++ [EvExit])%list).
Proof.
  intros Hlisting Hnew Henter Hexit Hrun Herr. unfold run_listing in Hrun.
  destruct call as [user [count|] start sort tags filter list_name
                   | query tags filter user | url user | | url title desc tags shared rl
                   | url title | | url user | ];
    cbn [listing_of] in Hlisting; try discriminate; cbn [run_tool].
  - inversion Hlisting; subst listing; cbn in Hrun.
    unfold list_bookmarks_tool, tool_boundary, try_except.
    rewrite (with_client_run w _ log Hnew Henter Hexit).
    unfold bind at 1. rewrite Hrun, Herr. reflexivity.
  - inversion Hlisting; subst listing; cbn in Hrun.
    unfold search_bookmarks_tool, tool_boundary, try_except.
    rewrite (with_client_run w _ log Hnew Henter Hexit).
    unfold bind at 1. rewrite Hrun, Herr. reflexivity.
  - inversion Hlisting; subst listing; cbn in Hrun.
    unfold get_bookmark_tool, tool_boundary, try_except.
    rewrite (with_client_run w _ log Hnew Henter Hexit).
    unfold bind at 1. rewrite Hrun, Herr. reflexivity.
  - destruct (validate_url urlparse url) eqn:Hvalid; [|discriminate].
    inversion Hlisting; subst listing; cbn in Hrun.
    unfold update_bookmark_tool, tool_boundary, try_except. rewrite Hvalid. cbn [negb].
    rewrite (with_client_run w _ log Hnew Henter Hexit).
    unfold bind at 1. rewrite Hrun, Herr. reflexivity.
  - destruct (truthy (opt_str title)) eqn:Htitle; [discriminate|].
    inversion Hlisting; subst listing; cbn in Hrun.
    unfold delete_bookmark_tool, tool_boundary, try_except. rewrite Htitle.
    rewrite (with_client_run w _ log Hnew Henter Hexit).
    unfold bind at 1. rewrite Hrun, Herr. reflexivity.
  - inversion Hlisting; subst listing; cbn in Hrun.
    unfold get_annotations_tool, tool_boundary, try_except.
    rewrite (with_client_run w _ log Hnew Henter Hexit).
    unfold bind at 1. rewrite Hrun, Herr. reflexivity.
Qed.

Lemma failed_listing_is_returned_witness :
  run_tool UrlModel.urlparse Sample.cfg SearchFixtures.locked 3
           (UpdateBookmark "https://e.com/a" None None (Some "new") None None) []
  = (Ret (error_dict "Authentication failed: bad credentials"),
     [EvNew; EvEnter;
      EvRequest (request_of Sample.cfg "GET" "bookmarks"
                   (Some (get_bookmarks_params Sample.cfg None 0 100 1 None "all" None))
                   None);
      EvExit]).
Proof.
  apply (failed_listing_is_returned UrlModel.urlparse Sample.cfg SearchFixtures.locked 3
           (UpdateBookmark "https://e.com/a" None None (Some "new") None None)
           (whole_account None) []
           [EvNew; EvEnter;
            EvRequest (request_of Sample.cfg "GET" "bookmarks"
                         (Some (get_bookmarks_params Sample.cfg None 0 100 1 None "all" None))
                         None)]);
    reflexivity.
Defined.

(** ** Searching *)

Lemma contains_empty (hay : string) : PyStr.contains "" hay = true.
Proof. rewrite contains_unfold. now destruct hay. Qed.

Lemma search_filter_matches (query_lower : string) (items : list json) (log : Log) :
  Forall searchable items ->
  search_filter query_lower items log = (Ret (filter (matches query_lower) items), log).
Proof.
  induction 1 as [|b items (title & desc & Ht & Hd) _ IH]; [reflexivity|].
  cbn [search_filter filter]. unfold matches. rewrite Ht, Hd.
  destruct b as [| | | | |d]; try discriminate. cbn [text_of] in Ht, Hd.
  destruct (Dict.get "title" (JStr "") d) eqn:Et; try discriminate.
  destruct (Dict.get "desc" (JStr "") d) eqn:Ed; try discriminate.
  injection Ht as ->. injection Hd as ->.
  unfold bind, py_get, ret. rewrite Et. cbn [py_lower]. unfold ret.
  destruct (PyStr.contains query_lower (PyStr.lower title)) eqn:Ec; cbn [orb].
  - rewrite IH. reflexivity.
  - rewrite Ed. cbn [py_lower]. unfold ret. rewrite IH.
    now destruct (PyStr.contains query_lower (PyStr.lower desc)).
Qed.

Lemma matches_empty (items : list json) :
  Forall searchable items -> filter (matches "") items = items.
Proof.
  induction 1 as [|b items (title & desc & Ht & Hd) _ IH]; [reflexivity|].
  cbn [filter]. unfold matches at 1. rewrite Ht, Hd, contains_empty. cbn [orb].
  now rewrite IH.
Qed.

(** X20: [search_bookmarks_tool] returns, in the order of the listing,
    exactly the bookmarks whose lower-cased title or description contains
    the lower-cased query, when every bookmark of the listing is an
    object whose title and description are strings.  The case of the
    query does not matter, and the empty query returns the whole
    listing. *)
Theorem search_returns_matches (urlparse : string -> UrlParse) (cfg : Config)
    (w : World) (fuel : nat) (query : string) (tags : option string)
    (filter_value : string) (user : option string) (items : list json)
    (log log1 : Log) :
  w_new w = None -> w_enter w = None -> w_exit w = None ->
  run_listing cfg w fuel
    {| ls_user := user; ls_sort := 1; ls_tags := tags; ls_filter := filter_value;
       ls_list_name := None |} (log ++ [EvNew; EvEnter])%list
  = (Ret (JList items), log1) ->
  Forall searchable items ->
  run_tool urlparse cfg w fuel (SearchBookmarks query tags filter_value user) log
  = (Ret (JList (filter (matches (PyStr.lower query)) items)), (log1 ++ [EvExit])%list)
  /\ run_tool urlparse cfg w fuel
       (SearchBookmarks (PyStr.lower query) tags filter_value user) log
     = run_tool urlparse cfg w fuel (SearchBookmarks query tags filter_value user) log
  /\ (query = "" -> filter (matches (PyStr.lower query)) items = items).
Proof.
  intros Hnew Henter Hexit Hrun Hitems. unfold run_listing in Hrun. cbn in Hrun.
  split; [|split].
  - cbn [run_tool]. unfold search_bookmarks_tool, tool_boundary, try_except.
    rewrite (with_client_run w _ log Hnew Henter Hexit).
    unfold bind at 1. rewrite Hrun. cbn [is_error_dict].
    unfold bind at 1. cbn [py_iter]. unfold ret at 1.
    unfold bind. rewrite (search_filter_matches _ _ _ Hitems). reflexivity.
  - cbn [run_tool]. unfold search_bookmarks_tool. now rewrite lower_idempotent.
  - intros ->. now apply matches_empty.
Qed.

Lemma search_returns_matches_witness :
  run_tool UrlModel.urlparse Sample.cfg SearchFixtures.account 3
           (SearchBookmarks "Prover" None "all" None) []
  = (Ret (JList [SearchFixtures.rocq; SearchFixtures.python]),
     [EvNew; EvEnter;
      EvRequest (request_of Sample.cfg "GET" "bookmarks"
                   (Some (get_bookmarks_params Sample.cfg None 0 100 1 None "all" None))
                   None);
      EvExit]).
Proof.
  apply (search_returns_matches UrlModel.urlparse Sample.cfg SearchFixtures.account 3
           "Prover" None "all" None
           [SearchFixtures.rocq; SearchFixtures.python; SearchFixtures.bare] []
           [EvNew; EvEnter;
            EvRequest (request_of Sample.cfg "GET" "bookmarks"
                         (Some (get_bookmarks_params Sample.cfg None 0 100 1 None "all" None))
                         None)]);
    try reflexivity.
  repeat constructor; eexists; eexists; split; reflexivity.
Defined.

(** ** Looking a bookmark up *)

Lemma find_by_url_first (url : string) (items : list json) (log : Log) :
  all_objects items ->
  find_by_url url items log = (Ret (first_match url items), log).
Proof.
  unfold first_match.
  induction 1 as [|b items Hb _ IH]; [reflexivity|].
  destruct b as [| | | | |d]; try discriminate.
  cbn [find_by_url find url_is py_get]. unfold bind, ret.
  destruct (eq_str (Dict.get "url" JNull d) url); [reflexivity|exact IH].
Qed.

(** X21: [get_bookmark_tool] and [get_annotations_tool] look at the first
    bookmark of the listing whose [url] equals the URL asked for,
    character for character, when the listing holds objects only.  The
    first returns that bookmark, the second what it holds under
    [annotations], an empty list when it has no such key; when no
    bookmark has that URL both return the not-found error. *)
Theorem lookup_returns_first_match (urlparse : string -> UrlParse) (cfg : Config)
    (w : World) (fuel : nat) (url : string) (user : option string)
    (items : list json) (log log1 : Log) :
  w_new w = None -> w_enter w = None -> w_exit w = None ->
  run_listing cfg w fuel (whole_account user) (log ++ [EvNew; EvEnter])%list
  = (Ret (JList items), log1) ->
  all_objects items ->
  run_tool urlparse cfg w fuel (GetBookmark url user) log
  = (Ret match first_match url items with
         | Some b => b
         | None => not_found url
         end, (log1 ++ [EvExit])%list)
  /\ run_tool urlparse cfg w fuel (GetAnnotations url user) log
     = (Ret match first_match url items with
            | Some b => annotations_of b
            | None => not_found url
            end, (log1 ++ [EvExit])%list).
Proof.
  intros Hnew Henter Hexit Hrun Hitems. unfold run_listing in Hrun. cbn in Hrun.
  assert (Hfound : forall b, first_match url items = Some b -> is_dict b = true).
  { intros b Hb. apply find_some in Hb as [Hin _].
    unfold all_objects in Hitems. rewrite Forall_forall in Hitems. now apply Hitems. }
  split; cbn [run_tool]; unfold get_bookmark_tool, get_annotations_tool,
    tool_boundary, try_except;
    rewrite (with_client_run w _ log Hnew Henter Hexit);
    unfold bind at 1; rewrite Hrun; cbn [is_error_dict];
    unfold bind at 1; cbn [py_iter]; unfold ret at 1;
    unfold bind at 1; rewrite (find_by_url_first url items log1 Hitems).
  - now destruct (first_match url items).
  - destruct (first_match url items) as [b|] eqn:Eb; [|reflexivity].
    specialize (Hfound b eq_refl). destruct b; try discriminate. reflexivity.
Qed.

Lemma lookup_returns_first_match_witness :
  run_tool UrlModel.urlparse Sample.cfg SearchFixtures.account 3
           (GetBookmark "https://python.org" None) []
  = (Ret SearchFixtures.python,
     [EvNew; EvEnter;
      EvRequest (request_of Sample.cfg "GET" "bookmarks"
                   (Some (get_bookmarks_params Sample.cfg None 0 100 1 None "all" None))
                   None);
      EvExit])
  /\ run_tool UrlModel.urlparse Sample.cfg SearchFixtures.account 3
              (GetAnnotations "https://python.org" None) []
     = (Ret (JList []),
        [EvNew; EvEnter;
         EvRequest (request_of Sample.cfg "GET" "bookmarks"
                      (Some (get_bookmarks_params Sample.cfg None 0 100 1 None "all" None))
                      None);
         EvExit]).
Proof.
  apply (lookup_returns_first_match UrlModel.urlparse Sample.cfg SearchFixtures.account 3
           "https://python.org" None
           [SearchFixtures.rocq; SearchFixtures.python; SearchFixtures.bare] []
           [EvNew; EvEnter;
            EvRequest (request_of Sample.cfg "GET" "bookmarks"
                         (Some (get_bookmarks_params Sample.cfg None 0 100 1 None "all" None))
                         None)]);
    try reflexivity.
  repeat constructor.
Defined.

Example lookup_is_case_sensitive :
  fst (run_tool UrlModel.urlparse Sample.cfg SearchFixtures.account 3
                (GetBookmark "https://Python.org" None) [])
  = Ret (not_found "https://Python.org").
Proof. reflexivity. Qed.

(** ** Deleting a bookmark *)

(** X22: whatever the server answers and however the run ends,
    [delete_bookmark_tool] makes no save call, and every request it sends
    is either a GET of the listing or a POST whose form is the URL asked
    for and a title: it never names another URL.  When a non-empty title
    is given it sends no GET at all, and every POST carries that
    title. *)
Theorem delete_names_only_its_url (urlparse : string -> UrlParse) (cfg : Config)
    (w : World) (fuel : nat) (url : string) (title : option string) (log : Log) :
  exists extra,
    snd (run_tool urlparse cfg w fuel (DeleteBookmark url title) log) = (log ++ extra)%list
    /\ Forall (deleting_event url) extra
    /\ (truthy (opt_str title) = true ->
        Forall (posting_event url (opt_str title)) extra).
Proof.
  assert (Hsleep : forall seconds, deleting_event url (EvSleep seconds))
    by exact (fun _ => I).
  assert (Hget : forall r, rq_method r = "GET" -> rq_data r = None ->
                           deleting_event url (EvRequest r))
    by (intros r Hm Hd; left; now split).
  assert (Hpost : forall t,
             deleting_event url
               (EvRequest (request_of cfg "POST" "bookmarks" None
                             (Some [("url", JStr url); ("title", t)]))))
    by (intros t; right; split; [reflexivity|now exists t]).
  destruct (truthy (opt_str title)) eqn:Htitle.
  - assert (Hlogs : logs_only (posting_event url (opt_str title))
                      (run_tool urlparse cfg w fuel (DeleteBookmark url title))).
    { cbn [run_tool]. unfold delete_bookmark_tool, tool_boundary. rewrite Htitle.
      apply logs_only_try_except; [|intros e; apply logs_only_ret].
      apply logs_only_with_client; try exact I.
      apply logs_only_bind; [|intros result; apply logs_only_ret].
      apply logs_only_request; [exact (fun _ => I)|now split]. }
    destruct (Hlogs log) as (extra & Hsnd & Hall).
    exists extra. split; [exact Hsnd|]. split; [|intros _; exact Hall].
    eapply Forall_impl; [|exact Hall].
    intros [| | |a|r|seconds]; cbn; try tauto.
    intros [Hm Hd]. right. split; [exact Hm|now exists (opt_str title)].
  - assert (Hlogs : logs_only (deleting_event url)
                      (run_tool urlparse cfg w fuel (DeleteBookmark url title))).
    { cbn [run_tool]. unfold delete_bookmark_tool, tool_boundary, delete_bookmark.
      rewrite Htitle.
      repeat first
        [ apply logs_only_with_client; [exact I|exact I|exact I|]
        | apply logs_only_get_all_bookmarks; [exact Hsleep|exact Hget]
        | apply logs_only_find_by_url
        | apply logs_only_request; [exact Hsleep|apply Hpost]
        | logs_step ]. }
    destruct (Hlogs log) as (extra & Hsnd & Hall).
    exists extra. split; [exact Hsnd|]. split; [exact Hall|discriminate].
Qed.

(** X23: without a title, [delete_bookmark_tool] takes the title from the
    first bookmark of the listing that has the URL.  When that title is
    a non-empty value the tool goes on with [delete_bookmark] for the URL
    and that title, closes the session after it, and returns what it
    returns; when [delete_bookmark] raises, the tool returns the error
    object made of the text of the exception.  When no bookmark has the
    URL, or the one found has no title or an empty one, the tool returns
    the not-found error and sends nothing after the listing: a bookmark
    with an empty title is reported as not found. *)
Theorem delete_looks_title_up (urlparse : string -> UrlParse) (cfg : Config)
    (w : World) (fuel : nat) (url : string) (title : option string)
    (items : list json) (log log1 : Log) :
  w_new w = None -> w_enter w = None -> w_exit w = None ->
  truthy (opt_str title) = false ->
  run_listing cfg w fuel (whole_account None) (log ++ [EvNew; EvEnter])%list
  = (Ret (JList items), log1) ->
  all_objects items ->
  run_tool urlparse cfg w fuel (DeleteBookmark url title) log
  = if truthy (title_of_match url items)
    then (reported (fst (delete_bookmark cfg w (JStr url) (title_of_match url items) log1)),
          (snd (delete_bookmark cfg w (JStr url) (title_of_match url items) log1)
           ++ [EvExit])%list)
    else (Ret (not_found url), (log1 ++ [EvExit])%list).
Proof.
  intros Hnew Henter Hexit Htitle Hrun Hitems. unfold run_listing in Hrun. cbn in Hrun.
  assert (Hfound : forall b, first_match url items = Some b -> is_dict b = true).
  { intros b Hb. apply find_some in Hb as [Hin _].
    unfold all_objects in Hitems. rewrite Forall_forall in Hitems. now apply Hitems. }
  cbn [run_tool]. unfold delete_bookmark_tool, tool_boundary, try_except.
  rewrite Htitle.
  rewrite (with_client_run w _ log Hnew Henter Hexit).
  unfold bind at 1. rewrite Hrun. cbn [is_error_dict].
  unfold bind at 1. cbn [py_iter]. unfold ret at 1.
  unfold bind at 1. rewrite (find_by_url_first url items log1 Hitems).
  unfold title_of_match.
  destruct (first_match url items) as [b|] eqn:Eb.
  - specialize (Hfound b eq_refl). destruct b as [| | | | |d]; try discriminate.
    unfold bind at 1. cbn [py_get]. unfold ret at 1.
    destruct (truthy (Dict.get "title" JNull d)) eqn:Ht; cbn [negb]; [|reflexivity].
    unfold delete_bookmark, bind.
    destruct (request_with_retry_events cfg w "POST" "bookmarks" None
                (Some [("url", JStr url); ("title", Dict.get "title" JNull d)]) log1)
      as (result & extra & -> & Hback & _).
    destruct result as [x|e|]; [reflexivity|reflexivity|now destruct Hback].
  - unfold bind at 1. unfold ret at 1. rewrite Htitle. reflexivity.
Qed.

Lemma delete_looks_title_up_witness :
  run_tool UrlModel.urlparse Sample.cfg DeleteFixtures.account 3
           (DeleteBookmark "https://e.com/untitled" None) []
  = (Ret (not_found "https://e.com/untitled"),
     [EvNew; EvEnter;
      EvRequest (request_of Sample.cfg "GET" "bookmarks"
                   (Some (get_bookmarks_params Sample.cfg None 0 100 1 None "all" None))
                   None);
      EvExit]).
Proof.
  apply (delete_looks_title_up UrlModel.urlparse Sample.cfg DeleteFixtures.account 3
           "https://e.com/untitled" None
           [SearchFixtures.rocq; DeleteFixtures.untitled] []
           [EvNew; EvEnter;
            EvRequest (request_of Sample.cfg "GET" "bookmarks"
                         (Some (get_bookmarks_params Sample.cfg None 0 100 1 None "all" None))
                         None)]);
    try reflexivity.
  repeat constructor.
Defined.

Example delete_with_looked_up_title :
  run_tool UrlModel.urlparse Sample.cfg DeleteFixtures.account 3
           (DeleteBookmark "https://rocq-prover.org" (Some "")) []
  = (Ret Sample.added,
     [EvNew; EvEnter;
      EvRequest (request_of Sample.cfg "GET" "bookmarks"
                   (Some (get_bookmarks_params Sample.cfg None 0 100 1 None "all" None))
                   None);
      EvRequest (request_of Sample.cfg "POST" "bookmarks" None
                   (Some [("url", JStr "https://rocq-prover.org");
                          ("title", JStr "The Rocq Prover")]));
      EvExit]).
Proof. reflexivity. Qed.

Example delete_reports_overflow :
  run_tool UrlModel.urlparse RetryFixtures.steep DeleteFixtures.late 3
           (DeleteBookmark "https://rocq-prover.org" None) []
  = (Ret (error_dict "(34, 'Numerical result out of range')"),
     [EvNew; EvEnter;
      EvRequest (request_of RetryFixtures.steep "GET" "bookmarks"
                   (Some (get_bookmarks_params RetryFixtures.steep None 0 100 1 None
                                               "all" None))
                   None);
      EvRequest (request_of RetryFixtures.steep "POST" "bookmarks" None
                   (Some [("url", JStr "https://rocq-prover.org");
                          ("title", JStr "The Rocq Prover")]));
      EvSleep 1;
      EvRequest (request_of RetryFixtures.steep "POST" "bookmarks" None
                   (Some [("url", JStr "https://rocq-prover.org");
                          ("title", JStr "The Rocq Prover")]));
      EvSleep (inject_Z (2 ^ 600));
      EvRequest (request_of RetryFixtures.steep "POST" "bookmarks" None
                   (Some [("url", JStr "https://rocq-prover.org");
                          ("title", JStr "The Rocq Prover")]));
      EvExit]).
Proof. vm_compute. reflexivity. Qed.

(** ** The session of a tool *)

Section SessionFacts.

Variable cfg : Config.
Variable w : World.

Lemma client_events_save_bookmark (a : SaveArgs) :
  logs_only client_event (save_bookmark cfg w a).
Proof.
  unfold save_bookmark.
  apply logs_only_bind; [now apply logs_only_emit|intros _].
  apply logs_only_request; [exact (fun _ => I)|exact I].
Qed.

Lemma client_events_bulk_save_bookmarks (bookmarks : list dict) (delay : Q) :
  logs_only client_event (bulk_save_bookmarks cfg w bookmarks delay).
Proof.
  unfold bulk_save_bookmarks.
  apply logs_only_bind; [|intros counters; apply logs_only_ret].
  generalize (List.length bookmarks) 0%nat 0 (@nil json).
  induction bookmarks as [|bookmark rest IH]; intros total i success_count failed;
    cbn [bulk_loop]; [apply logs_only_ret|].
  apply logs_only_bind; [|intros counters; apply IH].
  unfold bulk_step, bind_save_kwargs, sleep.
  repeat first
    [ apply client_events_save_bookmark
    | apply logs_only_emit; exact I
    | logs_step ].
Qed.

Lemma with_client_brackets {A : Type} (body : M A) (log : Log) :
  w_new w = None -> w_enter w = None ->
  logs_only client_event body ->
  fst (with_client w body log) = Spin
  \/ exists inner,
       snd (with_client w body log) = (log ++ [EvNew; EvEnter] ++ inner ++ [EvExit])%list
       /\ Forall client_event inner.
Proof.
  intros Hnew Henter Hbody. unfold with_client, bind, emit, may_fail, ret.
  rewrite Hnew, Henter.
  destruct (Hbody ((log ++ [EvNew]) ++ [EvEnter])%list) as (inner & Hsnd & Hall).
  destruct (body ((log ++ [EvNew]) ++ [EvEnter])%list) as [[a|e|] log1];
    cbn [snd] in Hsnd; subst log1; [right|right|now left];
    exists inner; (split; [|exact Hall]);
    destruct (w_exit w); cbn [fst snd]; rewrite <- !app_assoc; reflexivity.
Qed.

End SessionFacts.

Lemma tool_boundary_ret (c : M json) (log log' : Log) (v : json) :
  tool_boundary c log = (Ret v, log') ->
  fst (c log) <> Spin /\ snd (c log) = log'.
Proof.
  unfold tool_boundary, try_except, ret.
  destruct (c log) as [[x|e|] l]; intros H; inversion H; subst; now split.
Qed.

(** X24: every tool run that returns has used its session properly, when
    the client can be built and opened.  A creation or an update whose
    URL does not validate leaves the log as it was and returns an error
    object.  Every other run adds to the log the building of one client,
    one opening of the session, then nothing but save calls, requests
    and sleeps, and last of all one closing of the session: the session
    is closed on success, on an error result and on an exception
    alike. *)
Theorem session_brackets_the_work (urlparse : string -> UrlParse) (cfg : Config)
    (w : World) (fuel : nat) (call : ToolCall) (log log' : Log) (v : json) :
  w_new w = None -> w_enter w = None ->
  run_tool urlparse cfg w fuel call log = (Ret v, log') ->
  if rejected urlparse call
  then log' = log /\ is_error_dict v = true
  else exists inner,
         log' = (log ++ [EvNew; EvEnter] ++ inner ++ [EvExit])%list
         /\ Forall client_event inner.
Proof.
  intros Hnew Henter Hrun.
  assert (Hget : forall r, rq_method r = "GET" -> rq_data r = None ->
                           client_event (EvRequest r)) by (intros; exact I).
  assert (Hsleep : forall seconds, client_event (EvSleep seconds)) by exact (fun _ => I).
  assert (Hbracket : forall body : M json,
             logs_only client_event body ->
             tool_boundary (with_client w body) log = (Ret v, log') ->
             exists inner,
               log' = (log ++ [EvNew; EvEnter] ++ inner ++ [EvExit])%list
               /\ Forall client_event inner).
  { intros body Hbody Hb. apply tool_boundary_ret in Hb as [Hspin Hsnd].
    destruct (with_client_brackets w body log Hnew Henter Hbody)
      as [Hs|(inner & Hs & Hall)]; [contradiction|].
    exists inner. split; [congruence|exact Hall]. }
  destruct call as [user count start sort tags filter_value list_name
                   | query tags filter_value user | url user
                   | url title desc tags shared rl
                   | url title desc tags shared rl
                   | url title | count user | url user | bookmarks delay ];
    cbn [run_tool rejected] in *;
    unfold list_bookmarks_tool, search_bookmarks_tool, get_bookmark_tool,
      create_bookmark_tool, update_bookmark_tool, delete_bookmark_tool,
      get_recent_bookmarks_tool, get_annotations_tool, bulk_create_bookmarks_tool,
      delete_bookmark in Hrun;
    try (destruct (negb (validate_url urlparse url)) eqn:Hvalid;
         [unfold tool_boundary, try_except, ret in Hrun; inversion Hrun; now split|]);
    (eapply Hbracket; [|exact Hrun]);
    repeat first
      [ apply logs_only_get_all_bookmarks; [exact Hsleep|exact Hget]
      | apply logs_only_get_bookmarks; [exact Hsleep|exact Hget]
      | apply logs_only_find_by_url
      | apply logs_only_search_filter
      | apply client_events_save_bookmark
      | apply client_events_bulk_save_bookmarks
      | apply logs_only_request; [exact Hsleep|exact I]
      | logs_step ].
Qed.

Lemma session_brackets_the_work_witness :
  exists inner,
    [EvNew; EvEnter;
     EvRequest (request_of Sample.cfg "GET" "bookmarks"
                  (Some (get_bookmarks_params Sample.cfg None 0 100 1 None "all" None))
                  None);
     EvExit]
    = ([] ++ [EvNew; EvEnter] ++ inner ++ [EvExit])%list
    /\ Forall client_event inner.
Proof.
  apply (session_brackets_the_work UrlModel.urlparse Sample.cfg SearchFixtures.locked 3
           (UpdateBookmark "https://e.com/a" None None (Some "new") None None) []
           [EvNew; EvEnter;
            EvRequest (request_of Sample.cfg "GET" "bookmarks"
                         (Some (get_bookmarks_params Sample.cfg None 0 100 1 None "all" None))
                         None);
            EvExit]
           (error_dict "Authentication failed: bad credentials"));
    reflexivity.
Defined.

(** ** The configuration *)

(** X25: [Config.validate] accepts a configuration exactly when the user
    name, the password and the API key are all set to non-empty values;
    when it refuses, its message names every setting that is missing or
    empty, and no setting that is there. *)
Theorem validate_names_what_is_missing (cfg : Config) :
  (validate cfg = Ret tt
   <-> Forall (fun entry => is_set (snd entry) = true) (required cfg))
  /\ (forall e, validate cfg = Raise e ->
        forall name value, In (name, value) (required cfg) ->
          PyStr.contains name (exc_msg e) = negb (is_set value)).
Proof.
  destruct cfg as [u p k base_url timeout per_request retries backoff].
  destruct u as [[|uc us]|], p as [[|pc ps]|], k as [[|kc ks]|];
    (split;
     [ split;
       [ intros H; first [discriminate H | repeat constructor]
       | intros H; first
           [ reflexivity
           | exfalso; inversion H as [|? ? H1 H2]; subst;
             first [discriminate H1
                   | inversion H2 as [|? ? H3 H4]; subst;
                     first [discriminate H3
                           | inversion H4 as [|? ? H5 H6]; subst; discriminate H5]]] ]
     | intros e He name value Hin;
       first
         [ discriminate He
         | injection He as <-; cbn [required In] in Hin;
           destruct Hin as [Hin|[Hin|[Hin|[]]]]; injection Hin as <- <-;
           vm_compute; reflexivity ] ]).
Qed.

Example validate_sample_configuration :
  validate Sample.cfg = Ret tt
  /\ exists e, validate {| DIIGO_USERNAME := Some "alice";
                              DIIGO_PASSWORD := None;
                              DIIGO_API_KEY := Some "";
                              DIIGO_BASE_URL := "";
                              REQUEST_TIMEOUT := 10;
                              MAX_BOOKMARKS_PER_REQUEST := 100;
                              MAX_RETRIES := 3;
                              RETRY_BACKOFF := 2 |} = Raise e
               /\ PyStr.contains "variables: DIIGO_PASSWORD, DIIGO_API_KEY" (exc_msg e)
                  = true.
Proof. split; [reflexivity|]. eexists. repeat split. Qed.

(** ** The server *)

Lemma bind_ret_l {A B : Type} (a : A) (k : A -> M B) : bind (ret a) k = k a.
Proof. reflexivity. Qed.

Lemma is_response_result (msg_id body : json) :
  is_response msg_id (JDict [("jsonrpc", JStr "2.0"); ("id", msg_id); ("result", body)]).
Proof. exists "result", body. split; [reflexivity|now left]. Qed.

Lemma is_response_error (msg_id : json) (code : Z) (message : string) :
  In code [method_not_found; invalid_params; internal_error] ->
  is_response msg_id (error_response msg_id code message).
Proof.
  intros Hcode. eexists "error", _. split; [reflexivity|]. right.
  split; [reflexivity|]. now exists code, message.
Qed.

(** A tool function that has bound its arguments never raises. *)
Lemma call_tool_bound (s : Setup) (f : ToolFunction) (arguments : json) (log : Log) :
  bindable f arguments = true ->
  exists body,
    call_tool (su_urlparse s) (su_cfg s) (su_world s) (su_fuel s)
              (su_binding_error s) (su_untyped_body s) f arguments
    = tool_boundary body.
Proof.
  intros Hbind. destruct arguments as [| | | | |kw]; try discriminate.
  cbn [bindable] in Hbind. cbn [call_tool]. rewrite Hbind.
  destruct (typed_call f kw) as [call|]; [apply run_tool_boundary|now eexists].
Qed.

Lemma call_tool_unbound (s : Setup) (f : ToolFunction) (arguments : json) (log : Log) :
  bindable f arguments = false ->
  call_tool (su_urlparse s) (su_cfg s) (su_world s) (su_fuel s)
            (su_binding_error s) (su_untyped_body s) f arguments log
  = (Raise (Exn TypeError (su_binding_error s f arguments)), log).
Proof.
  intros Hbind. destruct arguments as [| | | | |kw]; try reflexivity.
  cbn [bindable] in Hbind. cbn [call_tool]. now rewrite Hbind.
Qed.

(** What [handle_call_tool] comes to, case by case. *)
Lemma handle_call_tool_cases (s : Setup) (msg_id params : json) (log : Log) :
  let run := handle_call_tool (su_urlparse s) (su_cfg s) (su_world s) (su_fuel s)
               (su_dumps s) (su_repr s) (su_binding_error s) (su_untyped_body s)
               msg_id params log in
  match params with
  | JDict p =>
      match route (Dict.get "name" JNull p) with
      | None =>
          run = (Ret (error_response msg_id invalid_params
                        ("Unknown tool: "
                         ++ py_str (su_repr s) (Dict.get "name" JNull p))), log)
      | Some f =>
          if bindable f (Dict.get "arguments" (JDict []) p)
          then (exists v log',
                  run = (Ret (JDict [("jsonrpc", JStr "2.0"); ("id", msg_id);
                                     ("result",
                                      JDict [("content",
                                              JList [JDict [("type", JStr "text");
                                                            ("text", JStr (su_dumps s v))]])])]),
                         log'))
               \/ fst run = Spin
          else run = (Ret (error_response msg_id internal_error
                             ("Tool error: "
                              ++ su_binding_error s f (Dict.get "arguments" (JDict []) p))),
                      log)
      end
  | _ => exists e, run = (Raise e, log)
  end.
Proof.
  intros run. subst run. unfold handle_call_tool.
  destruct params as [| | | | |p]; try (eexists; reflexivity).
  cbn [py_get]. rewrite !bind_ret_l. unfold try_except.
  destruct (route (Dict.get "name" JNull p)) as [f|]; [|reflexivity].
  destruct (bindable f (Dict.get "arguments" (JDict []) p)) eqn:Hbind.
  - destruct (call_tool_bound s f _ log Hbind) as (body & Hbody).
    unfold bind. rewrite Hbody.
    pose proof (tool_boundary_never_raises body log) as Hnever.
    destruct (tool_boundary body log) as [[v|e|] log'].
    + left. now exists v, log'.
    + now destruct (Hnever e).
    + now right.
  - unfold bind. rewrite (call_tool_unbound s f _ log Hbind). reflexivity.
Qed.

(** What [handle_message] comes to on an object, by the fault of the
    request. *)
Lemma handle_message_cases (s : Setup) (d : dict) (log : Log) :
  match fault d with
  | Some code =>
      exists message,
        handle s (JDict d) log
        = (Ret (error_response (Dict.get "id" JNull d) code message), log)
  | None =>
      (exists body log',
         handle s (JDict d) log
         = (Ret (JDict [("jsonrpc", JStr "2.0"); ("id", Dict.get "id" JNull d);
                        ("result", body)]), log'))
      \/ fst (handle s (JDict d) log) = Spin
  end.
Proof.
  unfold handle, handle_message, fault. cbn [py_get].
  rewrite !bind_ret_l. unfold try_except.
  destruct (eq_str (Dict.get "method" JNull d) "initialize"); cbn [orb];
    [left; eexists _, log; reflexivity|].
  destruct (eq_str (Dict.get "method" JNull d) "tools/list");
    [left; eexists _, log; reflexivity|].
  destruct (eq_str (Dict.get "method" JNull d) "tools/call");
    [|eexists; reflexivity].
  pose proof (handle_call_tool_cases s (Dict.get "id" JNull d)
                (Dict.get "params" (JDict []) d) log) as Hcases.
  cbv zeta in Hcases.
  destruct (Dict.get "params" (JDict []) d) as [| | | | |p];
    try (destruct Hcases as (e & ->); eexists; reflexivity).
  destruct (route (Dict.get "name" JNull p)) as [f|].
  - destruct (bindable f (Dict.get "arguments" (JDict []) p)).
    + destruct Hcases as [(v & l & ->)|Hspin].
      * left. eexists _, l. reflexivity.
      * right.
        destruct (handle_call_tool _ _ _ _ _ _ _ _ _ _ log) as [[v|e|] l];
          try discriminate. reflexivity.
    + rewrite Hcases. eexists; reflexivity.
  - rewrite Hcases. eexists; reflexivity.
Qed.

Lemma fault_codes (d : dict) (code : Z) :
  fault d = Some code ->
  In code [method_not_found; invalid_params; internal_error].
Proof.
  unfold fault.
  repeat match goal with
         | |- context [if ?b then _ else _] => destruct b
         | |- context [match ?x with _ => _ end] => destruct x
         end;
    intros [= <-]; cbn; tauto.
Qed.

(** A call of a tool function comes back when the pagination budget
    exceeds the number of full pages the server has. *)
Lemma call_tool_total (s : Setup) (n : nat) (f : ToolFunction) (arguments : json) :
  full_pages_end (su_world s) n ->
  (n < su_fuel s)%nat ->
  (forall g kw, total (su_untyped_body s g kw)) ->
  total (call_tool (su_urlparse s) (su_cfg s) (su_world s) (su_fuel s)
                   (su_binding_error s) (su_untyped_body s) f arguments).
Proof.
  intros Hend Hfuel Hbody.
  destruct arguments as [| | | | |kw]; try apply total_raise.
  cbn [call_tool]. destruct (binds f kw); [|apply total_raise].
  destruct (typed_call f kw) as [call|].
  - now apply run_tool_total with (n := n).
  - unfold tool_boundary. apply total_try_except; [apply Hbody|].
    intros e. apply total_ret.
Qed.

Lemma handle_total (s : Setup) (n : nat) (d : dict) :
  full_pages_end (su_world s) n ->
  (n < su_fuel s)%nat ->
  (forall g kw, total (su_untyped_body s g kw)) ->
  total (handle s (JDict d)).
Proof.
  intros Hend Hfuel Hbody. unfold handle, handle_message. cbn [py_get].
  rewrite !bind_ret_l.
  apply total_try_except; [|intros e; apply total_ret].
  destruct (eq_str (Dict.get "method" JNull d) "initialize"); [apply total_ret|].
  destruct (eq_str (Dict.get "method" JNull d) "tools/list"); [apply total_ret|].
  destruct (eq_str (Dict.get "method" JNull d) "tools/call"); [|apply total_ret].
  unfold handle_call_tool.
  apply total_bind; [apply total_py_get|intros tool_name].
  apply total_bind; [apply total_py_get|intros arguments].
  apply total_try_except; [|intros e; apply total_ret].
  destruct (route tool_name) as [f|]; [|apply total_ret].
  apply total_bind; [now apply call_tool_total with (n := n)|].
  intros result. apply total_ret.
Qed.



(** X27: the error code of a response tells what was wrong with the
    request, and nothing else does: -32601 for a method other than
    [initialize], [tools/list] and [tools/call]; -32602 for a call of a
    tool the server does not have; -32603 for a call whose [params] are
    no object or whose arguments do not bind to the parameters of the
    tool.  A request with none of these faults gets a result, even when
    the tool itself fails: a tool's error object travels inside a
    result.  An error response means that no tool has run: the log is as
    it was. *)
Theorem error_code_tells_the_fault (s : Setup) (d : dict) (log log' : Log)
    (response : json) :
  handle s (JDict d) log = (Ret response, log') ->
  error_code response = fault d
  /\ (fault d <> None -> log' = log).
Proof.
  intros Hrun. pose proof (handle_message_cases s d log) as Hcases.
  destruct (fault d) as [code|].
  - destruct Hcases as (message & Hcase). rewrite Hcase in Hrun.
    injection Hrun as <- <-. split; reflexivity.
  - destruct Hcases as [(body & l & Hcase)|Hspin].
    + rewrite Hcase in Hrun. injection Hrun as <- <-.
      split; [reflexivity|congruence].
    + rewrite Hrun in Hspin. discriminate.
Qed.

Lemma error_code_tells_the_fault_witness :
  error_code
    (error_response JNull method_not_found "Method not found: notifications/initialized")
  = fault [("jsonrpc", JStr "2.0"); ("method", JStr "notifications/initialized")]
  /\ (fault [("jsonrpc", JStr "2.0"); ("method", JStr "notifications/initialized")]
      <> None -> @nil Event = []).
Proof.
  apply (error_code_tells_the_fault ServerFixtures.setup
           [("jsonrpc", JStr "2.0"); ("method", JStr "notifications/initialized")]
           [] []
           (error_response JNull method_not_found
                           "Method not found: notifications/initialized")).
  reflexivity.
Defined.

Example tool_error_travels_in_a_result :
  fst (handle ServerFixtures.setup
              (ServerFixtures.call 2 "diigo_create_bookmark"
                 [("url", JStr "no scheme"); ("title", JStr "T")]) [])
  = Ret (JDict [("jsonrpc", JStr "2.0"); ("id", JInt 2);
                ("result",
                 JDict [("content",
                         JList [JDict [("type", JStr "text");
                                       ("text", JStr "{error:'Invalid URL: no scheme'}")]])])]).
Proof. reflexivity. Qed.

(** ** The tool list and the dispatch *)

Lemma advertised_signatures (a : Advertised) :
  In a advertised ->
  exists f,
    route (JStr (ad_name a)) = Some f
    /\ ad_properties a = parameters f
    /\ ad_required a = required_parameters f.
Proof.
  intros Hin. cbn [advertised In] in Hin.
  repeat (destruct Hin as [<-|Hin]; [eexists; repeat split|]).
  destruct Hin.
Qed.

(** X28: the tool list and the dispatch agree.  [handle_call_tool]
    routes a name exactly when the tool list advertises it; every
    advertised tool is routed to a function whose parameters are, name
    for name and in order, the properties of the advertised schema, and
    whose parameters without a default are the ones the schema
    requires; and each of the nine tool functions is reached by an
    advertised name. *)
Theorem advertised_tools_are_routed (tool_name : json) :
  (route tool_name <> None
   <-> exists a, In a advertised /\ tool_name = JStr (ad_name a))
  /\ (forall a, In a advertised ->
        exists f,
          route (JStr (ad_name a)) = Some f
          /\ ad_properties a = parameters f
          /\ ad_required a = required_parameters f)
  /\ (forall f, exists a, In a advertised /\ route (JStr (ad_name a)) = Some f).
Proof.
  split; [|split].
  - split.
    + intros Hroute. destruct tool_name as [| | |name| |];
        try (now destruct Hroute).
      assert (Hname : In name (map ad_name advertised)).
      { cbv beta iota delta [route eq_str] in Hroute.
        repeat match type of Hroute with
               | (if String.eqb name ?known then _ else _) <> None =>
                   destruct (String.eqb_spec name known) as [Hknown|_];
                   [rewrite Hknown; cbn; repeat (first [left; reflexivity | right])|]
               end.
        now destruct Hroute. }
      apply in_map_iff in Hname as (a & <- & Hin). now exists a.
    + intros (a & Hin & ->).
      destruct (advertised_signatures a Hin) as (f & -> & _). discriminate.
  - exact advertised_signatures.
  - intros f. destruct f;
      [ exists (nth 0 advertised (Build_Advertised "" [] []))
      | exists (nth 1 advertised (Build_Advertised "" [] []))
      | exists (nth 2 advertised (Build_Advertised "" [] []))
      | exists (nth 3 advertised (Build_Advertised "" [] []))
      | exists (nth 4 advertised (Build_Advertised "" [] []))
      | exists (nth 5 advertised (Build_Advertised "" [] []))
      | exists (nth 6 advertised (Build_Advertised "" [] []))
      | exists (nth 7 advertised (Build_Advertised "" [] []))
      | exists (nth 8 advertised (Build_Advertised "" [] [])) ];
      (split; [cbn; tauto|reflexivity]).
Qed.

Lemma binds_iff_conforms (a : Advertised) (f : ToolFunction) (kw : dict) :
  In a advertised ->
  route (JStr (ad_name a)) = Some f ->
  binds f kw = true <-> conforms a kw.
Proof.
  intros Hin Hroute.
  destruct (advertised_signatures a Hin) as (f' & Hroute' & Hprops & Hreq).
  rewrite Hroute in Hroute'. injection Hroute' as <-.
  unfold binds, conforms. rewrite Hprops, Hreq, andb_true_iff, !forallb_forall.
  split; intros [Hkeys Hgiven]; (split; [|exact Hgiven]); intros k Hk.
  - specialize (Hkeys k Hk). apply existsb_exists in Hkeys as (k' & Hk' & Heq).
    apply String.eqb_eq in Heq. now subst.
  - apply existsb_exists. exists k. split; [now apply Hkeys|apply String.eqb_refl].
Qed.

(** X29: a call of an advertised tool gets a result exactly when its
    arguments fit the advertised schema by name: when every keyword is a
    property of the schema and every required property is given, the
    response carries the text the tool returned, whatever that is;
    otherwise the response is the error -32603 and no tool has run. *)
Theorem conforming_call_gets_a_result (s : Setup) (a : Advertised)
    (d params kw : dict) (log log' : Log) (response : json) :
  In a advertised ->
  eq_str (Dict.get "method" JNull d) "tools/call" = true ->
  Dict.get "params" (JDict []) d = JDict params ->
  Dict.get "name" JNull params = JStr (ad_name a) ->
  Dict.get "arguments" (JDict []) params = JDict kw ->
  handle s (JDict d) log = (Ret response, log') ->
  (conforms a kw -> error_code response = None)
  /\ (~ conforms a kw -> error_code response = Some internal_error /\ log' = log).
Proof.
  intros Hin Hmethod Hparams Hname Hargs Hrun.
  destruct (advertised_signatures a Hin) as (f & Hroute & _).
  pose proof (binds_iff_conforms a f kw Hin Hroute) as Hbinds.
  assert (Hcode : error_code response = fault d /\ (fault d <> None -> log' = log)).
  { pose proof (handle_message_cases s d log) as Hcases.
    destruct (fault d) as [code|].
    - destruct Hcases as (message & Hcase). rewrite Hcase in Hrun.
      injection Hrun as <- <-. split; reflexivity.
    - destruct Hcases as [(body & l & Hcase)|Hspin].
      + rewrite Hcase in Hrun. injection Hrun as <- <-.
        split; [reflexivity|congruence].
      + rewrite Hrun in Hspin. discriminate. }
  destruct Hcode as [Hcode Hlog].
  assert (Hfault : fault d = if binds f kw then None else Some internal_error).
  { unfold fault. rewrite Hparams, Hname, Hargs, Hroute, Hmethod.
    destruct (Dict.get "method" JNull d) as [| | |m| |]; try discriminate.
    cbn [eq_str] in *. apply String.eqb_eq in Hmethod. subst m. reflexivity. }
  rewrite Hfault in Hcode, Hlog.
  destruct (binds f kw).
  - split; [intros _; exact Hcode|].
    intros Hnot. destruct Hnot. now apply Hbinds.
  - split.
    + intros Hconf. apply Hbinds in Hconf. discriminate.
    + intros _. split; [exact Hcode|apply Hlog; discriminate].
Qed.

Lemma conforming_call_gets_a_result_witness :
  (conforms ServerFixtures.create_entry
            [("url", JStr "no scheme"); ("title", JStr "T")] ->
   error_code
     (JDict [("jsonrpc", JStr "2.0"); ("id", JInt 2);
             ("result",
              JDict [("content",
                      JList [JDict [("type", JStr "text");
                                    ("text", JStr "{error:'Invalid URL: no scheme'}")]])])])
   = None)
  /\ (~ conforms ServerFixtures.create_entry
                 [("url", JStr "no scheme"); ("title", JStr "T")] ->
      error_code
        (JDict [("jsonrpc", JStr "2.0"); ("id", JInt 2);
                ("result",
                 JDict [("content",
                         JList [JDict [("type", JStr "text");
                                       ("text", JStr "{error:'Invalid URL: no scheme'}")]])])])
      = Some internal_error /\ @nil Event = []).
Proof.
  apply (conforming_call_gets_a_result ServerFixtures.setup
           ServerFixtures.create_entry
           [("jsonrpc", JStr "2.0"); ("id", JInt 2); ("method", JStr "tools/call");
            ("params", JDict [("name", JStr "diigo_create_bookmark");
                              ("arguments", JDict [("url", JStr "no scheme");
                                                   ("title", JStr "T")])])]
           [("name", JStr "diigo_create_bookmark");
            ("arguments", JDict [("url", JStr "no scheme"); ("title", JStr "T")])]
           [("url", JStr "no scheme"); ("title", JStr "T")]
           [] []);
    first [reflexivity | cbn; repeat (first [left; reflexivity | right])].
Defined.

Example stray_keyword_is_a_tool_error :
  handle ServerFixtures.setup
         (ServerFixtures.call 3 "diigo_get_bookmark"
            [("url", JStr "https://python.org"); ("username", JStr "alice")]) []
  = (Ret (error_response (JInt 3) internal_error
            "Tool error: got an unexpected keyword argument"), []).
Proof. reflexivity. Qed.

(** ** The loop of the server *)

Lemma turn_cases (s : Setup) (line : string) (log : Log) :
  if PyStr.is_empty line then take_turn s line log = (Ret Stop, log)
  else
    match request_of_line s line with
    | None => take_turn s line log = (Ret Skip, log)
    | Some d =>
        (exists response log',
           take_turn s line log
           = (Ret (Answer (su_dumps s response ++ newline)), log')
           /\ is_response (Dict.get "id" JNull d) response)
        \/ fst (take_turn s line log) = Spin
    end.
Proof.
  unfold take_turn, turn, request_of_line, try_except.
  destruct (PyStr.is_empty line); [reflexivity|].
  destruct (PyStr.is_empty (PyStr.strip line)); [reflexivity|].
  destruct (su_loads s (PyStr.strip line)) as [message|]; [|reflexivity].
  unfold bind.
  destruct message as [| | | | |d]; try reflexivity.
  pose proof (handle_message_cases s d log) as Hcases. unfold handle in Hcases.
  destruct (fault d) as [code|] eqn:Hfault.
  - destruct Hcases as (message & ->). left. eexists _, log.
    split; [reflexivity|]. apply is_response_error. now apply fault_codes with d.
  - destruct Hcases as [(body & log' & ->)|Hspin].
    + left. eexists _, log'. split; [reflexivity|apply is_response_result].
    + right.
      destruct (handle_message _ _ _ _ _ _ _ _ _ (JDict d) log) as [[x|e|] l];
        try discriminate. reflexivity.
Qed.

Lemma serve_answers (s : Setup) (lines : list string) (log : Log) :
  (exists written log',
     serve (su_urlparse s) (su_cfg s) (su_world s) (su_fuel s) (su_dumps s)
           (su_loads s) (su_repr s) (su_tools_list s) (su_binding_error s)
           (su_untyped_body s) lines log
     = (Ret written, log')
     /\ Forall2 (answers s) (requests_of_lines s (before_eof lines)) written)
  \/ fst (serve (su_urlparse s) (su_cfg s) (su_world s) (su_fuel s) (su_dumps s)
                (su_loads s) (su_repr s) (su_tools_list s) (su_binding_error s)
                (su_untyped_body s) lines log)
     = Spin.
Proof.
  revert log. induction lines as [|line rest IH]; intros log.
  - left. exists [], log. split; [reflexivity|constructor].
  - cbn [serve before_eof].
    pose proof (turn_cases s line log) as Hturn. unfold take_turn in Hturn.
    destruct (PyStr.is_empty line).
    + unfold bind. rewrite Hturn. left. exists [], log.
      split; [reflexivity|constructor].
    + cbn [requests_of_lines].
      destruct (request_of_line s line) as [d|].
      * destruct Hturn as [(response & log1 & Hturn & Hresponse)|Hspin].
        -- unfold bind. rewrite Hturn.
           destruct (IH log1) as [(written & log2 & Hrest & Hall)|Hspin].
           ++ left. exists ((su_dumps s response ++ newline) :: written), log2.
              rewrite Hrest. split; [reflexivity|].
              constructor; [|exact Hall]. now exists response.
           ++ right.
              destruct (serve _ _ _ _ _ _ _ _ _ _ rest log1) as [[x|e|] l];
                try discriminate. reflexivity.
        -- right. unfold bind.
           destruct (turn _ _ _ _ _ _ _ _ _ _ line log) as [[x|e|] l];
             try discriminate. reflexivity.
      * unfold bind. rewrite Hturn. exact (IH log).
Qed.

(** X30: the loop of [run].  A configuration that does not validate ends
    the server with status 1 before a line is read.  Otherwise the
    server never raises, and when it comes to the end of its input it
    has written exactly one line for every line before the end of the
    input that holds a JSON object, in the order of the input: each is
    a JSON-RPC response with the [id] of its request.  Blank lines,
    lines that are no JSON, and JSON values that are no objects get no
    answer at all. *)
Theorem server_answers_requests_in_order (s : Setup) (lines : list string)
    (log : Log) :
  (validate (su_cfg s) <> Ret tt -> run_server s lines log = (Ret (inl 1), log))
  /\ (validate (su_cfg s) = Ret tt ->
      (exists written log',
         run_server s lines log = (Ret (inr written), log')
         /\ Forall2 (answers s) (requests_of_lines s (before_eof lines)) written)
      \/ fst (run_server s lines log) = Spin).
Proof.
  unfold run_server, run. split.
  - intros Hvalid. destruct (validate (su_cfg s)) as [[]|e|] eqn:E;
      [now destruct Hvalid|reflexivity|reflexivity].
  - intros ->. unfold bind.
    destruct (serve_answers s lines log) as [(written & log' & -> & Hall)|Hspin].
    + left. now exists written, log'.
    + right.
      destruct (serve _ _ _ _ _ _ _ _ _ _ lines log) as [[x|e|] l];
        try discriminate. reflexivity.
Qed.

Example server_session :
  run_server ServerFixtures.setup
             ["initialized"; ""%string] []
  = (Ret (inr ["{jsonrpc:'2.0',id:null,error:{code:-32601,message:'Method not found: notifications/initialized'}}"
               ++ newline]), [])
  /\ fst (run_server ServerFixtures.setup
                     ["  "; "not json"; "batch"; "create"; ""; "initialize"]%string [])
     = Ret (inr ["{jsonrpc:'2.0',id:2,result:{content:[{type:'text',text:'{error:'Invalid URL: no scheme'}'}]}}"
                 ++ newline]).
Proof. split; reflexivity. Qed.
